(** * Contrastive PLM-DTI: the training orchestrator of [train_DTI.py]

    A shallow embedding of [test], [wandb_log] and [main] of
    [src/train_DTI.py], from the task dispatch (line 213) to [return model_max]
    (line 562).  Python variables and the outside world (saved files, the
    wandb sink, the logger) live in one state record, threaded through a state
    and exception monad, so that a raised exception keeps the effects that
    happened before it.  The model architecture, the data modules, the
    torchmetrics classes, the optimiser arithmetic and the clock are external
    collaborators: they are the fields of [Env], and where a call into them
    can raise, [Env] says what it raises.

    The state also carries a ghost trace, which the code does not have: each
    optimiser step, schedule step, evaluation, checkpoint comparison and save
    appends one event where the source makes the call, so that claims about
    order and counts can be stated.  Not modelled: the log lines written
    before line 352, the normalisation [pathlib.Path] applies to a path, and
    metric values that are infinite. *)

From Stdlib Require Import ZArith QArith List String Ascii Bool Lia.
From Stdlib Require Import DecimalString DecimalNat.
From Stdlib Require Import Reals Lra.
Import ListNotations.

Set Implicit Arguments.

Local Open Scope string_scope.
Local Open Scope list_scope.

(** ** Exceptions and results *)

(** Python exceptions by class name.  [except Exception] catches the
    instances of [Exception]; [KeyboardInterrupt], [SystemExit] and
    [GeneratorExit] derive from [BaseException] only and pass through it. *)
Inductive exn : Type :=
| PyException (cls : string)
| PyBaseException (cls : string).

Definition is_Exception (e : exn) : bool :=
  match e with
  | PyException _ => true
  | PyBaseException _ => false
  end.

Inductive res (A : Type) : Type :=
| Ok (a : A)
| Raise (e : exn).
Arguments Ok {A} a.
Arguments Raise {A} e.

(** Sequencing of computations that touch no variable: the first exception
    ends them. *)
Definition rbind {A B : Type} (r : res A) (k : A -> res B) : res B :=
  match r with
  | Ok a => k a
  | Raise e => Raise e
  end.

(** [for x in xs: acc = f acc x] on computations that touch no variable. *)
Fixpoint rfold {A S : Type} (f : S -> A -> res S) (xs : list A) (acc : S)
  : res S :=
  match xs with
  | [] => Ok acc
  | x :: xs' => rbind (f acc x) (rfold f xs')
  end.

(** ** Floats

    A metric value is a number or NaN (a torchmetrics metric computes NaN on
    degenerate data: a constant prediction for the Pearson correlation, no
    positive label for the average precision).  A finite float is a rational
    and the comparison of finite floats is the comparison of rationals; the
    infinities are outside the model. *)
Inductive pyfloat : Type :=
| Num (q : Q)
| NaN.

(** ** Python dicts with string keys and float values

    Insertion-ordered, as Python dicts are: assigning to a present key keeps
    its position. *)
Definition dict := list (string * pyfloat).

Fixpoint dict_get (d : dict) (k : string) : option pyfloat :=
  match d with
  | [] => None
  | (k', v) :: d' => if String.eqb k' k then Some v else dict_get d' k
  end.

Fixpoint dict_set (d : dict) (k : string) (v : pyfloat) : dict :=
  match d with
  | [] => [(k, v)]
  | (k', v') :: d' =>
      if String.eqb k' k then (k, v) :: d' else (k', v') :: dict_set d' k v
  end.

(** Python's [a > b] on finite floats. *)
Definition Qgtb (a b : Q) : bool :=
  match Qcompare a b with
  | Gt => true
  | _ => false
  end.

(** Python's [a % b == 0] on ints: [%] is the floor modulo, which is
    [Z.modulo] for a non-zero divisor, and raises [ZeroDivisionError] for a
    zero one. *)
Definition py_mod (a b : Z) : res Z :=
  if Z.eqb b 0 then Raise (PyException "ZeroDivisionError")
  else Ok (Z.modulo a b).

(** ** Paths (lines 494-496 and 543-545) *)

(** The format spec [{epo:02}]: decimal, zero-padded to width 2. *)
Definition fmt02 (n : nat) : string :=
  let s := NilZero.string_of_uint (Nat.to_uint n) in
  if Nat.ltb (String.length s) 2 then String.append "0" s else s.

Definition epoch_save_path (save_dir experiment_id : string) (epo : nat)
  : string :=
  String.append save_dir
    (String.append "/"
       (String.append experiment_id
          (String.append "_best_model_epoch"
             (String.append (fmt02 epo) ".pt")))).

Definition final_save_path (save_dir experiment_id : string) : string :=
  String.append save_dir
    (String.append "/" (String.append experiment_id "_best_model.pt")).

(** ** Configuration (the keys [main] reads from line 213 on) *)

Record Config : Type := mkConfig {
  experiment_id : string;
  task : string;
  model_save_dir : option string;      (* config.get("model_save_dir", ".") *)
  epochs : nat;                        (* range(config.epochs) *)
  batch_size : Z;
  contrastive : bool;
  contrastive_batch_size : Z;
  lr : Q;
  lr_t0 : Z;
  clr : Q;
  clr_t0 : Z;
  margin_max : Q;
  margin_t0 : Z;
  margin_fn : string;
  every_n_val : Z;
  classify : option bool;              (* set by main, lines 214/227/240 *)
  watch_metric : option string;        (* set by main, lines 215/228/241 *)
  wandb_proj : option string;          (* "wandb_proj" in config *)
  wandb_save : bool
}.

Definition set_classify_watch (c : bool) (w : string) (cfg : Config) : Config :=
  mkConfig (experiment_id cfg) (task cfg) (model_save_dir cfg) (epochs cfg)
    (batch_size cfg) (contrastive cfg) (contrastive_batch_size cfg) (lr cfg)
    (lr_t0 cfg) (clr cfg) (clr_t0 cfg) (margin_max cfg) (margin_t0 cfg)
    (margin_fn cfg) (every_n_val cfg) (Some c) (Some w) (wandb_proj cfg)
    (wandb_save cfg).

Definition set_watch_metric (w : option string) (cfg : Config) : Config :=
  mkConfig (experiment_id cfg) (task cfg) (model_save_dir cfg) (epochs cfg)
    (batch_size cfg) (contrastive cfg) (contrastive_batch_size cfg) (lr cfg)
    (lr_t0 cfg) (clr cfg) (clr_t0 cfg) (margin_max cfg) (margin_t0 cfg)
    (margin_fn cfg) (every_n_val cfg) (classify cfg) w (wandb_proj cfg)
    (wandb_save cfg).

Definition set_wandb_proj (p : option string) (cfg : Config) : Config :=
  mkConfig (experiment_id cfg) (task cfg) (model_save_dir cfg) (epochs cfg)
    (batch_size cfg) (contrastive cfg) (contrastive_batch_size cfg) (lr cfg)
    (lr_t0 cfg) (clr cfg) (clr_t0 cfg) (margin_max cfg) (margin_t0 cfg)
    (margin_fn cfg) (every_n_val cfg) (classify cfg) (watch_metric cfg) p
    (wandb_save cfg).

(** The two configurations that differ only in the presence of the sink. *)
Definition with_sink (project : string) (cfg : Config) : Config :=
  set_wandb_proj (Some project) cfg.

Definition without_sink (cfg : Config) : Config := set_wandb_proj None cfg.

Definition save_dir (cfg : Config) : string :=
  match model_save_dir cfg with
  | Some d => d
  | None => "."
  end.

(** The torchmetrics classes [main] puts in its metric tables. *)
Inductive metric_class : Type :=
| MeanSquaredError
| PearsonCorrCoef
| AveragePrecision
| AUROC.

(** Values sent to the observability sink. *)
Inductive tval (T : Type) : Type :=
| VInt (z : Z)
| VFloat (x : pyfloat)
| VTensor (t : T).
Arguments VInt {T} z.
Arguments VFloat {T} x.

(** Calls received by wandb. *)
Inductive wandb_call (T P : Type) : Type :=
| WInit (project name : string) (cfg : Config)
| WWatch (m : P) (log_freq : Z)
| WLog (m : list (string * tval T))
| WLogArtifact (name path alias : string).
Arguments WInit {T P} project name cfg.
Arguments WLogArtifact {T P} name path alias.

(** ** External collaborators *)

Record Env : Type := mkEnv {
  Tensor : Type;       (* features, predictions, labels, projections, losses *)
  Params : Type;       (* the parameter state, what [state_dict()] holds *)
  OptSt : Type;        (* the state of an AdamW optimiser *)
  Acc : Type;          (* the state of a torchmetrics instance *)
  MarginSt : Type;     (* the state of a [MarginScheduledLossFunction] *)
  (* the model: [model(drug, target)] and its two projectors; the bool is the
     train/eval mode of the module *)
  forward : Params -> bool -> Tensor -> Tensor -> res Tensor;
  target_projector : Params -> bool -> Tensor -> res Tensor;
  drug_projector : Params -> bool -> Tensor -> res Tensor;
  (* [torch.from_numpy(np.array(label)).float()], [.int()], [.float()] *)
  from_numpy_float : Tensor -> res Tensor;
  to_int : Tensor -> Tensor;
  to_float : Tensor -> Tensor;
  (* loss functions *)
  MSELoss : Tensor -> Tensor -> res Tensor;
  BCELoss : Tensor -> Tensor -> res Tensor;
  triplet_loss : MarginSt -> Tensor -> Tensor -> Tensor -> res Tensor;
  (* [torch.optim.AdamW(model.parameters(), lr=...)] and one update,
     [zero_grad(); loss.backward(); step()], at the schedule's current rate *)
  AdamW : Q -> OptSt;
  adamw_update : OptSt -> Q -> Params -> Tensor -> res (Params * OptSt);
  (* [CosineAnnealingWarmRestarts]: the rate after [n] calls of [step()] *)
  cosine_lr : Q -> Z -> nat -> Q;
  (* the margin scheduler of [src.margin] *)
  margin_new : Q -> nat -> Z -> string -> MarginSt;
  margin_step : MarginSt -> MarginSt;
  margin : MarginSt -> Q;
  (* torchmetrics; [met_new] is [met_class()], [to(device)] and [reset()] *)
  met_new : metric_class -> res Acc;
  met_update : metric_class -> Acc -> Tensor -> Tensor -> res Acc;
  met_compute : metric_class -> Acc -> res pyfloat;
  (* data loaders: the batches yielded when iterated in a given epoch *)
  training_generator : nat -> list (Tensor * Tensor * Tensor);
  validation_generator : nat -> list (Tensor * Tensor * Tensor);
  testing_generator : list (Tensor * Tensor * Tensor);
  contrastive_generator : nat -> list (Tensor * Tensor * Tensor);
  (* [EnzPredDataModule.dataset_list()] *)
  enzpred_dataset_list : list string;
  (* the model after construction, optional weight loading and [to(device)] *)
  initial_params : Params;
  (* calls that can fail before the loop: what the call raises, if it
     raises (preparing the data of a task, with or without the contrastive
     data; the model with [classify]; [AdamW] with a rate;
     [CosineAnnealingWarmRestarts] with [T_0]; the margin scheduler) *)
  data_error : string -> bool -> option exn;
  model_error : bool -> option exn;
  AdamW_error : Q -> option exn;
  scheduler_error : Z -> option exn;
  margin_error : Q -> nat -> Z -> string -> option exn;
  (* I/O that can fail *)
  torch_save_error : string -> option exn;
  wandb_error : wandb_call Tensor Params -> option exn;
  (* the clock *)
  epoch_seconds : nat -> Q;
  test_seconds : Q;
  wall_clock_seconds : Q
}.

(** Log records of [logg], one constructor per message of [main]. *)
Inductive level : Type := DEBUG | INFO | ERROR.

Inductive logmsg : Type :=
| MsgInitWandb (project : string)
| MsgConfig (cfg : Config)
| MsgBeginTraining
| MsgTrainEpoch (epoch1 : nat)
| MsgUpdateLr (rate : Q)
| MsgTrainContrastive (epoch1 : nat)
| MsgContrastiveEpoch (epoch1 : nat)
| MsgUpdateContrastiveLr (rate : Q)
| MsgUpdateMargin (m : Q)
| MsgNewMax (v previous : Q)
| MsgSavingCheckpoint (path : string)
| MsgValidationAt (epoch1 : nat)
| MsgKeyValue (k : string) (v : pyfloat)
| MsgBeginTesting
| MsgFinalTesting
| MsgSavingFinal (path : string)
| MsgTestingFailed (e : exn).

(** Ghost trace: what the run did, in order. *)
Inductive event (P : Type) : Type :=
| EvOptStep (epo i : nat)            (* [opt.step()] on batch [i] *)
| EvLrStep (epo : nat)               (* [lr_scheduler.step()] *)
| EvConOptStep (epo i : nat)         (* [opt_contrastive.step()] on batch [i] *)
| EvMarginStep (epo : nat)           (* [contrastive_loss_fct.step()] *)
| EvConLrStep (epo : nat)            (* [lr_scheduler_contrastive.step()] *)
| EvValidate (epo : nat)             (* the validation pass is entered *)
| EvCompare (epo : nat) (v : pyfloat)  (* the watched value is compared *)
| EvEvaluate (m : P)                 (* [test] is entered on these parameters *)
| EvSave (path : string) (m : P).    (* [torch.save] is called *)
Arguments EvOptStep {P} epo i.
Arguments EvLrStep {P} epo.
Arguments EvConOptStep {P} epo i.
Arguments EvMarginStep {P} epo.
Arguments EvConLrStep {P} epo.
Arguments EvValidate {P} epo.
Arguments EvCompare {P} epo v.

Section Orchestrator.

Variable E : Env.

(** A batch as [step] and [contrastive_step] unpack it: (drug, target, label)
    or (anchor, positive, negative). *)
Definition batch : Type := (Tensor E * Tensor E * Tensor E)%type.

(** A record sent to [wandb.log]. *)
Definition telemetry : Type := list (string * tval (Tensor E)).

(** A torch module: its parameters and its train/eval flag.
    [copy.deepcopy] of a value is the value. *)
Record Model : Type := mkModel {
  params : Params E;
  training : bool
}.

(** What exists only when [config.contrastive] (lines 309-321). *)
Record Contrastive : Type := mkContrastive {
  contrastive_loss_fct : MarginSt E;
  opt_contrastive : OptSt E;
  lr_scheduler_contrastive : nat       (* calls of [step()] so far *)
}.

Record State : Type := mkState {
  (* variables of [main] *)
  model : Model;
  opt : OptSt E;
  lr_scheduler : nat;                  (* calls of [step()] so far *)
  con : option Contrastive;
  max_metric : Q;
  model_max : Model;
  loss : option (Tensor E);            (* unbound before the first batch *)
  contrastive_loss : option (Tensor E);
  (* the world *)
  fs : list (string * Params E);       (* files written, newest first *)
  wandb : list (wandb_call (Tensor E) (Params E));  (* calls, newest first *)
  logs : list (level * logmsg);        (* newest first *)
  trace : list (event (Params E))      (* ghost, newest first *)
}.

(** Assignment to one variable. *)
Definition set_model (x : Model) (s : State) : State :=
  mkState x (opt s) (lr_scheduler s) (con s)
    (max_metric s) (model_max s) (loss s) (contrastive_loss s)
    (fs s) (wandb s) (logs s) (trace s).

Definition set_opt (x : OptSt E) (s : State) : State :=
  mkState (model s) x (lr_scheduler s) (con s)
    (max_metric s) (model_max s) (loss s) (contrastive_loss s)
    (fs s) (wandb s) (logs s) (trace s).

Definition set_lr_scheduler (x : nat) (s : State) : State :=
  mkState (model s) (opt s) x (con s)
    (max_metric s) (model_max s) (loss s) (contrastive_loss s)
    (fs s) (wandb s) (logs s) (trace s).

Definition set_con (x : option Contrastive) (s : State) : State :=
  mkState (model s) (opt s) (lr_scheduler s) x
    (max_metric s) (model_max s) (loss s) (contrastive_loss s)
    (fs s) (wandb s) (logs s) (trace s).

Definition set_max_metric (x : Q) (s : State) : State :=
  mkState (model s) (opt s) (lr_scheduler s) (con s)
    x (model_max s) (loss s) (contrastive_loss s)
    (fs s) (wandb s) (logs s) (trace s).

Definition set_model_max (x : Model) (s : State) : State :=
  mkState (model s) (opt s) (lr_scheduler s) (con s)
    (max_metric s) x (loss s) (contrastive_loss s)
    (fs s) (wandb s) (logs s) (trace s).

Definition set_loss (x : option (Tensor E)) (s : State) : State :=
  mkState (model s) (opt s) (lr_scheduler s) (con s)
    (max_metric s) (model_max s) x (contrastive_loss s)
    (fs s) (wandb s) (logs s) (trace s).

Definition set_contrastive_loss (x : option (Tensor E)) (s : State) : State :=
  mkState (model s) (opt s) (lr_scheduler s) (con s)
    (max_metric s) (model_max s) (loss s) x
    (fs s) (wandb s) (logs s) (trace s).

Definition set_fs (x : list (string * Params E)) (s : State) : State :=
  mkState (model s) (opt s) (lr_scheduler s) (con s)
    (max_metric s) (model_max s) (loss s) (contrastive_loss s)
    x (wandb s) (logs s) (trace s).

Definition set_wandb (x : list (wandb_call (Tensor E) (Params E)))
  (s : State) : State :=
  mkState (model s) (opt s) (lr_scheduler s) (con s)
    (max_metric s) (model_max s) (loss s) (contrastive_loss s)
    (fs s) x (logs s) (trace s).

Definition set_logs (x : list (level * logmsg)) (s : State) : State :=
  mkState (model s) (opt s) (lr_scheduler s) (con s)
    (max_metric s) (model_max s) (loss s) (contrastive_loss s)
    (fs s) (wandb s) x (trace s).

Definition set_trace (x : list (event (Params E))) (s : State) : State :=
  mkState (model s) (opt s) (lr_scheduler s) (con s)
    (max_metric s) (model_max s) (loss s) (contrastive_loss s)
    (fs s) (wandb s) (logs s) x.

Definition M (A : Type) : Type := State -> res A * State.

Definition ret {A : Type} (a : A) : M A := fun s => (Ok a, s).

Definition raise {A : Type} (e : exn) : M A := fun s => (Raise e, s).

Definition bind {A B : Type} (m : M A) (k : A -> M B) : M B :=
  fun s =>
    match m s with
    | (Ok a, s') => k a s'
    | (Raise e, s') => (Raise e, s')
    end.

Definition lift {A : Type} (r : res A) : M A := fun s => (r, s).

(** [try: body  except Exception as e: handler e] *)
Definition try_except {A : Type} (body : M A) (handler : exn -> M A) : M A :=
  fun s =>
    match body s with
    | (Ok a, s') => (Ok a, s')
    | (Raise e, s') =>
        if is_Exception e then handler e s' else (Raise e, s')
    end.

Definition gets {A : Type} (f : State -> A) : M A := fun s => (Ok (f s), s).

Definition modify (f : State -> State) : M unit := fun s => (Ok tt, f s).

Notation "x <- m ;; k" := (bind m (fun x => k))
  (at level 61, m at next level, right associativity).
Notation "m ;;; k" := (bind m (fun _ => k))
  (at level 61, right associativity).

(** [for x in xs: body x] *)
Fixpoint for_each {A : Type} (xs : list A) (body : A -> M unit) : M unit :=
  match xs with
  | [] => ret tt
  | x :: xs' => body x ;;; for_each xs' body
  end.

(** The same loop with a local accumulator. *)
Fixpoint for_fold {A S : Type} (xs : list A) (body : A -> S -> M S) (acc : S)
  : M S :=
  match xs with
  | [] => ret acc
  | x :: xs' => acc' <- body x acc ;; for_fold xs' body acc'
  end.

(** [enumerate(xs)] *)
Definition enumerate {A : Type} (xs : list A) : list (nat * A) :=
  combine (seq 0 (List.length xs)) xs.

(** *** Primitive effects *)

Definition logg (l : level) (m : logmsg) : M unit :=
  modify (fun s => set_logs ((l, m) :: logs s) s).

Definition emit (ev : event (Params E)) : M unit :=
  modify (fun s => set_trace (ev :: trace s) s).

(** A call into wandb: it raises, or the sink records it. *)
Definition wandb_send (c : wandb_call (Tensor E) (Params E)) : M unit :=
  fun s =>
    match wandb_error E c with
    | Some e => (Raise e, s)
    | None => (Ok tt, set_wandb (c :: wandb s) s)
    end.

(** [wandb_log], lines 167-169. *)
Definition wandb_log (m : telemetry) (do_wandb : bool) : M unit :=
  if do_wandb then wandb_send (WLog (Params E) m) else ret tt.

(** [torch.save(state_dict, path)]: it raises, or the file is written. *)
Definition torch_save (p : Params E) (path : string) : M unit :=
  emit (EvSave path p) ;;;
  fun s =>
    match torch_save_error E path with
    | Some e => (Raise e, s)
    | None => (Ok tt, set_fs ((path, p) :: fs s) s)
    end.

(** [d[k]], a [KeyError] when the key is missing. *)
Definition dict_lookup (d : dict) (k : option string) : M pyfloat :=
  match k with
  | Some k' =>
      match dict_get d k' with
      | Some v => ret v
      | None => raise (PyException "KeyError")
      end
  | None => raise (PyException "KeyError")
  end.

Definition dict_telemetry (d : dict) : telemetry :=
  map (fun kv => (fst kv, VFloat (snd kv))) d.

(** [for k, v in d.items(): if not k.startswith("_"): logg.info(f"{k}: {v}")] *)
Definition log_items (d : dict) : M unit :=
  for_each d (fun kv =>
    if String.prefix "_" (fst kv) then ret tt
    else logg INFO (MsgKeyValue (fst kv) (snd kv))).

(** *** [step] and [contrastive_step], lines 141-164 *)

Definition step (m : Model) (b : batch) : M (Tensor E * Tensor E) :=
  let '(drug, target, label) := b in
  pred <- lift (forward E (params m) (training m) drug target) ;;
  label' <- lift (from_numpy_float E label) ;;
  ret (pred, label').

Definition contrastive_step (m : Model) (b : batch)
  : M (Tensor E * Tensor E * Tensor E) :=
  let '(anchor, positive, negative) := b in
  anchor_projection <-
    lift (target_projector E (params m) (training m) anchor) ;;
  positive_projection <-
    lift (drug_projector E (params m) (training m) positive) ;;
  negative_projection <-
    lift (drug_projector E (params m) (training m) negative) ;;
  ret (anchor_projection, positive_projection, negative_projection).

(** *** [test], lines 104-138 *)

(** [model] and [model_max] are two objects ([model_max] is always a deep
    copy); a reference to a module is one of the two variables. *)
Inductive model_ref : Type := TheModel | TheModelMax.

Definition deref (r : model_ref) (s : State) : Model :=
  match r with
  | TheModel => model s
  | TheModelMax => model_max s
  end.

Definition assign (r : model_ref) (m : Model) (s : State) : State :=
  match r with
  | TheModel => set_model m s
  | TheModelMax => set_model_max m s
  end.

(** [model.train()] and [model.eval()] flip the flag of the object. *)
Definition set_mode (r : model_ref) (b : bool) : M unit :=
  modify (fun s => assign r (mkModel (params (deref r s)) b) s).

Definition metric_dict : Type := list (string * (metric_class * Acc E)).

(** [for _, met_instance in metric_dict.items(): met_instance(pred, label)] *)
Fixpoint update_metrics (md : metric_dict) (pred label : Tensor E)
  : M metric_dict :=
  match md with
  | [] => ret []
  | (k, (c, a)) :: md' =>
      a' <- lift (met_update E c a pred label) ;;
      md'' <- update_metrics md' pred label ;;
      ret ((k, (c, a')) :: md'')
  end.

(** [for k, met_instance in metric_dict.items():
       results[k] = met_instance.compute()] *)
Fixpoint compute_metrics (md : metric_dict) (results : dict) : M dict :=
  match md with
  | [] => ret results
  | (k, (c, a)) :: md' =>
      v <- lift (met_compute E c a) ;;
      compute_metrics md' (dict_set results k v)
  end.

(** [for k, met_class in metrics.items(): ...], lines 111-115: the
    instances are built, one per entry of the table, before anything else. *)
Fixpoint new_metrics (metrics : list (string * metric_class))
  : M metric_dict :=
  match metrics with
  | [] => ret []
  | (k, c) :: metrics' =>
      a <- lift (met_new E c) ;;
      md <- new_metrics metrics' ;;
      ret ((k, (c, a)) :: md)
  end.

(** The ghost event records the call and the parameters of the module
    passed. *)
Definition test (r : model_ref) (data_generator : list batch)
  (metrics : list (string * metric_class)) (classify : bool) : M dict :=
  m0 <- gets (deref r) ;;
  emit (EvEvaluate (params m0)) ;;;
  metric_dict0 <- new_metrics metrics ;;
  set_mode r false ;;;
  m <- gets (deref r) ;;
  md <- for_fold data_generator
          (fun b md =>
             pl <- step m b ;;
             let label := if classify then to_int E (snd pl)
                          else to_float E (snd pl) in
             update_metrics md (fst pl) label)
          metric_dict0 ;;
  compute_metrics md [].

(** *** What [test] computes

    [test] reads one variable of [main], the module it is passed, and of it
    only the parameters (it puts the module in eval mode itself); everything
    else in it is a computation on values.  These are the same lines read
    as functions of the parameters. *)

(** Lines 111-115. *)
Fixpoint instances_of (metrics : list (string * metric_class))
  : res metric_dict :=
  match metrics with
  | [] => Ok []
  | (k, c) :: metrics' =>
      rbind (met_new E c) (fun a =>
      rbind (instances_of metrics') (fun md =>
      Ok ((k, (c, a)) :: md)))
  end.

(** Lines 146-150. *)
Definition step_of (m : Model) (b : batch) : res (Tensor E * Tensor E) :=
  let '(drug, target, label) := b in
  rbind (forward E (params m) (training m) drug target) (fun pred =>
  rbind (from_numpy_float E label) (fun label' =>
  Ok (pred, label'))).

(** Lines 127-128. *)
Fixpoint update_of (md : metric_dict) (pred label : Tensor E)
  : res metric_dict :=
  match md with
  | [] => Ok []
  | (k, (c, a)) :: md' =>
      rbind (met_update E c a pred label) (fun a' =>
      rbind (update_of md' pred label) (fun md'' =>
      Ok ((k, (c, a')) :: md'')))
  end.

(** Lines 119-128. *)
Fixpoint loop_of (m : Model) (classify : bool) (data_generator : list batch)
  (md : metric_dict) : res metric_dict :=
  match data_generator with
  | [] => Ok md
  | b :: data_generator' =>
      rbind (step_of m b) (fun pl =>
      let label := if classify then to_int E (snd pl)
                   else to_float E (snd pl) in
      rbind (update_of md (fst pl) label) (fun md' =>
      loop_of m classify data_generator' md'))
  end.

(** Lines 130-133. *)
Fixpoint compute_of (md : metric_dict) (results : dict) : res dict :=
  match md with
  | [] => Ok results
  | (k, (c, a)) :: md' =>
      rbind (met_compute E c a) (fun v => compute_of md' (dict_set results k v))
  end.

(** The value of [test] on a module that holds the parameters [p]. *)
Definition evaluation (p : Params E) (data_generator : list batch)
  (metrics : list (string * metric_class)) (classify : bool) : res dict :=
  rbind (instances_of metrics) (fun metric_dict0 =>
  rbind (loop_of (mkModel p false) classify data_generator metric_dict0)
    (fun md => compute_of md [])).

(** *** [main]: task dispatch and tables, lines 213-250 and 328-349 *)

Definition is_dti_dg (cfg : Config) : bool := String.eqb (task cfg) "dti_dg".

Definition resolve_task (cfg : Config) : Config :=
  if is_dti_dg cfg then set_classify_watch false "val/pcc" cfg
  else if existsb (String.eqb (task cfg)) (enzpred_dataset_list E)
       then set_classify_watch true "val/aupr" cfg
       else set_classify_watch true "val/aupr" cfg.

Definition loss_fct (cfg : Config) : Tensor E -> Tensor E -> res (Tensor E) :=
  if is_dti_dg cfg then MSELoss E else BCELoss E.

Definition val_metrics (cfg : Config) : list (string * metric_class) :=
  if is_dti_dg cfg
  then [("val/mse", MeanSquaredError); ("val/pcc", PearsonCorrCoef)]
  else [("val/aupr", AveragePrecision); ("val/auroc", AUROC)].

Definition test_metrics (cfg : Config) : list (string * metric_class) :=
  if is_dti_dg cfg
  then [("test/mse", MeanSquaredError); ("test/pcc", PearsonCorrCoef)]
  else [("test/aupr", AveragePrecision); ("test/auroc", AUROC)].

(** The truth value of [config.classify]. *)
Definition classify_flag (cfg : Config) : bool :=
  match classify cfg with
  | Some b => b
  | None => false
  end.

(** [do_wandb = "wandb_proj" in config] *)
Definition do_wandb_of (cfg : Config) : bool :=
  match wandb_proj cfg with
  | Some _ => true
  | None => false
  end.

(** What a call raises, as an outcome. *)
Definition check (e : option exn) : res unit :=
  match e with
  | Some x => Raise x
  | None => Ok tt
  end.

(** The data modules of lines 205-284 and the constructor calls of lines
    288-321, in the order of the source: the first that raises ends
    [main]. *)
Definition construction (cfg : Config) : res unit :=
  rbind (check (data_error E (task cfg) (contrastive cfg))) (fun _ =>
  rbind (check (model_error E (classify_flag cfg))) (fun _ =>
  rbind (check (AdamW_error E (lr cfg))) (fun _ =>
  rbind (check (scheduler_error E (lr_t0 cfg))) (fun _ =>
  if contrastive cfg then
    rbind (check (margin_error E (margin_max cfg) (epochs cfg)
                    (margin_t0 cfg) (margin_fn cfg))) (fun _ =>
    rbind (check (AdamW_error E (clr cfg))) (fun _ =>
    check (scheduler_error E (clr_t0 cfg))))
  else Ok tt)))).

(** The variables assigned by lines 288-326. *)
Definition init_vars (cfg : Config) (s : State) : State :=
  let model0 := mkModel (initial_params E) true in
  mkState model0
    (AdamW E (lr cfg))
    0
    (if contrastive cfg
     then Some (mkContrastive
                  (margin_new E (margin_max cfg) (epochs cfg) (margin_t0 cfg)
                     (margin_fn cfg))
                  (AdamW E (clr cfg))
                  0)
     else None)
    0%Q
    model0
    None
    None
    (fs s) (wandb s) (logs s) (trace s).

(** *** [main]: the epoch loop, lines 371-513 *)

Definition unbound {A : Type} : M A := raise (PyException "UnboundLocalError").

(** Reading a variable that exists once assigned. *)
Definition get_loss : M (Tensor E) :=
  l <- gets loss ;;
  match l with Some t => ret t | None => unbound end.

Definition get_contrastive_loss : M (Tensor E) :=
  l <- gets contrastive_loss ;;
  match l with Some t => ret t | None => unbound end.

Definition get_con : M Contrastive :=
  c <- gets con ;;
  match c with Some k => ret k | None => unbound end.

(** The rate [lr_scheduler.get_lr()] reports. *)
Definition current_lr (cfg : Config) (s : State) : Q :=
  cosine_lr E (lr cfg) (lr_t0 cfg) (lr_scheduler s).

Definition current_clr (cfg : Config) (k : Contrastive) : Q :=
  cosine_lr E (clr cfg) (clr_t0 cfg) (lr_scheduler_contrastive k).

(** Lines 376-396: one batch of the supervised pass. *)
Definition supervised_batch (cfg : Config) (do_wandb : bool) (epo : nat)
  (ib : nat * batch) : M unit :=
  let i := fst ib in
  m <- gets model ;;
  pl <- step m (snd ib) ;;
  l <- lift (loss_fct cfg (fst pl) (snd pl)) ;;
  modify (set_loss (Some l)) ;;;
  wandb_log
    [("train/step",
      VInt (Z.of_nat epo
            * Z.of_nat (List.length (training_generator E epo))
            * batch_size cfg
            + Z.of_nat i * batch_size cfg)%Z);
     ("train/loss", VTensor l)]
    do_wandb ;;;
  o <- gets opt ;;
  rate <- gets (current_lr cfg) ;;
  po <- lift (adamw_update E o rate (params m) l) ;;
  modify (set_model (mkModel (fst po) (training m))) ;;;
  modify (set_opt (snd po)) ;;;
  emit (EvOptStep epo i).

(** Lines 372-410. *)
Definition supervised_pass (cfg : Config) (do_wandb : bool) (epo : nat)
  : M unit :=
  set_mode TheModel true ;;;
  for_each (enumerate (training_generator E epo))
    (supervised_batch cfg do_wandb epo) ;;;
  modify (fun s => set_lr_scheduler (S (lr_scheduler s)) s) ;;;
  emit (EvLrStep epo) ;;;
  rate <- gets (current_lr cfg) ;;
  wandb_log [("epoch", VInt (Z.of_nat epo)); ("train/lr", VFloat (Num rate))]
    do_wandb ;;;
  get_loss ;;;
  logg INFO (MsgTrainEpoch (epo + 1)) ;;;
  logg INFO (MsgUpdateLr rate).

(** Lines 415-443: one batch of the contrastive pass. *)
Definition contrastive_batch (cfg : Config) (do_wandb : bool) (epo : nat)
  (ib : nat * batch) : M unit :=
  let i := fst ib in
  m <- gets model ;;
  apn <- contrastive_step m (snd ib) ;;
  k <- get_con ;;
  l <- lift (triplet_loss E (contrastive_loss_fct k)
               (fst (fst apn)) (snd (fst apn)) (snd apn)) ;;
  modify (set_contrastive_loss (Some l)) ;;;
  wandb_log
    [("train/c_step",
      VInt (Z.of_nat epo
            * Z.of_nat (List.length (training_generator E epo))
            * contrastive_batch_size cfg
            + Z.of_nat i * contrastive_batch_size cfg)%Z);
     ("train/c_loss", VTensor l)]
    do_wandb ;;;
  po <- lift (adamw_update E (opt_contrastive k) (current_clr cfg k)
                (params m) l) ;;
  modify (set_model (mkModel (fst po) (training m))) ;;;
  modify (set_con (Some (mkContrastive (contrastive_loss_fct k) (snd po)
                           (lr_scheduler_contrastive k)))) ;;;
  emit (EvConOptStep epo i).

(** Lines 413-465. *)
Definition contrastive_pass (cfg : Config) (do_wandb : bool) (epo : nat)
  : M unit :=
  if contrastive cfg then
    logg INFO (MsgTrainContrastive (epo + 1)) ;;;
    for_each (enumerate (contrastive_generator E epo))
      (contrastive_batch cfg do_wandb epo) ;;;
    k <- get_con ;;
    let k1 := mkContrastive (margin_step E (contrastive_loss_fct k))
                (opt_contrastive k) (lr_scheduler_contrastive k) in
    modify (set_con (Some k1)) ;;;
    emit (EvMarginStep epo) ;;;
    let k2 := mkContrastive (contrastive_loss_fct k1) (opt_contrastive k1)
                (S (lr_scheduler_contrastive k1)) in
    modify (set_con (Some k2)) ;;;
    emit (EvConLrStep epo) ;;;
    wandb_log
      [("epoch", VInt (Z.of_nat epo));
       ("train/triplet_margin",
        VFloat (Num (margin E (contrastive_loss_fct k2))));
       ("train/contrastive_lr", VFloat (Num (current_clr cfg k2)))]
      do_wandb ;;;
    get_contrastive_loss ;;;
    logg INFO (MsgContrastiveEpoch (epo + 1)) ;;;
    logg INFO (MsgUpdateContrastiveLr (current_clr cfg k2)) ;;;
    logg INFO (MsgUpdateMargin (margin E (contrastive_loss_fct k2)))
  else ret tt.

(** *** What the training passes compute

    The two passes read and assign four things that outlive a batch: the
    parameters of [model], the state of [opt], the count of [lr_scheduler]
    and the contrastive objects.  These are lines 376-446 read as functions
    of those four. *)

(** Lines 158-164. *)
Definition contrastive_step_of (m : Model) (b : batch)
  : res (Tensor E * Tensor E * Tensor E) :=
  let '(anchor, positive, negative) := b in
  rbind (target_projector E (params m) (training m) anchor) (fun a =>
  rbind (drug_projector E (params m) (training m) positive) (fun p =>
  rbind (drug_projector E (params m) (training m) negative) (fun n =>
  Ok (a, p, n)))).

(** Lines 379-396: one supervised batch, in train mode, at the rate the
    schedule has after [n] steps. *)
Definition supervised_update (cfg : Config) (n : nat)
  (po : Params E * OptSt E) (b : batch) : res (Params E * OptSt E) :=
  rbind (step_of (mkModel (fst po) true) b) (fun pl =>
  rbind (loss_fct cfg (fst pl) (snd pl)) (fun l =>
  adamw_update E (snd po) (cosine_lr E (lr cfg) (lr_t0 cfg) n) (fst po) l)).

(** Lines 420-443: one contrastive batch. *)
Definition contrastive_update (cfg : Config) (pk : Params E * Contrastive)
  (b : batch) : res (Params E * Contrastive) :=
  let k := snd pk in
  rbind (contrastive_step_of (mkModel (fst pk) true) b) (fun apn =>
  rbind (triplet_loss E (contrastive_loss_fct k)
           (fst (fst apn)) (snd (fst apn)) (snd apn)) (fun l =>
  rbind (adamw_update E (opt_contrastive k) (current_clr cfg k) (fst pk) l)
    (fun po =>
  Ok (fst po,
      mkContrastive (contrastive_loss_fct k) (snd po)
        (lr_scheduler_contrastive k))))).

(** The training variables. *)
Definition training_vars : Type :=
  (Params E * OptSt E * nat * option Contrastive)%type.

Definition training_vars_of (s : State) : training_vars :=
  (params (model s), opt s, lr_scheduler s, con s).

(** Lines 372-446: the supervised batches in order from the variables the
    epoch starts with, one step of the schedule, then, with contrastive
    training, the contrastive batches in order from the parameters the
    supervised pass left, one step of the margin and one of the contrastive
    schedule. *)
Definition epoch_training (cfg : Config) (epo : nat) (t : training_vars)
  : res training_vars :=
  let '(p, o, n, c) := t in
  rbind (rfold (supervised_update cfg n) (training_generator E epo) (p, o))
    (fun po =>
  if contrastive cfg then
    match c with
    | Some k =>
        rbind (rfold (contrastive_update cfg) (contrastive_generator E epo)
                 (fst po, k)) (fun pk =>
        Ok (fst pk, snd po, S n,
            Some (mkContrastive
                    (margin_step E (contrastive_loss_fct (snd pk)))
                    (opt_contrastive (snd pk))
                    (S (lr_scheduler_contrastive (snd pk))))))
    | None => Raise (PyException "UnboundLocalError")
    end
  else Ok (fst po, snd po, S n, c)).

(** The epochs of a run, in order. *)
Definition run_training (cfg : Config) (t : training_vars)
  : res training_vars :=
  rfold (fun t epo => epoch_training cfg epo t) (seq 0 (epochs cfg)) t.

(** Lines 503-508 and 552-557: the artifact upload. *)
Definition log_artifact (cfg : Config) (do_wandb : bool) (path : string)
  : M unit :=
  if do_wandb && wandb_save cfg
  then wandb_send
         (WLogArtifact (String.append "dti-" (experiment_id cfg)) path "best")
  else ret tt.

(** Lines 488-508: the checkpoint decision. *)
Definition checkpoint (cfg : Config) (do_wandb : bool) (epo : nat)
  (val_results : dict) : M unit :=
  v <- dict_lookup val_results (watch_metric cfg) ;;
  emit (EvCompare epo v) ;;;
  best <- gets max_metric ;;
  match v with
  | Num q =>
      if Qgtb q best then
        logg DEBUG (MsgNewMax q best) ;;;
        m <- gets model ;;
        modify (set_model_max m) ;;;
        modify (set_max_metric q) ;;;
        let model_save_path :=
          epoch_save_path (save_dir cfg) (experiment_id cfg) epo in
        torch_save (params m) model_save_path ;;;
        logg INFO (MsgSavingCheckpoint model_save_path) ;;;
        log_artifact cfg do_wandb model_save_path
      else ret tt
  | NaN => ret tt                 (* [nan > max_metric] is false *)
  end.

(** Lines 481-484: the two keys added to the results of the pass. *)
Definition annotate_val_results (cfg : Config) (epo : nat) (results : dict)
  : dict :=
  let results1 := dict_set results "epoch" (Num (inject_Z (Z.of_nat epo))) in
  dict_set results1 "Charts/epoch_time"
    (Num (epoch_seconds E epo / inject_Z (every_n_val cfg))%Q).

(** Lines 471-513: the validation pass. *)
Definition validation (cfg : Config) (do_wandb : bool) (epo : nat) : M unit :=
  emit (EvValidate epo) ;;;
  results <- test TheModel (validation_generator E epo) (val_metrics cfg)
               (classify_flag cfg) ;;
  let val_results := annotate_val_results cfg epo results in
  wandb_log (dict_telemetry val_results) do_wandb ;;;
  checkpoint cfg do_wandb epo val_results ;;;
  logg INFO (MsgValidationAt (epo + 1)) ;;;
  log_items val_results.

(** Line 470: [if epo % config.every_n_val == 0]. *)
Definition validation_cadence (cfg : Config) (do_wandb : bool) (epo : nat)
  : M unit :=
  r <- lift (py_mod (Z.of_nat epo) (every_n_val cfg)) ;;
  if Z.eqb r 0 then validation cfg do_wandb epo else ret tt.

(** The body of [for epo in range(config.epochs)]. *)
Definition epoch (cfg : Config) (do_wandb : bool) (epo : nat) : M unit :=
  supervised_pass cfg do_wandb epo ;;;
  contrastive_pass cfg do_wandb epo ;;;
  validation_cadence cfg do_wandb epo.

Definition epoch_loop (cfg : Config) (do_wandb : bool) : M unit :=
  for_each (seq 0 (epochs cfg)) (epoch cfg do_wandb).

(** *** [main]: the terminal test pass, lines 519-562 *)

(** The body of the [try]. *)
Definition terminal_test (cfg : Config) (do_wandb : bool) : M unit :=
  set_mode TheModelMax false ;;;
  results <- test TheModelMax (testing_generator E) (test_metrics cfg)
               (classify_flag cfg) ;;
  epo1 <- match epochs cfg with
          | O => unbound
          | S last => ret (last + 1)%nat
          end ;;
  let results1 := dict_set results "epoch" (Num (inject_Z (Z.of_nat epo1))) in
  let results2 := dict_set results1 "test/eval_time" (Num (test_seconds E)) in
  let test_results :=
    dict_set results2 "Charts/wall_clock_time" (Num (wall_clock_seconds E)) in
  wandb_log (dict_telemetry test_results) do_wandb ;;;
  logg INFO MsgFinalTesting ;;;
  log_items test_results ;;;
  let model_save_path := final_save_path (save_dir cfg) (experiment_id cfg) in
  best <- gets model_max ;;
  torch_save (params best) model_save_path ;;;
  logg INFO (MsgSavingFinal model_save_path) ;;;
  log_artifact cfg do_wandb model_save_path.

(** Lines 352-361. *)
Definition init_wandb (cfg : Config) : M unit :=
  match wandb_proj cfg with
  | Some project =>
      logg INFO (MsgInitWandb project) ;;;
      wandb_send (WInit project (experiment_id cfg) cfg) ;;;
      m <- gets model ;;
      wandb_send (WWatch (Tensor E) (params m) 100)
  | None => ret tt
  end.

(** Lines 517-562, entered when the epoch loop has ended. *)
Definition finish (cfg : Config) (do_wandb : bool) : M Model :=
  logg INFO MsgBeginTesting ;;;
  try_except (terminal_test cfg do_wandb)
    (fun e => logg ERROR (MsgTestingFailed e)) ;;;
  gets model_max.

(** Lines 205-365, before the epoch loop.  The record holds the variables
    of [main] from the start, with the values lines 288-326 give them:
    Python binds each one when its constructor returns, but a call that
    raises here ends [main] before any of them is read, so only the outcome
    depends on where it raised. *)
Definition setup (config : Config) : M unit :=
  modify (init_vars config) ;;;
  lift (construction config) ;;;
  init_wandb config ;;;
  logg INFO (MsgConfig config) ;;;
  logg INFO MsgBeginTraining.

Definition main (cfg : Config) : M Model :=
  let config := resolve_task cfg in
  let do_wandb := do_wandb_of config in
  setup config ;;;
  epoch_loop config do_wandb ;;;
  finish config do_wandb.

End Orchestrator.

Notation "x <- m ;; k" := (bind m (fun x => k))
  (at level 61, m at next level, right associativity).
Notation "m ;;; k" := (bind m (fun _ => k))
  (at level 61, right associativity).

Arguments mkModel {E} params training.
Arguments mkState {E}.
Arguments ret {E A} a.
Arguments raise {E A} e.
Arguments lift {E A} r.
Arguments gets {E A} f.
Arguments for_each {E A} xs body.
Arguments for_fold {E A S} xs body acc.
Arguments unbound {E A}.

(** ** A small concrete environment

    Parameters are the number of updates applied so far; one batch per pass;
    the value every metric computes on parameters [p] is the [p]-th entry of
    a table (the initial, never updated parameters get 0); [torch.save] and
    the evaluation of the test set fail where told to. *)
Module Toy.

Definition env (vals : list Q) (save_error : string -> option exn)
  (test_error : option exn) : Env :=
  {| Tensor := Z;
     Params := nat;
     OptSt := nat;
     Acc := option Z;
     MarginSt := nat;
     forward := fun p _ drug _ =>
       match test_error with
       | Some e => if Z.eqb drug 2 then Raise e else Ok (Z.of_nat p)
       | None => Ok (Z.of_nat p)
       end;
     target_projector := fun _ _ t => Ok t;
     drug_projector := fun _ _ t => Ok t;
     from_numpy_float := fun t => Ok t;
     to_int := fun t => t;
     to_float := fun t => t;
     MSELoss := fun _ _ => Ok 0%Z;
     BCELoss := fun _ _ => Ok 0%Z;
     triplet_loss := fun _ _ _ _ => Ok 0%Z;
     AdamW := fun _ => O;
     adamw_update := fun o _ p _ => Ok (S p, S o);
     cosine_lr := fun base _ _ => base;
     margin_new := fun _ _ _ _ => O;
     margin_step := S;
     margin := fun _ => 0%Q;
     met_new := fun _ => Ok None;
     met_update := fun _ _ pred _ => Ok (Some pred);
     met_compute := fun _ a =>
       match a with
       | Some p => Ok (Num (nth (Z.to_nat p) (0%Q :: vals) 0%Q))
       | None => Raise (PyException "ValueError")
       end;
     training_generator := fun _ => [(0%Z, 0%Z, 0%Z)];
     validation_generator := fun _ => [(1%Z, 0%Z, 0%Z)];
     testing_generator := [(2%Z, 0%Z, 0%Z)];
     contrastive_generator := fun _ => [(3%Z, 0%Z, 0%Z)];
     enzpred_dataset_list := ["halogenase"];
     initial_params := O;
     data_error := fun _ _ => None;
     model_error := fun _ => None;
     AdamW_error := fun _ => None;
     scheduler_error := fun _ => None;
     margin_error := fun _ _ _ _ => None;
     torch_save_error := save_error;
     wandb_error := fun _ => None;
     epoch_seconds := fun _ => 1%Q;
     test_seconds := 1%Q;
     wall_clock_seconds := 1%Q |}.

Definition config (task : string) (epochs : nat) (contrastive : bool)
  (every_n_val : Z) (wandb_proj : option string) : Config :=
  mkConfig "exp" task (Some "out") epochs 1 contrastive 1 (1 # 1000) 10
    (1 # 1000) 10 (1 # 4) 10 "tanh_decay" every_n_val None None wandb_proj
    true.

Definition start (E : Env) : State E :=
  mkState (mkModel (initial_params E) true) (AdamW E 0) 0 None 0%Q
    (mkModel (initial_params E) true) None None [] [] [] [].

Definition no_error : string -> option exn := fun _ => None.

End Toy.

(** ** Runs of the small environment *)

Module Scenario.

(** Classification, three validation passes with watched values
    0.61, 0.74, 0.68 (section 8 of the specification). *)
Definition E3 : Env :=
  Toy.env [(61 # 100)%Q; (74 # 100)%Q; (68 # 100)%Q] Toy.no_error None.

Definition cfg3 : Config :=
  resolve_task E3 (Toy.config "davis" 3 false 1 None).




(** The state in which the epoch loop ends, and the one the terminal test
    pass leaves. *)
Definition after_loop : State E3 :=
  snd ((setup cfg3 ;;; epoch_loop cfg3 false) (Toy.start E3)).

Definition after_terminal_test : State E3 :=
  snd (terminal_test cfg3 false after_loop).

(** The same run with contrastive training and validation every second
    epoch. *)
Definition cfg3c : Config :=
  resolve_task E3 (Toy.config "davis" 3 true 2 None).

Definition after_setup_c : State E3 := snd (setup cfg3c (Toy.start E3)).

Definition after_epoch0_c : State E3 :=
  snd (epoch cfg3c false 0 after_setup_c).

Definition after_epoch1_c : State E3 :=
  snd (epoch cfg3c false 1 after_epoch0_c).

(** Every [torch.save] fails: the first checkpoint raises inside the loop. *)
Definition disk_full : string -> option exn :=
  fun _ => Some (PyException "OSError").

Definition E_disk : Env := Toy.env [(61 # 100)%Q] disk_full None.

Definition cfg1 : Config := Toy.config "davis" 1 false 1 None.

Definition after_setup_disk : State E_disk :=
  snd (setup (resolve_task E_disk cfg1) (Toy.start E_disk)).

Definition after_training_disk : State E_disk :=
  snd ((supervised_pass (resolve_task E_disk cfg1) false 0 ;;;
        contrastive_pass (resolve_task E_disk cfg1) false 0)
         after_setup_disk).

Definition at_failed_save : State E_disk :=
  snd (validation_cadence (resolve_task E_disk cfg1) false 0
         after_training_disk).

(** Only the final save fails. *)
Definition final_save_fails : string -> option exn :=
  fun path =>
    if String.eqb path "out/exp_best_model.pt"
    then Some (PyException "OSError") else None.

Definition E_final : Env := Toy.env [(61 # 100)%Q] final_save_fails None.

Definition after_setup_final : State E_final :=
  snd (setup (resolve_task E_final cfg1) (Toy.start E_final)).

Definition after_loop_final : State E_final :=
  snd (epoch_loop (resolve_task E_final cfg1) false after_setup_final).

Definition at_failed_final_save : State E_final :=
  snd (terminal_test (resolve_task E_final cfg1) false
         (set_logs ((INFO, MsgBeginTesting) :: logs after_loop_final)
            after_loop_final)).

(** Regression: one validation pass, whose Pearson correlation is -1/2. *)
Definition E_pcc : Env := Toy.env [(-1 # 2)%Q] Toy.no_error None.

Definition cfg_pcc : Config := Toy.config "dti_dg" 1 false 1 None.

Definition before_first_validation : State E_pcc :=
  snd ((setup (resolve_task E_pcc cfg_pcc) ;;;
        supervised_pass (resolve_task E_pcc cfg_pcc) false 0 ;;;
        contrastive_pass (resolve_task E_pcc cfg_pcc) false 0)
         (Toy.start E_pcc)).

End Scenario.

(** ** Runs at the edges *)

Module Edge.

(** An environment whose training loader yields no batch. *)
Definition without_training_batches (E : Env) : Env :=
  mkEnv (forward E) (target_projector E) (drug_projector E)
    (from_numpy_float E) (to_int E) (to_float E) (MSELoss E) (BCELoss E)
    (triplet_loss E) (AdamW E) (adamw_update E) (cosine_lr E) (margin_new E)
    (margin_step E) (margin E) (met_new E) (met_update E) (met_compute E)
    (fun _ => []) (validation_generator E) (testing_generator E)
    (contrastive_generator E) (enzpred_dataset_list E) (initial_params E)
    (data_error E) (model_error E) (AdamW_error E) (scheduler_error E)
    (margin_error E)
    (torch_save_error E) (wandb_error E) (epoch_seconds E) (test_seconds E)
    (wall_clock_seconds E).

Definition E_empty : Env := without_training_batches Scenario.E3.

(** An environment whose contrastive loader yields no batch. *)
Definition without_contrastive_batches (E : Env) : Env :=
  mkEnv (forward E) (target_projector E) (drug_projector E)
    (from_numpy_float E) (to_int E) (to_float E) (MSELoss E) (BCELoss E)
    (triplet_loss E) (AdamW E) (adamw_update E) (cosine_lr E) (margin_new E)
    (margin_step E) (margin E) (met_new E) (met_update E) (met_compute E)
    (training_generator E) (validation_generator E) (testing_generator E)
    (fun _ => []) (enzpred_dataset_list E) (initial_params E)
    (data_error E) (model_error E) (AdamW_error E) (scheduler_error E)
    (margin_error E)
    (torch_save_error E) (wandb_error E) (epoch_seconds E) (test_seconds E)
    (wall_clock_seconds E).

Definition E_no_triplets : Env := without_contrastive_batches Scenario.E3.

(** A sink that is down: [wandb.init] and [wandb.watch] return, every
    [wandb.log] raises. *)
Definition sink_down (T P : Type) (c : wandb_call T P) : option exn :=
  match c with
  | WLog _ _ => Some (PyException "CommError")
  | _ => None
  end.

Definition with_sink_down (E : Env) : Env :=
  mkEnv (forward E) (target_projector E) (drug_projector E)
    (from_numpy_float E) (to_int E) (to_float E) (MSELoss E) (BCELoss E)
    (triplet_loss E) (AdamW E) (adamw_update E) (cosine_lr E) (margin_new E)
    (margin_step E) (margin E) (met_new E) (met_update E) (met_compute E)
    (training_generator E) (validation_generator E) (testing_generator E)
    (contrastive_generator E) (enzpred_dataset_list E) (initial_params E)
    (data_error E) (model_error E) (AdamW_error E) (scheduler_error E)
    (margin_error E)
    (torch_save_error E) (@sink_down (Tensor E) (Params E))
    (epoch_seconds E) (test_seconds E) (wall_clock_seconds E).

Definition E_sink_down : Env := with_sink_down Scenario.E3.

Definition cfg_contrastive : Config := Toy.config "davis" 2 true 1 None.

Definition cfg_two_epochs : Config := Toy.config "davis" 2 false 1 None.

Definition cfg_no_epoch : Config := Toy.config "davis" 0 false 1 None.

Definition cfg_zero_period : Config := Toy.config "davis" 2 false 0 None.

(** The first validation pass of the classification run: the state it
    starts in, its results, and the state its evaluation leaves. *)
Definition before_first_validation : State Scenario.E3 :=
  snd ((setup Scenario.cfg3 ;;;
        supervised_pass Scenario.cfg3 false 0 ;;;
        contrastive_pass Scenario.cfg3 false 0)
         (Toy.start Scenario.E3)).

Definition first_results : dict :=
  [("val/aupr", Num (61 # 100)); ("val/auroc", Num (61 # 100))].

Definition after_first_test : State Scenario.E3 :=
  snd (test TheModel (validation_generator Scenario.E3 0)
         (val_metrics Scenario.cfg3) (classify_flag Scenario.cfg3)
         before_first_validation).

Definition after_two_epochs : State Scenario.E3 :=
  snd (main cfg_two_epochs (Toy.start Scenario.E3)).

(** A configuration file and the options of a command line. *)
Definition file : list (string * string) :=
  [("epochs", "50"); ("lr", "1e-4"); ("task", "davis")].

Definition args : list (string * option string) :=
  [("experiment_id", Some "exp"); ("config", Some "configs/default.yaml");
   ("wandb_proj", None); ("task", Some "bindingdb"); ("epochs", None);
   ("checkpoint", None)].

End Edge.

(** ** The margin scheduler *)

Module Margin.

Local Open Scope R_scope.

(** Modelled from the spec: the update policies of the margin scheduler
    ([MarginScheduledLossFunction] of [src.margin], imported by
    [train_DTI.py] and not among the sources).  Section 4.3 names them:
    linear decay to zero by the final epoch, cosine decay with restarts every
    [N_restart] epochs, or constant. *)
Inductive schedule_kind : Type :=
| LinearDecay
| CosineRestarts
| Constant.

(** Modelled from the spec: the restart boundary of the margin scheduler,
    [epoch_index mod N_restart == 0] (section 4.3). *)
Definition at_restart (N_restart e : nat) : bool :=
  Nat.eqb (e mod N_restart) 0.

(** Modelled from the spec: the margin of the missing scheduler as the pure
    function of [(epoch_index, max_margin, N_epoch, N_restart,
    schedule_kind)] of section 4.3.  At a restart boundary the margin is
    reset to [max_margin]; elsewhere the policy gives it.  Floats are
    idealised as reals. *)
Definition margin_at (kind : schedule_kind) (max_margin : R)
  (N_epoch N_restart e : nat) : R :=
  if at_restart N_restart e then max_margin
  else
    match kind with
    | LinearDecay => max_margin * (1 - INR e / INR N_epoch)
    | CosineRestarts =>
        max_margin * (1 + cos (PI * INR (e mod N_restart) / INR N_restart)) / 2
    | Constant => max_margin
    end.

(** Modelled from the spec: the [MarginState] of section 3, with the epoch
    count the missing scheduler is built with. *)
Record MarginState : Type := mkMarginState {
  current_margin : R;
  epoch_index : nat;
  restart_period : nat;
  max_margin : R;
  N_epoch : nat;
  kind : schedule_kind
}.

(** Modelled from the spec: the missing scheduler as created once per run
    (section 3, lifecycle), at epoch index 0. *)
Definition init (k : schedule_kind) (M : R) (n_epoch n_restart : nat)
  : MarginState :=
  mkMarginState (margin_at k M n_epoch n_restart 0) 0 n_restart M n_epoch k.

(** Modelled from the spec: the transition [step()] of the missing scheduler,
    called once per epoch (section 4.3): the epoch index advances and the
    margin is recomputed from it. *)
Definition step (st : MarginState) : MarginState :=
  mkMarginState
    (margin_at (kind st) (max_margin st) (N_epoch st) (restart_period st)
       (S (epoch_index st)))
    (S (epoch_index st)) (restart_period st) (max_margin st) (N_epoch st)
    (kind st).

End Margin.

(** ** The configuration [main] starts from, lines 174-177

    [vars(args)] is a dict from option names to values, [None] for an option
    that was not given; the loaded file is a dict from keys to values. *)

Section Overrides.

Variable V : Type.

Fixpoint conf_get (d : list (string * V)) (k : string) : option V :=
  match d with
  | [] => None
  | (k', v) :: d' => if String.eqb k' k then Some v else conf_get d' k
  end.

Fixpoint conf_set (d : list (string * V)) (k : string) (v : V)
  : list (string * V) :=
  match d with
  | [] => [(k, v)]
  | (k', v') :: d' =>
      if String.eqb k' k then (k, v) :: d' else (k', v') :: conf_set d' k v
  end.

(** [{k: v for k, v in vars(args).items() if v is not None}] *)
Definition arg_overrides (args : list (string * option V))
  : list (string * V) :=
  flat_map
    (fun kv => match snd kv with
               | Some v => [(fst kv, v)]
               | None => []
               end)
    args.

(** [config.update(overrides)] *)
Definition conf_update (config overrides : list (string * V))
  : list (string * V) :=
  fold_left (fun c kv => conf_set c (fst kv) (snd kv)) overrides config.

(** Lines 175-177. *)
Definition load_config (file : list (string * V))
  (args : list (string * option V)) : list (string * V) :=
  conf_update file (arg_overrides args).

End Overrides.

(** ** Notions the statements use *)

Section Notions.

Variable E : Env.

(** A computation leaves a component of the state as it found it, whatever
    its outcome. *)
Definition keeps (A X : Type) (f : State E -> X) (m : M E A) : Prop :=
  forall s, f (snd (m s)) = f s.

(** Whatever its outcome, a computation only adds events to the trace, and
    each added event satisfies [P]. *)
Definition emits (A : Type) (P : event (Params E) -> Prop) (m : M E A)
  : Prop :=
  forall s, exists tr, trace (snd (m s)) = tr ++ trace s /\ Forall P tr.

(** When it returns, a computation has changed a component of the state
    by [g]. *)
Definition steps (A X : Type) (f : State E -> X) (g : X -> X) (m : M E A)
  : Prop :=
  forall s a s', m s = (Ok a, s') -> f s' = g (f s).

(** A computation relates the state it starts in to the one it leaves. *)
Definition follows (A : Type) (R : State E -> State E -> Prop) (m : M E A)
  : Prop :=
  forall s, R s (snd (m s)).

(** The best value has not decreased, and it bounds every watched value
    compared since. *)
Definition best_grows (s s' : State E) : Prop :=
  (max_metric s <= max_metric s')%Q
  /\ forall e v,
       In (EvCompare e (Num v)) (trace s') ->
       In (EvCompare e (Num v)) (trace s) \/ (v <= max_metric s')%Q.

Definition not_compare (ev : event (Params E)) : Prop :=
  forall e v, ev <> EvCompare e v.

Definition training_event (ev : event (Params E)) : Prop :=
  match ev with
  | EvOptStep _ _ | EvLrStep _ | EvConOptStep _ _ | EvMarginStep _
  | EvConLrStep _ => True
  | _ => False
  end.

(** The events of the two training passes of an epoch, oldest first. *)
Definition supervised_events (epo : nat) : list (event (Params E)) :=
  map (EvOptStep epo) (seq 0 (List.length (training_generator E epo)))
  ++ [EvLrStep epo].

Definition contrastive_events (cfg : Config) (epo : nat)
  : list (event (Params E)) :=
  if contrastive cfg
  then map (EvConOptStep epo)
         (seq 0 (List.length (contrastive_generator E epo)))
       ++ [EvMarginStep epo; EvConLrStep epo]
  else [].

(** Everything but what the sink received and what the logger wrote. *)
Definition train_view (s : State E) :=
  (model s, opt s, lr_scheduler s, con s, max_metric s, model_max s, loss s,
   contrastive_loss s, fs s, trace s).

Definition sim (s1 s2 : State E) : Prop := train_view s1 = train_view s2.

(** Two computations that, from states with the same training view, have the
    same outcome and leave states with the same training view. *)
Definition Msim (A : Type) (m1 m2 : M E A) : Prop :=
  forall s1 s2,
    sim s1 s2 -> fst (m1 s1) = fst (m2 s2) /\ sim (snd (m1 s1)) (snd (m2 s2)).

End Notions.

Arguments best_grows {E} s s'.

(** ** Further notions *)

Section MoreNotions.

Variable E : Env.

(** Everything but the ghost trace. *)
Definition untraced (s : State E) :=
  (model s, opt s, lr_scheduler s, con s, max_metric s, model_max s, loss s,
   contrastive_loss s, fs s, wandb s, logs s).

(** A computation keeps a property of the state, whatever its outcome. *)
Definition preserves (A : Type) (P : State E -> Prop) (m : M E A) : Prop :=
  forall s, P s -> P (snd (m s)).

(** Where the held best model and best value come from: they are the initial
    ones, or those of a checkpoint decision of some epoch, which compared
    the held value and called [torch.save] on the held parameters. *)
Definition held_from_checkpoint (cfg : Config) (s : State E) : Prop :=
  (max_metric s = 0%Q /\ params (model_max s) = initial_params E)
  \/ exists epo,
       In (EvCompare epo (Num (max_metric s))) (trace s)
       /\ In (EvSave
               (epoch_save_path (save_dir cfg) (experiment_id cfg) epo)
               (params (model_max s)))
            (trace s).

(** The best model is in eval mode. *)
Definition in_eval_mode (s : State E) : Prop :=
  training (model_max s) = false.

(** A step of the contrastive optimiser, margin or learning-rate schedule. *)
Definition contrastive_event (ev : event (Params E)) : Prop :=
  match ev with
  | EvConOptStep _ _ | EvMarginStep _ | EvConLrStep _ => True
  | _ => False
  end.

Definition is_training_event (ev : event (Params E)) : bool :=
  match ev with
  | EvOptStep _ _ | EvLrStep _ | EvConOptStep _ _ | EvMarginStep _
  | EvConLrStep _ => true
  | _ => false
  end.

(** The training events of the epochs of a whole run, oldest first. *)
Definition run_training_events (cfg : Config) : list (event (Params E)) :=
  flat_map
    (fun epo => supervised_events E epo ++ contrastive_events E cfg epo)
    (seq 0 (epochs cfg)).

(** The files of a run: the checkpoint of one of its epochs, or the final
    file. *)
Definition run_file (cfg : Config) (path : string) : Prop :=
  (exists epo,
      (epo < epochs cfg)%nat
      /\ path = epoch_save_path (save_dir cfg) (experiment_id cfg) epo)
  \/ path = final_save_path (save_dir cfg) (experiment_id cfg).

Definition saves_run_file (cfg : Config) (ev : event (Params E)) : Prop :=
  match ev with
  | EvSave path _ => run_file cfg path
  | _ => True
  end.

(** The best value after the comparison of line 488 with the watched value
    [v]. *)
Definition best_after (v : pyfloat) (best : Q) : Q :=
  match v with
  | Num q => if Qgtb q best then q else best
  | NaN => best
  end.

End MoreNotions.

Arguments in_eval_mode {E} s.

(** ** Reasoning about the monad *)

Section Reasoning.

Variable E : Env.

Lemma bind_Ok_eq (A B : Type) (m : M E A) (k : A -> M E B) s a s1 :
  m s = (Ok a, s1) -> bind m k s = k a s1.
Proof. intros H. unfold bind. rewrite H. reflexivity. Qed.

Lemma bind_Raise_eq (A B : Type) (m : M E A) (k : A -> M E B) s e s1 :
  m s = (Raise e, s1) -> bind m k s = (Raise e, s1).
Proof. intros H. unfold bind. rewrite H. reflexivity. Qed.

Lemma bind_Ok_inv (A B : Type) (m : M E A) (k : A -> M E B) s b s' :
  bind m k s = (Ok b, s') ->
  exists a s1, m s = (Ok a, s1) /\ k a s1 = (Ok b, s').
Proof.
  unfold bind. destruct (m s) as [[a | e] s1]; intros H.
  - exists a, s1. split; [reflexivity | exact H].
  - discriminate H.
Qed.

Lemma keeps_ret (A X : Type) (f : State E -> X) (a : A) : keeps f (ret a).
Proof. intro s. reflexivity. Qed.

Lemma keeps_raise (A X : Type) (f : State E -> X) (e : exn) :
  keeps f (raise (A := A) e).
Proof. intro s. reflexivity. Qed.

Lemma keeps_lift (A X : Type) (f : State E -> X) (r : res A) :
  keeps f (lift r).
Proof. intro s. reflexivity. Qed.

Lemma keeps_gets (A X : Type) (f : State E -> X) (g : State E -> A) :
  keeps f (gets g).
Proof. intro s. reflexivity. Qed.

Lemma keeps_bind (A B X : Type) (f : State E -> X) (m : M E A)
  (k : A -> M E B) :
  keeps f m -> (forall a, keeps f (k a)) -> keeps f (bind m k).
Proof.
  intros Hm Hk s. unfold bind. specialize (Hm s).
  destruct (m s) as [[a | e] s1]; simpl in *.
  - rewrite Hk. exact Hm.
  - exact Hm.
Qed.

Lemma keeps_for_each (A X : Type) (f : State E -> X) (xs : list A)
  (body : A -> M E unit) :
  (forall x, keeps f (body x)) -> keeps f (for_each xs body).
Proof.
  intros Hb. induction xs as [| x xs IH]; simpl.
  - apply keeps_ret.
  - apply keeps_bind; [apply Hb | intros _; exact IH].
Qed.

Lemma keeps_for_fold (A S X : Type) (f : State E -> X) (xs : list A)
  (body : A -> S -> M E S) (acc : S) :
  (forall x a, keeps f (body x a)) -> keeps f (for_fold xs body acc).
Proof.
  intros Hb. revert acc. induction xs as [| x xs IH]; intros acc; simpl.
  - apply keeps_ret.
  - apply keeps_bind; [apply Hb | intros a; apply IH].
Qed.

Lemma keeps_try_except (A X : Type) (f : State E -> X) (body : M E A)
  (handler : exn -> M E A) :
  keeps f body -> (forall e, keeps f (handler e)) ->
  keeps f (try_except body handler).
Proof.
  intros Hb Hh s. unfold try_except. specialize (Hb s).
  destruct (body s) as [[a | e] s1]; simpl in *.
  - exact Hb.
  - destruct (is_Exception e); simpl; [rewrite Hh |]; exact Hb.
Qed.

Lemma keeps_wandb_send (X : Type) (f : State E -> X) c :
  (forall w s, f (set_wandb w s) = f s) -> keeps f (wandb_send c).
Proof.
  intros Hf s. unfold wandb_send.
  destruct (wandb_error E c); simpl; [reflexivity | apply Hf].
Qed.

Lemma keeps_torch_save (X : Type) (f : State E -> X) p path :
  (forall t s, f (set_trace t s) = f s) ->
  (forall w s, f (set_fs w s) = f s) -> keeps f (torch_save p path).
Proof.
  intros Ht Hf s. unfold torch_save, bind, emit, modify.
  destruct (torch_save_error E path); simpl; [| rewrite Hf]; apply Ht.
Qed.

Lemma keeps_logg (X : Type) (f : State E -> X) l m :
  (forall t s, f (set_logs t s) = f s) -> keeps f (logg l m).
Proof. intros H s. apply H. Qed.

Lemma keeps_emit (X : Type) (f : State E -> X) ev :
  (forall t s, f (set_trace t s) = f s) -> keeps f (emit ev).
Proof. intros H s. apply H. Qed.

Lemma keeps_update_metrics (X : Type) (f : State E -> X) md pred label :
  keeps f (update_metrics md pred label).
Proof.
  induction md as [| [k [c a]] md IH]; simpl.
  - apply keeps_ret.
  - apply keeps_bind; [apply keeps_lift | intros a'].
    apply keeps_bind; [exact IH | intros md'']. apply keeps_ret.
Qed.

Lemma keeps_new_metrics (X : Type) (f : State E -> X) metrics :
  keeps f (new_metrics (E := E) metrics).
Proof.
  induction metrics as [| [k c] metrics IH]; simpl.
  - apply keeps_ret.
  - apply keeps_bind; [apply keeps_lift | intros a].
    apply keeps_bind; [exact IH | intros md]. apply keeps_ret.
Qed.

Lemma keeps_compute_metrics (X : Type) (f : State E -> X) md results :
  keeps f (compute_metrics md results).
Proof.
  revert results. induction md as [| [k [c a]] md IH]; intros results; simpl.
  - apply keeps_ret.
  - apply keeps_bind; [apply keeps_lift | intros v; apply IH].
Qed.

End Reasoning.

Section Traces.

Variable E : Env.

Lemma emits_keeps (A : Type) P (m : M E A) :
  keeps (@trace E) m -> emits P m.
Proof. intros K s. exists []. split; [apply K | constructor]. Qed.

Lemma emits_emit P ev : P ev -> emits P (emit (E := E) ev).
Proof.
  intros H s. exists [ev]. split; [reflexivity | constructor; [exact H |]].
  constructor.
Qed.

Lemma emits_bind (A B : Type) P (m : M E A) (k : A -> M E B) :
  emits P m -> (forall a, emits P (k a)) -> emits P (bind m k).
Proof.
  intros Hm Hk s. unfold bind. destruct (Hm s) as (t1 & H1 & F1).
  destruct (m s) as [[a | e] s1]; simpl in *.
  - destruct (Hk a s1) as (t2 & H2 & F2). exists (t2 ++ t1). split.
    + rewrite H2, H1. apply app_assoc.
    + apply Forall_app. split; assumption.
  - exists t1. split; assumption.
Qed.

Lemma emits_for_each (A : Type) P (xs : list A) (body : A -> M E unit) :
  (forall x, emits P (body x)) -> emits P (for_each xs body).
Proof.
  intros Hb. induction xs as [| x xs IH]; simpl.
  - apply emits_keeps, keeps_ret.
  - apply emits_bind; [apply Hb | intros _; exact IH].
Qed.

Lemma emits_try_except (A : Type) P (body : M E A) handler :
  emits P body -> (forall e, emits P (handler e)) ->
  emits P (try_except body handler).
Proof.
  intros Hb Hh s. unfold try_except. destruct (Hb s) as (t1 & H1 & F1).
  destruct (body s) as [[a | e] s1]; simpl in *.
  - exists t1. split; assumption.
  - destruct (is_Exception e).
    + destruct (Hh e s1) as (t2 & H2 & F2). exists (t2 ++ t1). split.
      * rewrite H2, H1. apply app_assoc.
      * apply Forall_app. split; assumption.
    + exists t1. split; assumption.
Qed.

Lemma emits_torch_save P p path :
  P (EvSave path p) -> emits P (torch_save (E := E) p path).
Proof.
  intros H s. exists [EvSave path p]. split.
  - unfold torch_save, bind, emit, modify.
    destruct (torch_save_error E path); reflexivity.
  - constructor; [exact H | constructor].
Qed.

Lemma steps_keeps (A X : Type) (f : State E -> X) (m : M E A) :
  keeps f m -> steps f (fun x => x) m.
Proof. intros K s a s' H. specialize (K s). rewrite H in K. exact K. Qed.

Lemma steps_bind (A B X : Type) (f : State E -> X) g1 g2 (m : M E A)
  (k : A -> M E B) :
  steps f g1 m -> (forall a, steps f g2 (k a)) ->
  steps f (fun x => g2 (g1 x)) (bind m k).
Proof.
  intros Hm Hk s b s' H. apply bind_Ok_inv in H.
  destruct H as (a & s1 & H1 & H2).
  rewrite (Hk a _ _ _ H2), (Hm _ _ _ H1). reflexivity.
Qed.

Lemma steps_ext (A X : Type) (f : State E -> X) g g' (m : M E A) :
  steps f g m -> (forall x, g x = g' x) -> steps f g' m.
Proof. intros Hm Hg s a s' H. rewrite <- Hg. exact (Hm _ _ _ H). Qed.

Lemma steps_emit ev : steps (@trace E) (cons ev) (emit ev).
Proof. intros s a s' H. injection H as _ <-. reflexivity. Qed.

(** A loop over [enumerate]: the changes of the iterations, in order. *)
Lemma steps_for_each_indexed (A X : Type) (f : State E -> X)
  (g : nat -> X -> X) (body : nat * A -> M E unit) (xs : list A) :
  (forall i x, steps f (g i) (body (i, x))) ->
  forall i0,
    steps f (fun x0 => fold_left (fun acc i => g i acc)
                         (seq i0 (List.length xs)) x0)
      (for_each (combine (seq i0 (List.length xs)) xs) body).
Proof.
  intros Hb. induction xs as [| x xs IH]; intros i0; simpl.
  - intros s a s' H. injection H as _ <-. reflexivity.
  - intros s a s' H. apply bind_Ok_inv in H.
    destruct H as (u & s1 & H1 & H2).
    rewrite (IH (S i0) _ _ _ H2), (Hb _ _ _ _ _ H1). reflexivity.
Qed.

Lemma fold_left_cons_events (X : Type) (ev : nat -> X) (l : list nat)
  (t : list X) :
  fold_left (fun acc i => ev i :: acc) l t = rev (map ev l) ++ t.
Proof.
  revert t. induction l as [| i l IH]; intros t; simpl.
  - reflexivity.
  - rewrite IH. rewrite <- app_assoc. reflexivity.
Qed.

End Traces.

Ltac keeps_step :=
  match goal with
  | |- keeps _ (bind _ _) => apply keeps_bind; [ | intro ]
  | |- keeps _ (ret _) => apply keeps_ret
  | |- keeps _ (raise _) => apply keeps_raise
  | |- keeps _ unbound => apply keeps_raise
  | |- keeps _ (lift _) => apply keeps_lift
  | |- keeps _ (gets _) => apply keeps_gets
  | |- keeps _ (for_each _ _) => apply keeps_for_each; intro
  | |- keeps _ (for_fold _ _ _) => apply keeps_for_fold; intros
  | |- keeps _ (try_except _ _) => apply keeps_try_except; [ | intro ]
  | |- keeps _ (update_metrics _ _ _) => apply keeps_update_metrics
  | |- keeps _ (new_metrics _) => apply keeps_new_metrics
  | |- keeps _ (compute_metrics _ _) => apply keeps_compute_metrics
  | |- keeps _ (wandb_send _) =>
      apply keeps_wandb_send; intros; reflexivity
  | |- keeps _ (torch_save _ _) =>
      apply keeps_torch_save; intros; reflexivity
  | |- keeps _ (logg _ _) => apply keeps_logg; intros; reflexivity
  | |- keeps _ (emit _) => apply keeps_emit; intros; reflexivity
  | |- keeps _ (if ?b then _ else _) => destruct b
  | |- keeps _ (match ?x with _ => _ end) => destruct x
  | |- keeps _ (modify _) =>
      intro; simpl; first
        [ reflexivity
        | match goal with r : model_ref |- _ => destruct r; reflexivity end ]
  end.

(** The definitions of the orchestrator a frame proof looks through. *)
Ltac open_orch :=
  unfold main, setup, finish, init_wandb, terminal_test, epoch_loop, epoch,
    validation_cadence, validation, checkpoint, log_artifact,
    contrastive_pass, contrastive_batch, supervised_pass, supervised_batch,
    get_con, get_contrastive_loss, get_loss, test, contrastive_step, step,
    set_mode, log_items, dict_lookup, wandb_log.

Ltac keeps_auto := open_orch; repeat keeps_step.

Ltac emits_step :=
  match goal with
  | |- emits _ (bind _ _) => apply emits_bind; [ | intro ]
  | |- emits _ (for_each _ _) => apply emits_for_each; intro
  | |- emits _ (try_except _ _) => apply emits_try_except; [ | intro ]
  | |- emits _ (emit _) => apply emits_emit; simpl; try exact I
  | |- emits _ (torch_save _ _) => apply emits_torch_save; simpl; try exact I
  | |- emits _ (if ?b then _ else _) => destruct b
  | |- emits _ (match ?x with _ => _ end) => destruct x
  | |- emits _ _ => apply emits_keeps; solve [repeat keeps_step]
  end.

Ltac emits_auto := open_orch; repeat emits_step.

Ltac steps_step :=
  match goal with
  | |- steps _ _ (bind _ _) => eapply steps_bind; [ | intro ]
  | |- steps _ _ (emit _) => apply steps_emit
  | |- steps _ _ _ => apply steps_keeps; solve [repeat keeps_step]
  end.

(** From [H : m s = (r, s')], the fact that [m] kept the component [f]. *)
Ltac kept f H :=
  match type of H with
  | ?m ?st = (_, ?st') =>
      let K := fresh "K" in
      assert (K : f st' = f st)
        by (let K' := fresh in
            assert (K' : keeps f m) by keeps_auto;
            specialize (K' st); rewrite H in K'; exact K')
  end.

Ltac bind_inv2 H :=
  let a := fresh "a" in
  let s := fresh "s" in
  let H1 := fresh H in
  apply bind_Ok_inv in H; destruct H as (a & s & H1 & H).

(** ** What the passes compute *)

Section Computed.

Variable E : Env.

Lemma new_metrics_instances metrics (s : State E) :
  new_metrics metrics s = (instances_of E metrics, s).
Proof.
  induction metrics as [| [k c] metrics IH]; simpl; [reflexivity |].
  unfold bind, lift. destruct (met_new E c) as [a | e]; simpl;
    [| reflexivity].
  rewrite IH. destruct (instances_of E metrics); reflexivity.
Qed.

Lemma lift_Ok (A : Type) (r : res A) (s s' : State E) a :
  lift r s = (Ok a, s') -> r = Ok a /\ s' = s.
Proof. unfold lift. intros H. injection H as -> <-. split; reflexivity. Qed.

Lemma gets_Ok (A : Type) (f : State E -> A) (s s' : State E) a :
  gets f s = (Ok a, s') -> a = f s /\ s' = s.
Proof. unfold gets. intros H. injection H as <- <-. split; reflexivity. Qed.

Lemma step_step_of (m : Model E) b (s s' : State E) pl :
  step m b s = (Ok pl, s') -> step_of m b = Ok pl /\ s' = s.
Proof.
  destruct b as [[drug target] label]. unfold step, step_of. intros H.
  bind_inv2 H. apply lift_Ok in H0. destruct H0 as [-> ->].
  bind_inv2 H. apply lift_Ok in H0. destruct H0 as [-> ->].
  injection H as <- <-. split; reflexivity.
Qed.

Lemma update_metrics_update_of md pred label (s s' : State E) md' :
  update_metrics md pred label s = (Ok md', s') ->
  update_of md pred label = Ok md' /\ s' = s.
Proof.
  revert md' s s'. induction md as [| [k [c a]] md IH]; simpl;
    intros md' s s' H.
  - injection H as <- <-. split; reflexivity.
  - bind_inv2 H. apply lift_Ok in H0. destruct H0 as [-> ->].
    bind_inv2 H. apply IH in H0. destruct H0 as [-> ->].
    injection H as <- <-. split; reflexivity.
Qed.

Lemma compute_metrics_compute_of md results (s s' : State E) d :
  compute_metrics md results s = (Ok d, s') ->
  compute_of md results = Ok d /\ s' = s.
Proof.
  revert results s s'. induction md as [| [k [c a]] md IH]; simpl;
    intros results s s' H.
  - injection H as <- <-. split; reflexivity.
  - bind_inv2 H. apply lift_Ok in H0. destruct H0 as [-> ->].
    apply IH in H. exact H.
Qed.

Lemma evaluation_loop_loop_of (m : Model E) (c : bool) gen
  (md md' : metric_dict E)
  (s s' : State E) :
  for_fold gen
    (fun b md1 =>
       pl <- step m b ;;
       update_metrics md1 (fst pl)
         (if c then to_int E (snd pl) else to_float E (snd pl)))
    md s = (Ok md', s') ->
  loop_of m c gen md = Ok md' /\ s' = s.
Proof.
  revert md s s'. induction gen as [| b gen IH]; simpl; intros md s s' H.
  - injection H as <- <-. split; reflexivity.
  - bind_inv2 H. bind_inv2 H0.
    apply step_step_of in H1. destruct H1 as [Hs ->].
    apply update_metrics_update_of in H0. destruct H0 as [Hu ->].
    rewrite Hs. simpl. rewrite Hu. simpl.
    apply IH in H. exact H.
Qed.

(** A call of [test] that returns has computed the evaluation of the
    parameters of the module it was passed, whatever the rest of the state
    is. *)
Lemma test_evaluation r gen metrics c (s s' : State E) results :
  test r gen metrics c s = (Ok results, s') ->
  evaluation (params (deref r s)) gen metrics c = Ok results
  /\ training (deref r s') = false
  /\ params (deref r s') = params (deref r s).
Proof.
  intros H. unfold test in H.
  bind_inv2 H. apply gets_Ok in H0. destruct H0 as [-> ->].
  bind_inv2 H. injection H0 as _ <-.
  bind_inv2 H. rewrite new_metrics_instances in H0. injection H0 as Hi <-.
  bind_inv2 H. injection H0 as _ <-.
  bind_inv2 H. apply gets_Ok in H0. destruct H0 as [-> ->].
  bind_inv2 H. apply evaluation_loop_loop_of in H0. destruct H0 as [Hl ->].
  apply compute_metrics_compute_of in H. destruct H as [Hc ->].
  unfold evaluation. rewrite Hi. simpl.
  destruct r; simpl in *; rewrite Hl; simpl; rewrite Hc; repeat split.
Qed.

End Computed.

Section Trained.

Variable E : Env.

Lemma supervised_batch_update cfg dw epo i b (s s' : State E) :
  supervised_batch cfg dw epo (i, b) s = (Ok tt, s') ->
  training (model s) = true ->
  supervised_update cfg (lr_scheduler s) (params (model s), opt s) b
  = Ok (params (model s'), opt s')
  /\ lr_scheduler s' = lr_scheduler s
  /\ con s' = con s
  /\ training (model s') = true.
Proof.
  intros H Ht. unfold supervised_batch in H. cbn [fst snd] in H.
  set (f := fun t : State E => (model t, opt t, lr_scheduler t, con t)).
  bind_inv2 H. apply gets_Ok in H0. destruct H0 as [-> ->].
  bind_inv2 H. apply step_step_of in H0. destruct H0 as [Hs ->].
  bind_inv2 H. apply lift_Ok in H0. destruct H0 as [Hl ->].
  bind_inv2 H. injection H0 as _ <-.
  bind_inv2 H. kept f H0.
  bind_inv2 H. apply gets_Ok in H1. destruct H1 as [-> ->].
  bind_inv2 H. apply gets_Ok in H1. destruct H1 as [-> ->].
  bind_inv2 H. apply lift_Ok in H1. destruct H1 as [Ha ->].
  bind_inv2 H. injection H1 as _ <-.
  bind_inv2 H. injection H1 as _ <-.
  injection H as <-.
  unfold f in K. simpl in K. injection K as K1 K2 K3 K4.
  unfold supervised_update. cbn [fst snd].
  assert (Hm : mkModel (params (model s)) true = model s)
    by (destruct (model s) as [p t]; simpl in *; rewrite Ht; reflexivity).
  rewrite Hm, Hs. simpl. rewrite Hl. simpl.
  unfold current_lr in Ha. rewrite K2, K3 in Ha. rewrite Ha.
  destruct a3 as [p' o']. repeat split; assumption.
Qed.

Lemma supervised_batches_update cfg dw epo bs :
  forall i0 (s s' : State E),
    for_each (combine (seq i0 (List.length bs)) bs)
      (supervised_batch cfg dw epo) s = (Ok tt, s') ->
    training (model s) = true ->
    rfold (supervised_update cfg (lr_scheduler s)) bs
      (params (model s), opt s)
    = Ok (params (model s'), opt s')
    /\ lr_scheduler s' = lr_scheduler s
    /\ con s' = con s
    /\ training (model s') = true.
Proof.
  induction bs as [| b bs IH]; intros i0 s s' H Ht; simpl in H.
  - injection H as <-. simpl. repeat split. exact Ht.
  - bind_inv2 H. destruct a.
    apply supervised_batch_update in H0; [| exact Ht].
    destruct H0 as (U & L & C & T).
    apply IH in H; [| exact T]. destruct H as (U' & L' & C' & T').
    simpl. rewrite U. simpl. rewrite L in U'. rewrite U'.
    rewrite L', L, C', C. repeat split. exact T'.
Qed.

Lemma supervised_pass_training cfg dw epo (s s' : State E) :
  supervised_pass cfg dw epo s = (Ok tt, s') ->
  rfold (supervised_update cfg (lr_scheduler s)) (training_generator E epo)
    (params (model s), opt s)
  = Ok (params (model s'), opt s')
  /\ lr_scheduler s' = S (lr_scheduler s)
  /\ con s' = con s
  /\ training (model s') = true.
Proof.
  intros H. unfold supervised_pass in H.
  set (f := fun t : State E => (model t, opt t, lr_scheduler t, con t)).
  bind_inv2 H. injection H0 as _ <-.
  bind_inv2 H. unfold enumerate in H0. destruct a0.
  apply supervised_batches_update in H0; [| reflexivity].
  destruct H0 as (U & L & C & T). simpl in U, L, C.
  bind_inv2 H. injection H0 as _ <-.
  kept f H. unfold f in K. simpl in K. injection K as K1 K2 K3 K4.
  rewrite K1, K2, K3, K4, L, C. repeat split; assumption.
Qed.

Lemma get_con_Ok (s s' : State E) k :
  get_con s = (Ok k, s') -> con s = Some k /\ s' = s.
Proof.
  unfold get_con. intros H. bind_inv2 H.
  apply gets_Ok in H0. destruct H0 as [-> ->].
  destruct (con s) as [k0 |]; [| discriminate H].
  injection H as <- <-. split; reflexivity.
Qed.

Lemma contrastive_step_step_of (m : Model E) b (s s' : State E) apn :
  contrastive_step m b s = (Ok apn, s') ->
  contrastive_step_of m b = Ok apn /\ s' = s.
Proof.
  destruct b as [[anchor positive] negative].
  unfold contrastive_step, contrastive_step_of. intros H.
  bind_inv2 H. apply lift_Ok in H0. destruct H0 as [-> ->].
  bind_inv2 H. apply lift_Ok in H0. destruct H0 as [-> ->].
  bind_inv2 H. apply lift_Ok in H0. destruct H0 as [-> ->].
  injection H as <- <-. split; reflexivity.
Qed.

Lemma contrastive_batch_update cfg dw epo i b (s s' : State E) :
  contrastive_batch cfg dw epo (i, b) s = (Ok tt, s') ->
  training (model s) = true ->
  exists k k',
    con s = Some k /\ con s' = Some k'
    /\ contrastive_update cfg (params (model s), k) b
       = Ok (params (model s'), k')
    /\ opt s' = opt s
    /\ lr_scheduler s' = lr_scheduler s
    /\ training (model s') = true.
Proof.
  intros H Ht. unfold contrastive_batch in H. cbn [fst snd] in H.
  set (f := fun t : State E => (model t, opt t, lr_scheduler t, con t)).
  bind_inv2 H. apply gets_Ok in H0. destruct H0 as [-> ->].
  bind_inv2 H. apply contrastive_step_step_of in H0. destruct H0 as [Hs ->].
  bind_inv2 H. apply get_con_Ok in H0. destruct H0 as [Hk ->].
  bind_inv2 H. apply lift_Ok in H0. destruct H0 as [Hl ->].
  bind_inv2 H. injection H0 as _ <-.
  bind_inv2 H. kept f H0.
  bind_inv2 H. apply lift_Ok in H1. destruct H1 as [Ha ->].
  bind_inv2 H. injection H1 as _ <-.
  bind_inv2 H. injection H1 as _ <-.
  injection H as <-.
  unfold f in K. simpl in K. injection K as K1 K2 K3 K4.
  assert (Hm : mkModel (params (model s)) true = model s)
    by (destruct (model s) as [p t]; simpl in *; rewrite Ht; reflexivity).
  exists a0. eexists. split; [exact Hk |]. split; [reflexivity |].
  unfold contrastive_update. cbn [fst snd].
  rewrite Hm, Hs. simpl. rewrite Hl. simpl. rewrite Ha. simpl.
  repeat split; assumption.
Qed.

Lemma contrastive_batches_update cfg dw epo bs :
  forall i0 (s s' : State E) k,
    for_each (combine (seq i0 (List.length bs)) bs)
      (contrastive_batch cfg dw epo) s = (Ok tt, s') ->
    training (model s) = true ->
    con s = Some k ->
    exists k',
      con s' = Some k'
      /\ rfold (contrastive_update cfg) bs (params (model s), k)
         = Ok (params (model s'), k')
      /\ opt s' = opt s
      /\ lr_scheduler s' = lr_scheduler s
      /\ training (model s') = true.
Proof.
  induction bs as [| b bs IH]; intros i0 s s' k H Ht Hk; simpl in H.
  - injection H as <-. exists k. simpl. repeat split; assumption.
  - bind_inv2 H. destruct a.
    apply contrastive_batch_update in H0; [| exact Ht].
    destruct H0 as (k0 & k1 & Hk0 & Hk1 & U & O & L & T).
    rewrite Hk in Hk0. injection Hk0 as <-.
    apply (IH _ _ _ k1) in H; [| exact T | exact Hk1].
    destruct H as (k' & Hk' & U' & O' & L' & T').
    exists k'. simpl. rewrite U. simpl.
    rewrite O', O, L', L. repeat split; assumption.
Qed.

Lemma contrastive_batches_unbound cfg dw epo bs :
  forall i0 (s s' : State E),
    for_each (combine (seq i0 (List.length bs)) bs)
      (contrastive_batch cfg dw epo) s = (Ok tt, s') ->
    training (model s) = true ->
    con s = None -> con s' = None.
Proof.
  destruct bs as [| b bs]; intros i0 s s' H Ht Hk; simpl in H.
  - injection H as <-. exact Hk.
  - bind_inv2 H. destruct a.
    apply contrastive_batch_update in H0; [| exact Ht].
    destruct H0 as (k0 & k1 & Hk0 & _). rewrite Hk in Hk0. discriminate Hk0.
Qed.

Lemma contrastive_pass_training cfg dw epo (s s' : State E) :
  contrastive_pass cfg dw epo s = (Ok tt, s') ->
  training (model s) = true ->
  contrastive cfg = true ->
  exists k kf,
    con s = Some k
    /\ rfold (contrastive_update cfg) (contrastive_generator E epo)
         (params (model s), k)
       = Ok (params (model s'), kf)
    /\ con s'
       = Some (mkContrastive E (margin_step E (contrastive_loss_fct kf))
                 (opt_contrastive kf) (S (lr_scheduler_contrastive kf)))
    /\ opt s' = opt s
    /\ lr_scheduler s' = lr_scheduler s.
Proof.
  intros H Ht Hc. unfold contrastive_pass in H. rewrite Hc in H.
  set (f := fun t : State E => (model t, opt t, lr_scheduler t, con t)).
  bind_inv2 H. injection H0 as _ <-.
  bind_inv2 H. unfold enumerate in H0. destruct a0.
  bind_inv2 H. apply get_con_Ok in H1. destruct H1 as [Hk1 ->].
  destruct (con s) as [k |] eqn:Hk.
  2: { apply contrastive_batches_unbound in H0;
         [| exact Ht | exact Hk].
       rewrite Hk1 in H0. discriminate H0. }
  apply contrastive_batches_update with (k := k) in H0;
    [| exact Ht | exact Hk].
  destruct H0 as (k' & Hk' & U & O & L & T). simpl in U, O, L.
  rewrite Hk1 in Hk'. injection Hk' as <-.
  bind_inv2 H. injection H0 as _ <-.
  bind_inv2 H. injection H0 as _ <-.
  bind_inv2 H. injection H0 as _ <-.
  bind_inv2 H. injection H0 as _ <-.
  kept f H. unfold f in K. simpl in K. injection K as K1 K2 K3 K4.
  exists k, a0. split; [reflexivity |].
  rewrite K1, K2, K3, K4. repeat split; assumption.
Qed.

(** An epoch that returns leaves the training variables that the passes
    compute from those it started with; validation assigns none of them. *)
Lemma epoch_computes_training cfg dw epo (s s' : State E) :
  epoch cfg dw epo s = (Ok tt, s') ->
  epoch_training cfg epo (training_vars_of s) = Ok (training_vars_of s').
Proof.
  intros H. unfold epoch in H.
  set (f := fun t : State E =>
              (params (model t), opt t, lr_scheduler t, con t)).
  bind_inv2 H. destruct a. bind_inv2 H. destruct a.
  apply supervised_pass_training in H0.
  destruct H0 as (U & L & C & T).
  assert (K : f s' = f s1).
  { assert (K' : keeps f (validation_cadence cfg dw epo)) by keeps_auto.
    specialize (K' s1). rewrite H in K'. exact K'. }
  unfold f in K. injection K as K1 K2 K3 K4.
  unfold training_vars_of, epoch_training. rewrite U. simpl.
  destruct (contrastive cfg) eqn:Hc.
  - apply contrastive_pass_training in H1; [| exact T | exact Hc].
    destruct H1 as (k & kf & Hk & U' & Hk' & O' & L').
    rewrite C in Hk. rewrite Hk, U'. simpl.
    rewrite K1, K2, K3, K4, Hk', O', L', L. reflexivity.
  - unfold contrastive_pass in H1. rewrite Hc in H1. injection H1 as <-.
    rewrite K1, K2, K3, K4, L, C. reflexivity.
Qed.

Lemma epochs_compute_training cfg dw n :
  forall a (s s' : State E),
    for_each (seq a n) (epoch cfg dw) s = (Ok tt, s') ->
    rfold (fun t epo => epoch_training cfg epo t) (seq a n)
      (training_vars_of s)
    = Ok (training_vars_of s').
Proof.
  induction n as [| n IH]; intros a s s' H; simpl in H.
  - injection H as <-. reflexivity.
  - bind_inv2 H. destruct a0. apply epoch_computes_training in H0.
    apply IH in H. simpl seq. cbn [rfold]. rewrite H0. cbn [rbind].
    exact H.
Qed.

End Trained.

(** ** Frames and traces of the passes *)

Section Frames.

Variable E : Env.


Lemma test_keeps_max_metric r gen ms c :
  keeps (@max_metric E) (test r gen ms c).
Proof. keeps_auto. Qed.


Lemma test_keeps_best_params r gen ms c :
  keeps (fun s : State E => params (model_max s)) (test r gen ms c).
Proof. keeps_auto. Qed.

Lemma terminal_test_keeps_best_params cfg dw :
  keeps (fun s : State E => params (model_max s)) (terminal_test cfg dw).
Proof. keeps_auto. Qed.

Lemma supervised_pass_keeps_best cfg dw epo :
  keeps (fun s : State E => (max_metric s, model_max s, fs s))
    (supervised_pass cfg dw epo).
Proof. keeps_auto. Qed.

Lemma contrastive_pass_keeps_best cfg dw epo :
  keeps (fun s : State E => (max_metric s, model_max s, fs s))
    (contrastive_pass cfg dw epo).
Proof. keeps_auto. Qed.

(** *** The checkpoint decision *)

Lemma Qgtb_false_iff (a b : Q) : Qgtb a b = false <-> (a <= b)%Q.
Proof.
  unfold Qgtb. rewrite Qle_alt.
  destruct (a ?= b)%Q; split; intros H; try reflexivity; try discriminate.
  exfalso. apply H. reflexivity.
Qed.

Lemma Qgtb_true_iff (a b : Q) : Qgtb a b = true <-> (b < a)%Q.
Proof.
  unfold Qgtb. rewrite Qgt_alt.
  destruct (a ?= b)%Q; split; intros H; try reflexivity; discriminate.
Qed.



(** *** The task decides the watched metric *)

Lemma resolve_task_watch cfg :
  watch_metric (resolve_task E cfg)
  = Some (if is_dti_dg cfg then "val/pcc" else "val/aupr").
Proof.
  unfold resolve_task. destruct (is_dti_dg cfg); [reflexivity |].
  destruct (existsb _ _); reflexivity.
Qed.

(** C10. The watched metric that drives checkpoint selection is decided by the
    task alone: after the dispatch it is val/pcc for dti_dg and val/aupr for
    every other task, and a run does the same whatever value the user
    supplied. *)
Theorem watch_metric_from_task cfg (w : option string) :
  watch_metric (resolve_task E cfg)
  = Some (if String.eqb (task cfg) "dti_dg" then "val/pcc" else "val/aupr")
  /\ resolve_task E (set_watch_metric w cfg) = resolve_task E cfg
  /\ main (E := E) (set_watch_metric w cfg) = main cfg.
Proof.
  assert (H : resolve_task E (set_watch_metric w cfg) = resolve_task E cfg).
  { unfold resolve_task, is_dti_dg. simpl.
    destruct (String.eqb (task cfg) "dti_dg"); [reflexivity |].
    destruct (existsb _ _); reflexivity. }
  split; [apply resolve_task_watch |].
  split; [exact H |].
  unfold main. rewrite H. reflexivity.
Qed.

(** *** The validation cadence *)

Lemma supervised_pass_emits cfg dw epo :
  emits (training_event E) (supervised_pass (E := E) cfg dw epo).
Proof. emits_auto. Qed.

Lemma contrastive_pass_emits cfg dw epo :
  emits (training_event E) (contrastive_pass (E := E) cfg dw epo).
Proof. emits_auto. Qed.

Lemma validation_trace cfg dw epo (s : State E) :
  exists tr,
    trace (snd (validation cfg dw epo s)) = tr ++ EvValidate epo :: trace s.
Proof.
  unfold validation. unfold bind at 1. simpl.
  match goal with |- context [snd (?m ?st)] =>
    assert (Hm : emits (fun _ => True) m) by emits_auto;
    destruct (Hm st) as (tr & Htr & _)
  end.
  exists tr. exact Htr.
Qed.

Lemma py_mod_Ok a b r :
  py_mod a b = Ok r -> b <> 0%Z /\ r = (a mod b)%Z.
Proof.
  unfold py_mod. destruct (Z.eqb_spec b 0); intros H; [discriminate |].
  injection H as <-. split; [assumption | reflexivity].
Qed.

Lemma validation_cadence_eq cfg dw epo :
  every_n_val cfg <> 0%Z ->
  validation_cadence (E := E) cfg dw epo
  = if Z.eqb (Z.of_nat epo mod every_n_val cfg) 0
    then validation cfg dw epo else ret tt.
Proof.
  intros Hn. unfold validation_cadence, py_mod.
  destruct (Z.eqb_spec (every_n_val cfg) 0) as [H0 | _]; [contradiction |].
  reflexivity.
Qed.

Ltac bind_inv H :=
  let a := fresh "a" in
  let s := fresh "s" in
  let H1 := fresh H in
  apply bind_Ok_inv in H; destruct H as (a & s & H1 & H).


(** *** The order of an epoch *)

Lemma supervised_batch_trace cfg dw epo i b :
  steps (@trace E) (cons (EvOptStep epo i))
    (supervised_batch cfg dw epo (i, b)).
Proof.
  eapply steps_ext.
  - unfold supervised_batch, step, wandb_log. repeat steps_step.
  - intros x. reflexivity.
Qed.

Lemma contrastive_batch_trace cfg dw epo i b :
  steps (@trace E) (cons (EvConOptStep epo i))
    (contrastive_batch cfg dw epo (i, b)).
Proof.
  eapply steps_ext.
  - unfold contrastive_batch, contrastive_step, get_con, wandb_log.
    repeat steps_step.
  - intros x. reflexivity.
Qed.

Lemma supervised_pass_trace cfg dw epo :
  steps (@trace E) (app (rev (supervised_events E epo)))
    (supervised_pass cfg dw epo).
Proof.
  eapply steps_ext.
  - unfold supervised_pass, set_mode, get_loss, wandb_log, enumerate.
    eapply steps_bind; [steps_step | intro].
    eapply steps_bind;
      [apply steps_for_each_indexed
         with (g := fun i => cons (EvOptStep epo i));
       intros; apply supervised_batch_trace | intro].
    repeat steps_step.
  - intros x. unfold supervised_events. cbv beta.
    rewrite fold_left_cons_events, rev_app_distr. reflexivity.
Qed.

Lemma contrastive_pass_trace cfg dw epo :
  steps (@trace E) (app (rev (contrastive_events E cfg epo)))
    (contrastive_pass cfg dw epo).
Proof.
  unfold contrastive_pass, contrastive_events.
  destruct (contrastive cfg).
  - eapply steps_ext.
    + unfold get_con, get_contrastive_loss, wandb_log, enumerate.
      eapply steps_bind; [steps_step | intro].
      eapply steps_bind;
        [apply steps_for_each_indexed
           with (g := fun i => cons (EvConOptStep epo i));
         intros; apply contrastive_batch_trace | intro].
      repeat steps_step.
    + intros x. cbv beta.
      rewrite fold_left_cons_events, rev_app_distr. reflexivity.
  - apply steps_keeps, keeps_ret.
Qed.

Lemma supervised_pass_lr_scheduler cfg dw epo :
  steps (@lr_scheduler E) S (supervised_pass cfg dw epo).
Proof.
  eapply steps_ext.
  - unfold supervised_pass.
    eapply steps_bind; [apply steps_keeps; keeps_auto | intro].
    eapply steps_bind; [apply steps_keeps; keeps_auto | intro].
    eapply steps_bind with (g1 := S).
    + intros s0 u s' H. injection H as _ <-. reflexivity.
    + intro. apply steps_keeps. keeps_auto.
  - intros x. reflexivity.
Qed.

Lemma contrastive_pass_keeps_lr_scheduler cfg dw epo :
  keeps (@lr_scheduler E) (contrastive_pass cfg dw epo).
Proof. keeps_auto. Qed.

Lemma validation_cadence_keeps_lr_scheduler cfg dw epo :
  keeps (@lr_scheduler E) (validation_cadence cfg dw epo).
Proof. keeps_auto. Qed.

Lemma validation_cadence_emits cfg dw epo :
  emits (fun ev => ~ training_event E ev)
    (validation_cadence (E := E) cfg dw epo).
Proof. emits_auto; intros H; exact H. Qed.

(** C7. An epoch that runs to its end made, in this order: one optimiser step
    for each batch of the supervised loader, one step of the supervised
    learning-rate schedule, and, when contrastive training is enabled, one
    contrastive optimiser step for each batch of the contrastive loader, then
    one step of the margin and one step of the contrastive learning-rate
    schedule; whatever follows belongs to validation.  Without contrastive
    training the contrastive part is empty.  The steps are the updates
    themselves: the parameters, the optimiser state, the schedule count and
    the contrastive objects the epoch leaves are those [epoch_training]
    computes from the ones it started with, every supervised batch updating
    at the rate of the schedule before its step, the contrastive batches
    starting from the parameters the supervised pass left. *)
Theorem epoch_passes_in_order cfg dw epo (s s' : State E) :
  epoch cfg dw epo s = (Ok tt, s') ->
  (exists validation_part,
      rev (trace s')
      = rev (trace s) ++ supervised_events E epo
        ++ contrastive_events E cfg epo ++ validation_part
      /\ Forall (fun ev => ~ training_event E ev) validation_part
      /\ lr_scheduler s' = S (lr_scheduler s))
  /\ epoch_training cfg epo (training_vars_of s) = Ok (training_vars_of s').
Proof.
  intros H. split; [| apply epoch_computes_training with (dw := dw); exact H].
  unfold epoch in H. bind_inv H. bind_inv H.
  pose proof (supervised_pass_trace cfg dw epo _ H0) as T1.
  pose proof (contrastive_pass_trace cfg dw epo _ H1) as T2.
  destruct (validation_cadence_emits cfg dw epo s1) as (t3 & T3 & F3).
  rewrite H in T3. simpl in T3.
  exists (rev t3). split; [| split].
  - rewrite T3, T2, T1. rewrite !rev_app_distr, !rev_involutive.
    rewrite <- !app_assoc. reflexivity.
  - apply Forall_rev. exact F3.
  - pose proof (supervised_pass_lr_scheduler cfg dw epo _ H0) as L1.
    pose proof (contrastive_pass_keeps_lr_scheduler cfg dw epo s0) as L2.
    pose proof (validation_cadence_keeps_lr_scheduler cfg dw epo s1) as L3.
    rewrite H1 in L2. rewrite H in L3. simpl in L2, L3.
    rewrite L3, L2, L1. reflexivity.
Qed.

(** *** The terminal test pass *)

Lemma test_trace r gen ms c (s : State E) :
  trace (snd (test r gen ms c s)) = EvEvaluate (params (deref r s)) :: trace s.
Proof.
  unfold test. unfold bind at 1 2. simpl.
  match goal with |- trace (snd (?m ?st)) = _ =>
    assert (K : keeps (@trace E) m) by keeps_auto; rewrite (K st)
  end.
  reflexivity.
Qed.

Lemma append_cancel_l (p a b : string) :
  String.append p a = String.append p b -> a = b.
Proof.
  induction p as [| c p IH]; simpl; intros H.
  - exact H.
  - injection H as H. apply IH. exact H.
Qed.

Lemma final_path_not_epoch_path dir id epo :
  final_save_path dir id <> epoch_save_path dir id epo.
Proof.
  unfold final_save_path, epoch_save_path. intros H.
  apply append_cancel_l in H. apply append_cancel_l in H.
  apply append_cancel_l in H. simpl in H. discriminate H.
Qed.

Lemma terminal_test_trace cfg dw (s : State E) :
  exists tr,
    trace (snd (terminal_test cfg dw s))
    = tr ++ EvEvaluate (params (model_max s)) :: trace s
    /\ Forall (fun ev => exists path p, ev = EvSave path p) tr.
Proof.
  unfold terminal_test. unfold bind at 1. simpl.
  unfold bind at 1.
  match goal with |- context [test ?r ?g ?ms ?c ?st] =>
    pose proof (test_trace r g ms c st) as T;
    destruct (test r g ms c st) as [[results | e] s1]
  end; simpl in T |- *.
  - match goal with |- context [snd (?m s1)] =>
      assert (Hm : emits (fun ev => exists path p, ev = EvSave path p) m)
        by (emits_auto; eexists; eexists; reflexivity);
      destruct (Hm s1) as (tr & Htr & F)
    end.
    exists tr. split; [rewrite Htr, T; reflexivity | exact F].
  - exists []. split; [exact T | constructor].
Qed.

Lemma torch_save_Ok p path (s s' : State E) u :
  torch_save p path s = (Ok u, s') ->
  trace s' = EvSave path p :: trace s /\ fs s' = (path, p) :: fs s
  /\ model_max s' = model_max s.
Proof.
  unfold torch_save, bind, emit, modify.
  destruct (torch_save_error E path); intros H; [discriminate |].
  injection H as _ <-. repeat split.
Qed.

Lemma terminal_test_Ok cfg dw (s s' : State E) :
  terminal_test cfg dw s = (Ok tt, s') ->
  trace s'
  = [EvSave (final_save_path (save_dir cfg) (experiment_id cfg))
       (params (model_max s));
     EvEvaluate (params (model_max s))] ++ trace s
  /\ fs s'
     = (final_save_path (save_dir cfg) (experiment_id cfg),
        params (model_max s)) :: fs s.
Proof.
  intros H. unfold terminal_test in H.
  set (f := fun s : State E => (fs s, params (model_max s))) in *.
  bind_inv H. injection H0 as _ <-.
  bind_inv H.
  match type of H0 with
  | test ?r ?g ?ms ?c ?st = _ => pose proof (test_trace r g ms c st) as T
  end.
  rewrite H0 in T. simpl in T.
  kept f H0. simpl in K.
  bind_inv H. kept f H1. kept (@trace E) H1.
  bind_inv H. kept f H2. kept (@trace E) H2.
  bind_inv H. kept f H3. kept (@trace E) H3.
  bind_inv H. kept f H4. kept (@trace E) H4.
  bind_inv H. injection H5 as <- <-.
  bind_inv H. apply torch_save_Ok in H5. destruct H5 as (T5 & F5 & M5).
  bind_inv H. kept (@fs E) H5. kept (@trace E) H5.
  kept (@fs E) H. kept (@trace E) H.
  assert (Hf : f s4 = f s).
  { rewrite K6, K4, K2, K0, K. reflexivity. }
  unfold f in Hf. injection Hf as Hfs Hp.
  split.
  - rewrite K11, K9, T5, K7, K5, K3, K1, T, Hp. reflexivity.
  - rewrite K10, K8, F5, Hfs, Hp. reflexivity.
Qed.


(** *** Errors *)

Lemma for_each_app (A : Type) (xs ys : list A) (body : A -> M E unit) s :
  for_each (xs ++ ys) body s = (for_each xs body ;;; for_each ys body) s.
Proof.
  revert s. induction xs as [| x xs IH]; intros s; simpl.
  - reflexivity.
  - unfold bind in *. destruct (body x s) as [[[] | e] s1].
    + apply IH.
    + reflexivity.
Qed.

(** A loop whose [k]-th iteration raises, raises. *)
Lemma for_each_range_raises (body : nat -> M E unit) n k (s sk s1 : State E)
  e :
  (k < n)%nat ->
  for_each (seq 0 k) body s = (Ok tt, sk) ->
  body k sk = (Raise e, s1) ->
  for_each (seq 0 n) body s = (Raise e, s1).
Proof.
  intros Hk Hpre Hbody.
  replace n with (k + S (n - S k))%nat by lia.
  rewrite seq_app, for_each_app. rewrite (bind_Ok_eq _ _ _ Hpre).
  simpl. rewrite (bind_Raise_eq _ _ _ Hbody). reflexivity.
Qed.

Lemma epoch_raises cfg dw epo (s s1 : State E) e :
  supervised_pass cfg dw epo s = (Raise e, s1)
  \/ (exists s',
        supervised_pass cfg dw epo s = (Ok tt, s')
        /\ contrastive_pass cfg dw epo s' = (Raise e, s1))
  \/ (exists s' s'',
        supervised_pass cfg dw epo s = (Ok tt, s')
        /\ contrastive_pass cfg dw epo s' = (Ok tt, s'')
        /\ validation_cadence cfg dw epo s'' = (Raise e, s1)) ->
  epoch cfg dw epo s = (Raise e, s1).
Proof.
  unfold epoch.
  intros [H | [(s' & H1 & H2) | (s' & s'' & H1 & H2 & H3)]].
  - rewrite (bind_Raise_eq _ _ _ H). reflexivity.
  - rewrite (bind_Ok_eq _ _ _ H1), (bind_Raise_eq _ _ _ H2). reflexivity.
  - rewrite (bind_Ok_eq _ _ _ H1), (bind_Ok_eq _ _ _ H2). exact H3.
Qed.

Lemma finish_catches cfg dw (s s2 : State E) e :
  terminal_test cfg dw (set_logs ((INFO, MsgBeginTesting) :: logs s) s)
  = (Raise e, s2) ->
  is_Exception e = true ->
  finish cfg dw s
  = (Ok (model_max s2), set_logs ((ERROR, MsgTestingFailed e) :: logs s2) s2)
  /\ params (model_max s2) = params (model_max s).
Proof.
  intros H He. split.
  - unfold finish. unfold bind at 1. simpl.
    unfold bind, try_except. rewrite H, He. reflexivity.
  - pose proof (terminal_test_keeps_best_params cfg dw
                  (set_logs ((INFO, MsgBeginTesting) :: logs s) s)) as K.
    rewrite H in K. exact K.
Qed.

(** C4. An error raised inside the epoch loop, in the supervised pass, the
    contrastive pass or validation, leaves [main] as that error.  An error
    (an instance of [Exception]) raised by the terminal test pass, in the
    evaluation or in saving, is caught and logged, and [main] returns
    [model_max], whose parameters are those the loop left. *)
Theorem loop_errors_propagate_terminal_errors_caught cfg :
  (forall (s s0 sk s1 : State E) k e,
      setup (resolve_task E cfg) s = (Ok tt, s0) ->
      (k < epochs (resolve_task E cfg))%nat ->
      for_each (seq 0 k)
        (epoch (resolve_task E cfg) (do_wandb_of (resolve_task E cfg))) s0
      = (Ok tt, sk) ->
      supervised_pass (resolve_task E cfg)
        (do_wandb_of (resolve_task E cfg)) k sk = (Raise e, s1)
      \/ (exists s',
            supervised_pass (resolve_task E cfg)
              (do_wandb_of (resolve_task E cfg)) k sk = (Ok tt, s')
            /\ contrastive_pass (resolve_task E cfg)
                 (do_wandb_of (resolve_task E cfg)) k s' = (Raise e, s1))
      \/ (exists s' s'',
            supervised_pass (resolve_task E cfg)
              (do_wandb_of (resolve_task E cfg)) k sk = (Ok tt, s')
            /\ contrastive_pass (resolve_task E cfg)
                 (do_wandb_of (resolve_task E cfg)) k s' = (Ok tt, s'')
            /\ validation_cadence (resolve_task E cfg)
                 (do_wandb_of (resolve_task E cfg)) k s'' = (Raise e, s1)) ->
      main cfg s = (Raise e, s1))
  /\ (forall (s s0 s_end s2 : State E) e,
        setup (resolve_task E cfg) s = (Ok tt, s0) ->
        epoch_loop (resolve_task E cfg) (do_wandb_of (resolve_task E cfg)) s0
        = (Ok tt, s_end) ->
        terminal_test (resolve_task E cfg)
          (do_wandb_of (resolve_task E cfg))
          (set_logs ((INFO, MsgBeginTesting) :: logs s_end) s_end)
        = (Raise e, s2) ->
        is_Exception e = true ->
        main cfg s
        = (Ok (model_max s2),
           set_logs ((ERROR, MsgTestingFailed e) :: logs s2) s2)
        /\ params (model_max s2) = params (model_max s_end)).
Proof.
  split.
  - intros s s0 sk s1 k e Hsetup Hk Hpre Hraise.
    apply epoch_raises in Hraise.
    unfold main. rewrite (bind_Ok_eq _ _ _ Hsetup).
    apply bind_Raise_eq. unfold epoch_loop.
    eapply for_each_range_raises; [exact Hk | exact Hpre | exact Hraise].
  - intros s s0 s_end s2 e Hsetup Hloop Hterm He.
    destruct (finish_catches _ _ _ Hterm He) as [Hfin Hp].
    split; [| exact Hp].
    unfold main. rewrite (bind_Ok_eq _ _ _ Hsetup).
    rewrite (bind_Ok_eq _ _ _ Hloop). exact Hfin.
Qed.

End Frames.

(** ** The best value held by the checkpoint selector *)

Section Best.

Variable E : Env.

Lemma best_grows_refl (s : State E) : best_grows s s.
Proof. split; [apply Qle_refl | intros e v H; left; exact H]. Qed.

Lemma best_grows_trans (s1 s2 s3 : State E) :
  best_grows s1 s2 -> best_grows s2 s3 -> best_grows s1 s3.
Proof.
  intros [L1 B1] [L2 B2]. split.
  - eapply Qle_trans; eassumption.
  - intros e v H. destruct (B2 e v H) as [H2 | H2]; [| right; exact H2].
    destruct (B1 e v H2) as [H1 | H1]; [left; exact H1 | right].
    eapply Qle_trans; eassumption.
Qed.

Lemma follows_bind (A B : Type) (m : M E A) (k : A -> M E B) :
  follows best_grows m -> (forall a, follows best_grows (k a)) ->
  follows best_grows (bind m k).
Proof.
  intros Hm Hk s. unfold bind. specialize (Hm s).
  destruct (m s) as [[a | e] s1]; simpl in *.
  - eapply best_grows_trans; [exact Hm | apply Hk].
  - exact Hm.
Qed.

Lemma follows_for_each (A : Type) (xs : list A) (body : A -> M E unit) :
  (forall x, follows best_grows (body x)) ->
  follows best_grows (for_each xs body).
Proof.
  intros Hb. induction xs as [| x xs IH]; simpl.
  - intros s. apply best_grows_refl.
  - apply follows_bind; [apply Hb | intros _; exact IH].
Qed.

Lemma follows_try_except (A : Type) (body : M E A) handler :
  follows best_grows body -> (forall e, follows best_grows (handler e)) ->
  follows best_grows (try_except body handler).
Proof.
  intros Hb Hh s. unfold try_except. specialize (Hb s).
  destruct (body s) as [[a | e] s1]; simpl in *.
  - exact Hb.
  - destruct (is_Exception e); [| exact Hb].
    eapply best_grows_trans; [exact Hb | apply Hh].
Qed.

(** A computation that compares nothing and keeps the best value. *)
Lemma follows_quiet (A : Type) (m : M E A) :
  emits (not_compare E) m -> keeps (@max_metric E) m -> follows best_grows m.
Proof.
  intros He Hk s. destruct (He s) as (tr & Htr & F). split.
  - rewrite (Hk s). apply Qle_refl.
  - intros e v H. rewrite Htr in H. apply in_app_or in H.
    destruct H as [H | H]; [| left; exact H].
    rewrite Forall_forall in F. exfalso. exact (F _ H e (Num v) eq_refl).
Qed.

Lemma checkpoint_follows cfg dw epo val_results :
  follows best_grows (checkpoint (E := E) cfg dw epo val_results).
Proof.
  intros s. unfold checkpoint, dict_lookup.
  destruct (watch_metric cfg) as [k |]; [| apply best_grows_refl].
  destruct (dict_get val_results k) as [v |]; [| apply best_grows_refl].
  unfold bind at 1. unfold ret at 1. unfold bind at 1. simpl.
  unfold bind at 1. simpl.
  destruct v as [v |].
  2: { simpl. split; [apply Qle_refl |].
       intros e0 v0 [H | H]; [discriminate H | left; exact H]. }
  destruct (Qgtb v (max_metric s)) eqn:Hgt.
  - apply Qgtb_true_iff in Hgt.
    unfold bind at 1. simpl. unfold bind at 1. simpl.
    unfold bind at 1. simpl. unfold bind at 1. simpl.
    match goal with |- best_grows _ (snd (?m ?st)) =>
      assert (Hq : follows best_grows m)
        by (apply follows_quiet;
            [unfold log_artifact; repeat emits_step; intros e0 v0;
             discriminate
            | unfold log_artifact; repeat keeps_step]);
      destruct (Hq st) as [L B]
    end.
    simpl in L, B. split.
    + eapply Qle_trans; [apply Qlt_le_weak; exact Hgt | exact L].
    + intros e0 v0 H. destruct (B e0 v0 H) as [[H1 | H1] | H1].
      * injection H1 as <- <-. right. exact L.
      * left. exact H1.
      * right. exact H1.
  - apply Qgtb_false_iff in Hgt. simpl. split; [apply Qle_refl |].
    intros e0 v0 [H | H]; [| left; exact H].
    injection H as <- <-. right. exact Hgt.
Qed.

Ltac quiet :=
  apply follows_quiet;
  [ open_orch; repeat emits_step; intros ? ?; discriminate
  | open_orch; repeat keeps_step ].

Lemma epoch_follows cfg dw epo :
  follows best_grows (epoch (E := E) cfg dw epo).
Proof.
  unfold epoch.
  apply follows_bind; [quiet | intros _].
  apply follows_bind; [quiet | intros _].
  unfold validation_cadence.
  apply follows_bind; [quiet | intros r].
  destruct (Z.eqb r 0); [| intros s; apply best_grows_refl].
  unfold validation.
  apply follows_bind; [quiet | intros _].
  apply follows_bind; [quiet | intros results].
  apply follows_bind; [quiet | intros _].
  apply follows_bind; [apply checkpoint_follows | intros _].
  quiet.
Qed.

(** From the first epoch to the return of [main], the best value never
    decreases and is at least every watched value that was compared. *)
Lemma best_value_grows_and_bounds cfg dw :
  follows best_grows (epoch_loop (E := E) cfg dw ;;; finish cfg dw).
Proof.
  apply follows_bind.
  - unfold epoch_loop. apply follows_for_each. intros epo.
    apply epoch_follows.
  - intros _. quiet.
Qed.

End Best.

(** ** The observability sink does not steer training *)

Section Sink.

Variable E : Env.

Lemma Msim_ret (A : Type) (a : A) : Msim (E := E) (ret a) (ret a).
Proof. intros s1 s2 H. split; [reflexivity | exact H]. Qed.

Lemma Msim_raise (A : Type) e :
  Msim (E := E) (raise (A := A) e) (raise e).
Proof. intros s1 s2 H. split; [reflexivity | exact H]. Qed.

Lemma Msim_lift (A : Type) (r : res A) :
  Msim (E := E) (lift r) (lift r).
Proof. intros s1 s2 H. split; [reflexivity | exact H]. Qed.

Lemma Msim_bind (A B : Type) (m1 m2 : M E A) (k1 k2 : A -> M E B) :
  Msim m1 m2 -> (forall a, Msim (k1 a) (k2 a)) ->
  Msim (bind m1 k1) (bind m2 k2).
Proof.
  intros Hm Hk s1 s2 H. unfold bind. destruct (Hm s1 s2 H) as [Hr Hs].
  destruct (m1 s1) as [[a1 | e1] t1], (m2 s2) as [[a2 | e2] t2];
    simpl in *; try discriminate.
  - injection Hr as <-. apply Hk. exact Hs.
  - injection Hr as <-. split; [reflexivity | exact Hs].
Qed.

Lemma Msim_gets (A : Type) (f : State E -> A) :
  (forall s1 s2, sim s1 s2 -> f s1 = f s2) -> Msim (gets f) (gets f).
Proof.
  intros Hf s1 s2 H. simpl. split; [rewrite (Hf _ _ H); reflexivity | exact H].
Qed.

Lemma Msim_modify (f : State E -> State E) :
  (forall s1 s2, sim s1 s2 -> sim (f s1) (f s2)) ->
  Msim (modify f) (modify f).
Proof. intros Hf s1 s2 H. split; [reflexivity | apply Hf; exact H]. Qed.

Lemma Msim_for_each (A : Type) (xs : list A) (b1 b2 : A -> M E unit) :
  (forall x, Msim (b1 x) (b2 x)) -> Msim (for_each xs b1) (for_each xs b2).
Proof.
  intros Hb. induction xs as [| x xs IH]; simpl.
  - apply Msim_ret.
  - apply Msim_bind; [apply Hb | intros _; exact IH].
Qed.

Lemma Msim_for_fold (A S : Type) (xs : list A) (b1 b2 : A -> S -> M E S)
  (acc : S) :
  (forall x a, Msim (b1 x a) (b2 x a)) ->
  Msim (for_fold xs b1 acc) (for_fold xs b2 acc).
Proof.
  intros Hb. revert acc. induction xs as [| x xs IH]; intros acc; simpl.
  - apply Msim_ret.
  - apply Msim_bind; [apply Hb | intros a; apply IH].
Qed.

Lemma Msim_try_except (A : Type) (b1 b2 : M E A) (h1 h2 : exn -> M E A) :
  Msim b1 b2 -> (forall e, Msim (h1 e) (h2 e)) ->
  Msim (try_except b1 h1) (try_except b2 h2).
Proof.
  intros Hb Hh s1 s2 H. unfold try_except. destruct (Hb s1 s2 H) as [Hr Hs].
  destruct (b1 s1) as [[a1 | e1] t1], (b2 s2) as [[a2 | e2] t2];
    simpl in *; try discriminate.
  - split; assumption.
  - injection Hr as <-. destruct (is_Exception e1).
    + apply Hh. exact Hs.
    + split; [reflexivity | exact Hs].
Qed.

Lemma Msim_logg l1 m1 l2 m2 : Msim (logg (E := E) l1 m1) (logg l2 m2).
Proof. intros s1 s2 H. split; [reflexivity | exact H]. Qed.

Lemma Msim_logg_skip l m : Msim (logg (E := E) l m) (ret tt).
Proof. intros s1 s2 H. split; [reflexivity | exact H]. Qed.

Lemma Msim_emit ev : Msim (emit (E := E) ev) (emit ev).
Proof.
  intros s1 s2 H. split; [reflexivity |].
  unfold sim, train_view in *. simpl. injection H. intros. congruence.
Qed.

Lemma Msim_torch_save p path :
  Msim (torch_save (E := E) p path) (torch_save p path).
Proof.
  intros s1 s2 H. unfold torch_save, bind, emit, modify.
  destruct (torch_save_error E path); simpl; (split; [reflexivity |]);
    unfold sim, train_view in *; simpl; injection H; intros; congruence.
Qed.

Lemma Msim_update_metrics md pred label :
  Msim (update_metrics (E := E) md pred label) (update_metrics md pred label).
Proof.
  induction md as [| [k [c a]] md IH]; simpl.
  - apply Msim_ret.
  - apply Msim_bind; [apply Msim_lift | intros a'].
    apply Msim_bind; [exact IH | intros md'']. apply Msim_ret.
Qed.

Lemma Msim_new_metrics metrics :
  Msim (new_metrics (E := E) metrics) (new_metrics metrics).
Proof.
  induction metrics as [| [k c] metrics IH]; simpl.
  - apply Msim_ret.
  - apply Msim_bind; [apply Msim_lift | intros a].
    apply Msim_bind; [exact IH | intros md]. apply Msim_ret.
Qed.

Lemma Msim_compute_metrics md results :
  Msim (compute_metrics (E := E) md results) (compute_metrics md results).
Proof.
  revert results. induction md as [| [k [c a]] md IH]; intros results; simpl.
  - apply Msim_ret.
  - apply Msim_bind; [apply Msim_lift | intros v; apply IH].
Qed.

(** The sink honours its contract: its calls return normally. *)
Hypothesis sink_returns : forall c, wandb_error E c = None.

Lemma Msim_wandb_send c : Msim (wandb_send (E := E) c) (ret tt).
Proof.
  intros s1 s2 H. unfold wandb_send. rewrite sink_returns. simpl.
  split; [reflexivity | exact H].
Qed.

Ltac sim_solve :=
  let H := fresh in
  intros ? ? H; unfold sim, train_view in *; injection H; intros;
  try match goal with r : model_ref |- _ => destruct r end;
  simpl; congruence.

Ltac msim_step :=
  match goal with
  | |- Msim (bind _ _) (bind _ _) => apply Msim_bind; [ | intro ]
  | |- Msim (ret _) (ret _) => apply Msim_ret
  | |- Msim (raise _) (raise _) => apply Msim_raise
  | |- Msim unbound unbound => apply Msim_raise
  | |- Msim (lift _) (lift _) => apply Msim_lift
  | |- Msim (gets _) (gets _) => apply Msim_gets; sim_solve
  | |- Msim (modify _) (modify _) => apply Msim_modify; sim_solve
  | |- Msim (for_each _ _) (for_each _ _) => apply Msim_for_each; intro
  | |- Msim (for_fold _ _ _) (for_fold _ _ _) => apply Msim_for_fold; intros
  | |- Msim (try_except _ _) (try_except _ _) =>
      apply Msim_try_except; [ | intro ]
  | |- Msim (logg _ _) (logg _ _) => apply Msim_logg
  | |- Msim (emit _) (emit _) => apply Msim_emit
  | |- Msim (torch_save _ _) (torch_save _ _) => apply Msim_torch_save
  | |- Msim (update_metrics _ _ _) (update_metrics _ _ _) =>
      apply Msim_update_metrics
  | |- Msim (compute_metrics _ _) (compute_metrics _ _) =>
      apply Msim_compute_metrics
  | |- Msim (new_metrics _) (new_metrics _) => apply Msim_new_metrics
  | |- Msim (wandb_send _) (ret _) => apply Msim_wandb_send
  | |- Msim (if ?b then _ else _) (if ?b then _ else _) => destruct b
  | |- Msim (match ?x with _ => _ end) (match ?x with _ => _ end) =>
      destruct x
  end.

(** The configuration of the comparison and the project of its sink. *)
Variable cfg : Config.
Variable project : string.

Lemma Msim_test r gen ms c : Msim (test (E := E) r gen ms c) (test r gen ms c).
Proof. unfold test, step, set_mode. repeat msim_step. Qed.

Lemma Msim_supervised_pass epo :
  Msim (supervised_pass (E := E) (with_sink project cfg) true epo)
    (supervised_pass (without_sink cfg) false epo).
Proof.
  unfold supervised_pass, supervised_batch, step, set_mode, get_loss,
    wandb_log, current_lr, with_sink, without_sink.
  simpl. repeat msim_step.
Qed.

Lemma Msim_contrastive_pass epo :
  Msim (contrastive_pass (E := E) (with_sink project cfg) true epo)
    (contrastive_pass (without_sink cfg) false epo).
Proof.
  unfold contrastive_pass, contrastive_batch, contrastive_step, get_con,
    get_contrastive_loss, wandb_log, current_clr, with_sink, without_sink.
  simpl. repeat msim_step.
Qed.

Lemma Msim_log_artifact c path :
  Msim (log_artifact (E := E) (with_sink project c) true path)
    (log_artifact (without_sink c) false path).
Proof.
  unfold log_artifact, with_sink, without_sink. simpl.
  destruct (wandb_save c); repeat msim_step.
Qed.

Lemma Msim_validation_cadence epo :
  Msim (validation_cadence (E := E) (with_sink project cfg) true epo)
    (validation_cadence (without_sink cfg) false epo).
Proof.
  unfold validation_cadence, validation, checkpoint, log_items, dict_lookup,
    wandb_log, annotate_val_results, with_sink, without_sink.
  simpl. repeat first [ apply Msim_test | apply Msim_log_artifact | msim_step ].
Qed.

Lemma Msim_epoch_loop :
  Msim (epoch_loop (E := E) (with_sink project cfg) true)
    (epoch_loop (without_sink cfg) false).
Proof.
  unfold epoch_loop, with_sink, without_sink. simpl.
  fold (with_sink project cfg). fold (without_sink cfg).
  apply Msim_for_each. intros epo. unfold epoch.
  apply Msim_bind; [apply Msim_supervised_pass | intros _].
  apply Msim_bind; [apply Msim_contrastive_pass | intros _].
  apply Msim_validation_cadence.
Qed.

Lemma Msim_finish :
  Msim (finish (E := E) (with_sink project cfg) true)
    (finish (without_sink cfg) false).
Proof.
  unfold finish, terminal_test, log_items, wandb_log, set_mode, with_sink,
    without_sink.
  simpl. repeat first [ apply Msim_test | apply Msim_log_artifact | msim_step ].
Qed.

Lemma Msim_init_wandb :
  Msim (init_wandb (E := E) (with_sink project cfg))
    (init_wandb (without_sink cfg)).
Proof.
  intros s1 s2 H. unfold init_wandb, with_sink, without_sink. simpl.
  unfold bind, logg, modify, wandb_send, gets, ret. simpl.
  rewrite !sink_returns. simpl. split; [reflexivity | exact H].
Qed.

Lemma Msim_setup :
  Msim (setup (E := E) (with_sink project cfg)) (setup (without_sink cfg)).
Proof.
  unfold setup.
  apply Msim_bind; [apply Msim_modify; sim_solve | intros _].
  apply Msim_bind; [apply Msim_lift | intros _].
  apply Msim_bind; [apply Msim_init_wandb | intros _].
  repeat msim_step.
Qed.

End Sink.

Lemma resolve_task_set_wandb_proj E x cfg :
  resolve_task E (set_wandb_proj x cfg) = set_wandb_proj x (resolve_task E cfg).
Proof.
  unfold resolve_task, is_dti_dg. simpl.
  destruct (String.eqb (task cfg) "dti_dg"); [reflexivity |].
  destruct (existsb _ _); reflexivity.
Qed.

(** C9. With a sink whose calls return, a run with a wandb project and the
    run without one, from the same state, have the same outcome (the same
    returned best model, or the same exception) and end with the same
    training view: the same parameters and optimiser states, the same best
    metric and best model, the same saved files, and the same sequence of
    optimiser steps, schedule steps, evaluations, comparisons and saves. *)
Theorem sink_does_not_change_training (E : Env) (cfg : Config)
  (project : string) (s : State E) :
  (forall c, wandb_error E c = None) ->
  fst (main (set_wandb_proj (Some project) cfg) s)
  = fst (main (set_wandb_proj None cfg) s)
  /\ train_view (snd (main (set_wandb_proj (Some project) cfg) s))
     = train_view (snd (main (set_wandb_proj None cfg) s)).
Proof.
  intros Hsink.
  assert (H : Msim (main (E := E) (set_wandb_proj (Some project) cfg))
                (main (set_wandb_proj None cfg))).
  { unfold main. rewrite !resolve_task_set_wandb_proj. simpl.
    fold (with_sink project (resolve_task E cfg)).
    fold (without_sink (resolve_task E cfg)).
    apply Msim_bind; [apply Msim_setup; exact Hsink | intros _].
    apply Msim_bind; [apply Msim_epoch_loop; exact Hsink | intros _].
    apply Msim_finish; exact Hsink. }
  apply H. reflexivity.
Qed.


(** ** The margin stays in its range *)

Section MarginFacts.

Local Open Scope R_scope.

Lemma margin_at_bounded k M n_epoch n_restart e :
  0 <= M -> (e <= n_epoch)%nat ->
  0 <= Margin.margin_at k M n_epoch n_restart e <= M.
Proof.
  intros HM He. unfold Margin.margin_at.
  destruct (Margin.at_restart n_restart e); [lra |].
  destruct k.
  - assert (H3 : 0 <= INR e / INR n_epoch <= 1).
    { destruct n_epoch as [| n].
      - replace e with 0%nat by lia. simpl. unfold Rdiv.
        rewrite Rmult_0_l. lra.
      - assert (H0 : 0 < INR (S n)) by (apply lt_0_INR; lia).
        assert (H1 : 0 <= INR e) by apply pos_INR.
        assert (H2 : INR e <= INR (S n)) by (apply le_INR; exact He).
        split.
        + apply Rmult_le_pos; [exact H1 |]. left. apply Rinv_0_lt_compat.
          exact H0.
        + apply Rmult_le_reg_r with (r := INR (S n)); [exact H0 |].
          unfold Rdiv. rewrite Rmult_assoc, Rinv_l by lra. lra. }
    nra.
  - pose proof (COS_bound (PI * INR (e mod n_restart) / INR n_restart)) as C.
    nra.
  - lra.
Qed.

Lemma iter_step_shape k M n_epoch n_restart n :
  Nat.iter n Margin.step (Margin.init k M n_epoch n_restart)
  = Margin.mkMarginState (Margin.margin_at k M n_epoch n_restart n) n
      n_restart M n_epoch k.
Proof.
  induction n as [| n IH]; simpl.
  - reflexivity.
  - rewrite IH. reflexivity.
Qed.

(** C8. After any number [e] of epochs of the run, the margin the scheduler
    holds is the schedule's value at [e], and it lies between 0 and the
    configured maximum. *)
Theorem margin_bounded k M n_epoch n_restart e :
  0 <= M -> (e <= n_epoch)%nat ->
  Margin.current_margin
    (Nat.iter e Margin.step (Margin.init k M n_epoch n_restart))
  = Margin.margin_at k M n_epoch n_restart e
  /\ 0 <= Margin.current_margin
            (Nat.iter e Margin.step (Margin.init k M n_epoch n_restart))
     <= M.
Proof.
  intros HM He. rewrite iter_step_shape. simpl.
  split; [reflexivity |]. apply margin_at_bounded; assumption.
Qed.

End MarginFacts.

Lemma margin_bounded_witness :
  (0 <= 1 / 4)%R
  /\ (3 <= 10)%nat
  /\ Margin.current_margin
       (Nat.iter 3 Margin.step
          (Margin.init Margin.CosineRestarts (1 / 4)%R 10 5))
     = Margin.margin_at Margin.CosineRestarts (1 / 4)%R 10 5 3
  /\ (0 <= Margin.current_margin
             (Nat.iter 3 Margin.step
                (Margin.init Margin.CosineRestarts (1 / 4)%R 10 5))
       <= 1 / 4)%R.
Proof.
  assert (H1 : (0 <= 1 / 4)%R) by lra.
  assert (H2 : (3 <= 10)%nat) by lia.
  split; [exact H1 |]. split; [exact H2 |].
  exact (margin_bounded Margin.CosineRestarts 5 H1 H2).
Defined.

(** ** Witnesses and runs *)


Lemma loop_errors_propagate_terminal_errors_caught_witness :
  (setup (resolve_task Scenario.E_disk Scenario.cfg1)
     (Toy.start Scenario.E_disk)
   = (Ok tt, Scenario.after_setup_disk)
   /\ (0 < epochs (resolve_task Scenario.E_disk Scenario.cfg1))%nat
   /\ validation_cadence (resolve_task Scenario.E_disk Scenario.cfg1) false 0
        Scenario.after_training_disk
      = (Raise (PyException "OSError"), Scenario.at_failed_save)
   /\ main Scenario.cfg1 (Toy.start Scenario.E_disk)
      = (Raise (PyException "OSError"), Scenario.at_failed_save))
  /\ (epoch_loop (resolve_task Scenario.E_final Scenario.cfg1) false
        Scenario.after_setup_final
      = (Ok tt, Scenario.after_loop_final)
      /\ terminal_test (resolve_task Scenario.E_final Scenario.cfg1) false
           (set_logs
              ((INFO, MsgBeginTesting) :: logs Scenario.after_loop_final)
              Scenario.after_loop_final)
         = (Raise (PyException "OSError"), Scenario.at_failed_final_save)
      /\ main Scenario.cfg1 (Toy.start Scenario.E_final)
         = (Ok (model_max Scenario.at_failed_final_save),
            set_logs
              ((ERROR, MsgTestingFailed (PyException "OSError"))
               :: logs Scenario.at_failed_final_save)
              Scenario.at_failed_final_save)).
Proof.
  assert (B1 : setup (resolve_task Scenario.E_disk Scenario.cfg1)
                 (Toy.start Scenario.E_disk)
               = (Ok tt, Scenario.after_setup_disk))
    by (vm_compute; reflexivity).
  assert (B2 : (0 < epochs (resolve_task Scenario.E_disk Scenario.cfg1))%nat)
    by (vm_compute; lia).
  assert (B3 : for_each (seq 0 0)
                 (epoch (resolve_task Scenario.E_disk Scenario.cfg1)
                    (do_wandb_of (resolve_task Scenario.E_disk Scenario.cfg1)))
                 Scenario.after_setup_disk
               = (Ok tt, Scenario.after_setup_disk)) by reflexivity.
  assert (B4 : validation_cadence (resolve_task Scenario.E_disk Scenario.cfg1)
                 false 0 Scenario.after_training_disk
               = (Raise (PyException "OSError"), Scenario.at_failed_save))
    by (vm_compute; reflexivity).
  assert (A1 : setup (resolve_task Scenario.E_final Scenario.cfg1)
                 (Toy.start Scenario.E_final)
               = (Ok tt, Scenario.after_setup_final))
    by (vm_compute; reflexivity).
  assert (A2 : epoch_loop (resolve_task Scenario.E_final Scenario.cfg1) false
                 Scenario.after_setup_final
               = (Ok tt, Scenario.after_loop_final))
    by (vm_compute; reflexivity).
  assert (A3 : terminal_test (resolve_task Scenario.E_final Scenario.cfg1)
                 false
                 (set_logs
                    ((INFO, MsgBeginTesting)
                     :: logs Scenario.after_loop_final)
                    Scenario.after_loop_final)
               = (Raise (PyException "OSError"),
                  Scenario.at_failed_final_save))
    by (vm_compute; reflexivity).
  split.
  - split; [exact B1 |]. split; [exact B2 |]. split; [exact B4 |].
    apply (proj1 (loop_errors_propagate_terminal_errors_caught
                    Scenario.E_disk Scenario.cfg1)
             (Toy.start Scenario.E_disk) Scenario.after_setup_disk
             Scenario.after_setup_disk Scenario.at_failed_save 0%nat
             (PyException "OSError") B1 B2 B3).
    right. right.
    eexists. exists Scenario.after_training_disk.
    split; [vm_compute; reflexivity |].
    split; [vm_compute; reflexivity | exact B4].
  - split; [exact A2 |]. split; [exact A3 |].
    exact (proj1 (proj2 (loop_errors_propagate_terminal_errors_caught
                           Scenario.E_final Scenario.cfg1)
                    (Toy.start Scenario.E_final) Scenario.after_setup_final
                    Scenario.after_loop_final Scenario.at_failed_final_save
                    (PyException "OSError") A1 A2 A3 eq_refl)).
Defined.



Lemma epoch_passes_in_order_witness :
  epoch Scenario.cfg3c false 0 Scenario.after_setup_c
  = (Ok tt, Scenario.after_epoch0_c)
  /\ (exists validation_part,
         rev (trace Scenario.after_epoch0_c)
         = rev (trace Scenario.after_setup_c)
           ++ supervised_events Scenario.E3 0
           ++ contrastive_events Scenario.E3 Scenario.cfg3c 0
           ++ validation_part
         /\ Forall (fun ev => ~ @training_event Scenario.E3 ev)
              validation_part
         /\ lr_scheduler Scenario.after_epoch0_c
            = S (lr_scheduler Scenario.after_setup_c))
  /\ epoch_training Scenario.cfg3c 0
       (training_vars_of Scenario.after_setup_c)
     = Ok (training_vars_of Scenario.after_epoch0_c).
Proof.
  assert (H : epoch Scenario.cfg3c false 0 Scenario.after_setup_c
              = (Ok tt, Scenario.after_epoch0_c))
    by (vm_compute; reflexivity).
  split; [exact H |].
  exact (epoch_passes_in_order Scenario.cfg3c false 0 _ H).
Defined.

Lemma sink_does_not_change_training_witness :
  (forall c, wandb_error Scenario.E3 c = None)
  /\ fst (main (set_wandb_proj (Some "dti")
                 (Toy.config "davis" 3 true 1 None))
            (Toy.start Scenario.E3))
     = fst (main (set_wandb_proj None (Toy.config "davis" 3 true 1 None))
              (Toy.start Scenario.E3)).
Proof.
  assert (H : forall c, wandb_error Scenario.E3 c = None)
    by (intros c; reflexivity).
  split; [exact H |].
  exact (proj1 (sink_does_not_change_training
                  (Toy.config "davis" 3 true 1 None) "dti"
                  (Toy.start Scenario.E3) H)).
Defined.

(** C1, at a run the code can make: regression, one epoch, one validation
    pass whose Pearson correlation is -1/2.  The pass evaluated the trained
    parameters (1 update); the run returns, and saves as its best model, the
    initial parameters (0 updates), which no validation pass evaluated, and
    the best value it holds is 0, which no validation pass produced. *)
Theorem best_model_was_never_validated :
  fst (main Scenario.cfg_pcc (Toy.start Scenario.E_pcc))
  = Ok (mkModel (E := Scenario.E_pcc) 0%nat false)
  /\ max_metric (snd (main Scenario.cfg_pcc (Toy.start Scenario.E_pcc)))
     = 0%Q
  /\ rev (trace (snd (main Scenario.cfg_pcc (Toy.start Scenario.E_pcc))))
     = [EvOptStep 0 0; EvLrStep 0; EvValidate 0; EvEvaluate 1%nat;
        EvCompare 0 (Num (-1 # 2)); EvEvaluate 0%nat;
        EvSave "out/exp_best_model.pt" 0%nat]
  /\ In (INFO, MsgKeyValue "val/pcc" (Num (-1 # 2)))
       (logs (snd (main Scenario.cfg_pcc (Toy.start Scenario.E_pcc)))).
Proof.
  split; [vm_compute; reflexivity |].
  split; [vm_compute; reflexivity |].
  split; [vm_compute; reflexivity |].
  vm_compute. tauto.
Qed.

(** C2, at a first validation pass the code can make: regression, watched
    metric val/pcc, first observed value -1/2.  The pass returns normally
    and no checkpoint is made: no file is written, the best value stays at
    its initial 0 and the best model stays the initial copy. *)
Theorem first_validation_without_checkpoint :
  watch_metric (resolve_task Scenario.E_pcc Scenario.cfg_pcc)
  = Some "val/pcc"
  /\ fst (validation (resolve_task Scenario.E_pcc Scenario.cfg_pcc) false 0
            Scenario.before_first_validation)
     = Ok tt
  /\ In (INFO, MsgKeyValue "val/pcc" (Num (-1 # 2)))
       (logs (snd (validation (resolve_task Scenario.E_pcc Scenario.cfg_pcc)
                     false 0 Scenario.before_first_validation)))
  /\ fs (snd (validation (resolve_task Scenario.E_pcc Scenario.cfg_pcc)
                false 0 Scenario.before_first_validation))
     = []
  /\ max_metric
       (snd (validation (resolve_task Scenario.E_pcc Scenario.cfg_pcc)
               false 0 Scenario.before_first_validation))
     = 0%Q
  /\ model_max
       (snd (validation (resolve_task Scenario.E_pcc Scenario.cfg_pcc)
               false 0 Scenario.before_first_validation))
     = mkModel (E := Scenario.E_pcc) 0%nat true.
Proof.
  split; [reflexivity |].
  split; [vm_compute; reflexivity |].
  split; [vm_compute; tauto |].
  split; [vm_compute; reflexivity |].
  split; vm_compute; reflexivity.
Qed.

(** ** More about [test] *)

Section TestFacts.

Variable E : Env.

Lemma dict_get_set_same (d : dict) k v : dict_get (dict_set d k v) k = Some v.
Proof.
  induction d as [| [k' v'] d IH]; simpl.
  - rewrite String.eqb_refl. reflexivity.
  - destruct (String.eqb k' k) eqn:Hk; simpl.
    + rewrite String.eqb_refl. reflexivity.
    + rewrite Hk. exact IH.
Qed.

Lemma dict_get_set_other (d : dict) k k' v :
  k <> k' -> dict_get (dict_set d k v) k' = dict_get d k'.
Proof.
  intros Hne. induction d as [| [k0 v0] d IH]; simpl.
  - destruct (String.eqb_spec k k'); [contradiction | reflexivity].
  - destruct (String.eqb_spec k0 k) as [-> | Hk]; simpl.
    + destruct (String.eqb_spec k k'); [contradiction | reflexivity].
    + destruct (String.eqb k0 k'); [reflexivity | exact IH].
Qed.

Lemma dict_get_keys (d : dict) k :
  In k (map fst d) <-> dict_get d k <> None.
Proof.
  induction d as [| [k0 v0] d IH]; simpl.
  - split; [intros [] | intros H; apply H; reflexivity].
  - destruct (String.eqb_spec k0 k) as [-> | Hk].
    + split; [intros _; discriminate | intros _; left; reflexivity].
    + rewrite <- IH. split; [intros [H | H]; [contradiction | exact H] |].
      intros H. right. exact H.
Qed.

(** Assigning to a fresh key appends it. *)
Lemma dict_set_fresh_keys (d : dict) k v :
  ~ In k (map fst d) -> map fst (dict_set d k v) = map fst d ++ [k].
Proof.
  induction d as [| [k0 v0] d IH]; simpl; intros Hn.
  - reflexivity.
  - destruct (String.eqb_spec k0 k) as [-> | Hk].
    + exfalso. apply Hn. left. reflexivity.
    + simpl. rewrite IH; [reflexivity |]. intros H. apply Hn. right. exact H.
Qed.

Lemma update_metrics_keys (md md' : metric_dict E) pred label (s s' : State E) :
  update_metrics md pred label s = (Ok md', s') ->
  map fst md' = map fst md.
Proof.
  revert md' s s'.
  induction md as [| [k [c a]] md IH]; simpl; intros md' s s' H.
  - injection H as <- _. reflexivity.
  - bind_inv2 H. bind_inv2 H. injection H as <- _. simpl.
    rewrite (IH _ _ _ H1). reflexivity.
Qed.

Lemma compute_metrics_keys (md : metric_dict E) results results'
  (s s' : State E) :
  compute_metrics md results s = (Ok results', s') ->
  NoDup (map fst md) ->
  (forall k, In k (map fst md) -> ~ In k (map fst results)) ->
  map fst results' = map fst results ++ map fst md.
Proof.
  revert results s s'.
  induction md as [| [k [c a]] md IH]; simpl; intros results s s' H Hnd Hdis.
  - injection H as <- _. rewrite app_nil_r. reflexivity.
  - bind_inv2 H. inversion Hnd as [| k0 l Hk Hnd']; subst.
    rewrite (IH _ _ _ H Hnd').
    + rewrite dict_set_fresh_keys by (apply Hdis; left; reflexivity).
      rewrite <- app_assoc. reflexivity.
    + intros k' Hin. rewrite dict_set_fresh_keys
        by (apply Hdis; left; reflexivity).
      intros Hin'. apply in_app_or in Hin'. destruct Hin' as [Hin' | [-> | []]].
      * exact (Hdis k' (or_intror Hin) Hin').
      * exact (Hk Hin).
Qed.

Lemma evaluation_loop_keys (m : Model E) (c : bool) gen (md md' : metric_dict E)
  (s s' : State E) :
  for_fold gen
    (fun b md1 =>
       pl <- step m b ;;
       update_metrics md1 (fst pl)
         (if c then to_int E (snd pl) else to_float E (snd pl)))
    md s = (Ok md', s') ->
  map fst md' = map fst md.
Proof.
  revert md s s'. induction gen as [| b gen IH]; simpl; intros md s s' H.
  - injection H as <- _. reflexivity.
  - bind_inv2 H. bind_inv2 H0.
    rewrite (IH _ _ _ H). exact (update_metrics_keys _ _ _ _ H0).
Qed.

Lemma new_metrics_keys metrics (md : metric_dict E) (s s' : State E) :
  new_metrics metrics s = (Ok md, s') -> map fst md = map fst metrics.
Proof.
  revert md s s'.
  induction metrics as [| [k c] metrics IH]; simpl; intros md s s' H.
  - injection H as <- _. reflexivity.
  - bind_inv2 H. bind_inv2 H. injection H as <- _. simpl.
    rewrite (IH _ _ _ H1). reflexivity.
Qed.

Lemma test_keys r gen (metrics : list (string * metric_class)) c
  (s s' : State E) results :
  NoDup (map fst metrics) ->
  test r gen metrics c s = (Ok results, s') ->
  map fst results = map fst metrics.
Proof.
  intros Hnd H. unfold test in H.
  bind_inv2 H. bind_inv2 H. bind_inv2 H. bind_inv2 H. bind_inv2 H.
  bind_inv2 H.
  apply new_metrics_keys in H2. apply evaluation_loop_keys in H5.
  rewrite H2 in H5.
  apply compute_metrics_keys in H.
  - rewrite H. simpl. exact H5.
  - rewrite H5. exact Hnd.
  - intros k _ [].
Qed.

(** X2. When [test] returns, its result has one entry for each metric of the
    table it was given, under the metric's name and in the table's order. *)
Theorem test_returns_one_value_per_metric r gen
  (metrics : list (string * metric_class)) c (s s' : State E) results :
  NoDup (map fst metrics) ->
  test r gen metrics c s = (Ok results, s') ->
  map fst results = map fst metrics.
Proof.
  intros Hnd H. unfold test in H.
  bind_inv2 H. bind_inv2 H. bind_inv2 H. bind_inv2 H. bind_inv2 H.
  bind_inv2 H.
  apply new_metrics_keys in H2. apply evaluation_loop_keys in H5.
  rewrite H2 in H5.
  apply compute_metrics_keys in H.
  - rewrite H. simpl. exact H5.
  - rewrite H5. exact Hnd.
  - intros k _ [].
Qed.

Lemma resolve_task_task cfg : task (resolve_task E cfg) = task cfg.
Proof.
  unfold resolve_task. destruct (is_dti_dg cfg); [reflexivity |].
  destruct (existsb _ _); reflexivity.
Qed.

Lemma val_metrics_resolve_task cfg :
  val_metrics (resolve_task E cfg) = val_metrics cfg.
Proof.
  unfold val_metrics, is_dti_dg. rewrite resolve_task_task. reflexivity.
Qed.

(** X1. The watched metric is always one of the validation metrics of the
    task: when the validation evaluation returns, its result holds a value
    under the watched name, the two keys added afterwards do not hide it, and
    the lookup of the checkpoint decision returns that value (no
    [KeyError]). *)
Theorem watched_metric_is_computed cfg epo gen c (s s' : State E) results :
  test TheModel gen (val_metrics (resolve_task E cfg)) c s = (Ok results, s') ->
  exists k v,
    watch_metric (resolve_task E cfg) = Some k
    /\ dict_get results k = Some v
    /\ dict_lookup (E := E)
         (annotate_val_results E (resolve_task E cfg) epo results)
         (watch_metric (resolve_task E cfg))
       = ret v.
Proof.
  intros H. rewrite val_metrics_resolve_task in H.
  rewrite resolve_task_watch.
  assert (Hk : In (if is_dti_dg cfg then "val/pcc" else "val/aupr")
                 (map fst results)
               /\ "epoch" <> (if is_dti_dg cfg then "val/pcc" else "val/aupr")
               /\ "Charts/epoch_time"
                  <> (if is_dti_dg cfg then "val/pcc" else "val/aupr")).
  { apply test_keys in H.
    - rewrite H. unfold val_metrics.
      destruct (is_dti_dg cfg); simpl; repeat split;
        try discriminate; tauto.
    - unfold val_metrics.
      destruct (is_dti_dg cfg); simpl;
        (constructor;
         [ simpl; intros [E1 | []]; discriminate E1
         | constructor; [intros [] | constructor] ]). }
  destruct Hk as (Hin & He & Ht).
  apply dict_get_keys in Hin.
  destruct (dict_get results (if is_dti_dg cfg then "val/pcc" else "val/aupr"))
    as [v |] eqn:Hv; [| contradiction].
  exists (if is_dti_dg cfg then "val/pcc" else "val/aupr"), v.
  split; [reflexivity |]. split; [exact Hv |].
  unfold dict_lookup, annotate_val_results.
  rewrite (dict_get_set_other _ _ Ht), (dict_get_set_other _ _ He), Hv.
  reflexivity.
Qed.

Lemma test_untraced_cases r gen metrics c (s : State E) :
  match instances_of E metrics with
  | Ok _ =>
      untraced (snd (test r gen metrics c s))
      = untraced (assign r (mkModel (params (deref r s)) false) s)
  | Raise e =>
      fst (test r gen metrics c s) = Raise e
      /\ untraced (snd (test r gen metrics c s)) = untraced s
  end.
Proof.
  destruct (instances_of E metrics) as [md0 | e] eqn:Hi.
  - unfold test. unfold bind at 1 2. simpl. unfold bind at 1.
    rewrite new_metrics_instances, Hi.
    unfold bind at 1. simpl.
    match goal with |- untraced (snd (?m ?st)) = _ =>
      assert (K : keeps (@untraced E) m) by keeps_auto; rewrite (K st)
    end.
    destruct r; reflexivity.
  - assert (Ht : test r gen metrics c s
                 = (Raise e,
                    set_trace (EvEvaluate (params (deref r s)) :: trace s) s)).
    { unfold test. unfold bind at 1 2. simpl. unfold bind at 1.
      rewrite new_metrics_instances, Hi. reflexivity. }
    rewrite Ht. split; reflexivity.
Qed.

Lemma test_untraced r gen metrics c (s : State E) :
  untraced (snd (test r gen metrics c s)) = untraced s
  \/ untraced (snd (test r gen metrics c s))
     = untraced (assign r (mkModel (params (deref r s)) false) s).
Proof.
  pose proof (test_untraced_cases r gen metrics c s) as H.
  destruct (instances_of E metrics); [right; exact H | left; apply H].
Qed.

(** X3. [test] changes nothing but the train/eval flag of the module it is
    given: parameters of both models, optimisers, schedules, best value,
    files, sink and log are as before, whatever its outcome.  The flag is
    set after the metric objects are built: when their construction raises,
    [test] raises with it and the module is in the mode it was in; in every
    other case, also when a batch or a metric raises later, the module is
    left in eval mode. *)
Theorem test_only_sets_eval_mode r gen metrics c (s : State E) :
  match instances_of E metrics with
  | Ok _ =>
      untraced (snd (test r gen metrics c s))
      = untraced (assign r (mkModel (params (deref r s)) false) s)
  | Raise e =>
      fst (test r gen metrics c s) = Raise e
      /\ untraced (snd (test r gen metrics c s)) = untraced s
  end.
Proof.
  destruct (instances_of E metrics) as [md0 | e] eqn:Hi.
  - unfold test. unfold bind at 1 2. simpl. unfold bind at 1.
    rewrite new_metrics_instances, Hi.
    unfold bind at 1. simpl.
    match goal with |- untraced (snd (?m ?st)) = _ =>
      assert (K : keeps (@untraced E) m) by keeps_auto; rewrite (K st)
    end.
    destruct r; reflexivity.
  - assert (Ht : test r gen metrics c s
                 = (Raise e,
                    set_trace (EvEvaluate (params (deref r s)) :: trace s) s)).
    { unfold test. unfold bind at 1 2. simpl. unfold bind at 1.
      rewrite new_metrics_instances, Hi. reflexivity. }
    rewrite Ht. split; reflexivity.
Qed.

End TestFacts.

(** ** More about the checkpoint selector *)

Section CheckpointFacts.

Variable E : Env.

(** X4. When the watched value exceeds the best value, the checkpoint
    decision first makes the live model the best model and the watched value
    the best value, and then saves: if [torch.save] returns, the parameters
    of the live model are in the file of this epoch; if it raises, the
    decision raises that exception, the best model and best value already
    replaced. *)
Theorem checkpoint_on_improvement cfg dw epo val_results (s : State E) k v :
  watch_metric cfg = Some k ->
  dict_get val_results k = Some (Num v) ->
  (max_metric s < v)%Q ->
  model_max (snd (checkpoint cfg dw epo val_results s)) = model s
  /\ max_metric (snd (checkpoint cfg dw epo val_results s)) = v
  /\ model (snd (checkpoint cfg dw epo val_results s)) = model s
  /\ match torch_save_error E
             (epoch_save_path (save_dir cfg) (experiment_id cfg) epo) with
     | Some e => fst (checkpoint cfg dw epo val_results s) = Raise e
     | None =>
         fs (snd (checkpoint cfg dw epo val_results s))
         = (epoch_save_path (save_dir cfg) (experiment_id cfg) epo,
            params (model s)) :: fs s
     end.
Proof.
  intros Hk Hv Hlt. apply Qgtb_true_iff in Hlt.
  unfold checkpoint, dict_lookup. rewrite Hk, Hv.
  unfold torch_save, log_artifact, wandb_send, bind, emit, logg, modify, gets,
    ret.
  simpl. rewrite Hlt.
  destruct (torch_save_error E _) as [e |]; simpl.
  - repeat split.
  - destruct (dw && wandb_save cfg); simpl.
    + destruct (wandb_error E _); simpl; repeat split.
    + repeat split.
Qed.

(** X5. The two training passes of an epoch, whatever their outcome, leave
    the best value, the best model and the saved files as they were. *)
Theorem training_passes_keep_best cfg dw epo (s : State E) :
  max_metric
    (snd ((supervised_pass cfg dw epo ;;; contrastive_pass cfg dw epo) s))
  = max_metric s
  /\ model_max
       (snd ((supervised_pass cfg dw epo ;;; contrastive_pass cfg dw epo) s))
     = model_max s
  /\ fs (snd ((supervised_pass cfg dw epo ;;; contrastive_pass cfg dw epo) s))
     = fs s.
Proof.
  assert (K : keeps (fun s : State E => (max_metric s, model_max s, fs s))
                (supervised_pass cfg dw epo ;;; contrastive_pass cfg dw epo)).
  { apply keeps_bind; [apply supervised_pass_keeps_best | intros _].
    apply contrastive_pass_keeps_best. }
  specialize (K s). injection K as K1 K2 K3. repeat split; assumption.
Qed.

End CheckpointFacts.

(** ** Where the best model comes from *)

Section Provenance.

Variable E : Env.

Lemma preserves_bind (A B : Type) (P : State E -> Prop) (m : M E A)
  (k : A -> M E B) :
  preserves P m -> (forall a, preserves P (k a)) -> preserves P (bind m k).
Proof.
  intros Hm Hk s Hs. unfold bind. specialize (Hm s Hs).
  destruct (m s) as [[a | e] s1]; simpl in *.
  - apply Hk. exact Hm.
  - exact Hm.
Qed.

Lemma preserves_for_each (A : Type) (P : State E -> Prop) (xs : list A)
  (body : A -> M E unit) :
  (forall x, preserves P (body x)) -> preserves P (for_each xs body).
Proof.
  intros Hb. induction xs as [| x xs IH]; simpl.
  - intros s Hs. exact Hs.
  - apply preserves_bind; [apply Hb | intros _; exact IH].
Qed.

Lemma preserves_try_except (A : Type) (P : State E -> Prop) (body : M E A)
  handler :
  preserves P body -> (forall e, preserves P (handler e)) ->
  preserves P (try_except body handler).
Proof.
  intros Hb Hh s Hs. unfold try_except. specialize (Hb s Hs).
  destruct (body s) as [[a | e] s1]; simpl in *.
  - exact Hb.
  - destruct (is_Exception e); [apply Hh |]; exact Hb.
Qed.

(** A computation that keeps the best value and the parameters of the best
    model, and only adds to the trace. *)
Lemma preserves_held cfg (A : Type) (m : M E A) :
  keeps (fun s : State E => (max_metric s, params (model_max s))) m ->
  emits (fun _ => True) m ->
  preserves (held_from_checkpoint cfg) m.
Proof.
  intros K He s Hs. specialize (K s). injection K as K1 K2.
  destruct (He s) as (tr & Htr & _).
  unfold held_from_checkpoint in *. rewrite K1, K2, Htr.
  destruct Hs as [Hs | (epo & H1 & H2)]; [left; exact Hs | right].
  exists epo. split; apply in_or_app; right; assumption.
Qed.

Lemma torch_save_trace p path (s : State E) :
  trace (snd (torch_save p path s)) = EvSave path p :: trace s.
Proof.
  unfold torch_save, bind, emit, modify. simpl.
  destruct (torch_save_error E path); reflexivity.
Qed.

Lemma checkpoint_preserves_held cfg dw epo val_results :
  preserves (held_from_checkpoint cfg)
    (checkpoint (E := E) cfg dw epo val_results).
Proof.
  intros s Hs. unfold checkpoint, dict_lookup.
  destruct (watch_metric cfg) as [k |]; [| exact Hs].
  destruct (dict_get val_results k) as [v |]; [| exact Hs].
  unfold bind at 1. unfold ret at 1. unfold bind at 1. simpl.
  unfold bind at 1. simpl.
  destruct v as [v |].
  2: { simpl. destruct Hs as [Hs | (e0 & H1 & H2)]; [left; exact Hs | right].
       exists e0. simpl. tauto. }
  destruct (Qgtb v (max_metric s)).
  - unfold bind at 1. simpl. unfold bind at 1. simpl.
    unfold bind at 1. simpl. unfold bind at 1. simpl.
    unfold bind at 1.
    match goal with |- context [torch_save ?p ?path ?st] =>
      pose proof (torch_save_trace p path st) as T;
      assert (K : keeps (fun s : State E => (max_metric s, model_max s))
                    (torch_save p path)) by keeps_auto;
      specialize (K st);
      destruct (torch_save p path st) as [[[] | e] s1]
    end; simpl in T, K |- *; injection K as K1 K2.
    + match goal with |- held_from_checkpoint _ (snd (?m s1)) =>
        assert (K' : keeps (fun s : State E => (max_metric s, model_max s)) m)
          by (unfold log_artifact; repeat keeps_step);
        assert (He : emits (fun _ => True) m)
          by (unfold log_artifact; repeat emits_step);
        specialize (K' s1); injection K' as K3 K4;
        destruct (He s1) as (tr & Htr & _)
      end.
      right. exists epo. rewrite K3, K4, K1, K2, Htr, T. simpl.
      split; apply in_or_app; right; simpl; tauto.
    + right. exists epo. rewrite K1, K2, T. simpl. tauto.
  - simpl. destruct Hs as [Hs | (e0 & H1 & H2)]; [left; exact Hs | right].
    exists e0. simpl. tauto.
Qed.

Ltac held :=
  apply preserves_held;
  [ open_orch; repeat keeps_step | open_orch; repeat emits_step ].

Lemma epoch_preserves_held cfg dw epo :
  preserves (held_from_checkpoint cfg) (epoch (E := E) cfg dw epo).
Proof.
  unfold epoch.
  apply preserves_bind; [held | intros _].
  apply preserves_bind; [held | intros _].
  unfold validation_cadence.
  apply preserves_bind; [held | intros r].
  destruct (Z.eqb r 0); [| intros s Hs; exact Hs].
  unfold validation.
  apply preserves_bind; [held | intros _].
  apply preserves_bind; [held | intros results].
  apply preserves_bind; [held | intros _].
  apply preserves_bind; [apply checkpoint_preserves_held | intros _].
  held.
Qed.

Lemma setup_state cfg (s : State E) :
  max_metric (snd (setup cfg s)) = 0%Q
  /\ model_max (snd (setup cfg s)) = mkModel (initial_params E) true
  /\ trace (snd (setup cfg s)) = trace s
  /\ fs (snd (setup cfg s)) = fs s.
Proof.
  unfold setup. unfold bind at 1. simpl.
  match goal with |- context [snd (?m ?st)] =>
    assert (K : keeps (fun s : State E =>
                         (max_metric s, model_max s, trace s, fs s)) m)
      by keeps_auto;
    specialize (K st); injection K as K1 K2 K3 K4
  end.
  split; [exact K1 |]. split; [exact K2 |]. split; [exact K3 | exact K4].
Qed.

Lemma main_after_setup cfg (s : State E) :
  main cfg s
  = match setup (resolve_task E cfg) s with
    | (Ok _, s0) =>
        (epoch_loop (resolve_task E cfg) (do_wandb_of (resolve_task E cfg)) ;;;
         finish (resolve_task E cfg) (do_wandb_of (resolve_task E cfg))) s0
    | (Raise e, s0) => (Raise e, s0)
    end.
Proof. reflexivity. Qed.

(** X11. At the end of [main], whatever its outcome, the best value and best
    model are either the initial ones (best value 0, the parameters the run
    started from) or those of one checkpoint decision: some epoch compared
    exactly the held best value and called [torch.save] on exactly the held
    parameters, for the file of that epoch. *)
Theorem best_model_comes_from_a_checkpoint cfg (s : State E) :
  held_from_checkpoint (resolve_task E cfg) (snd (main cfg s)).
Proof.
  unfold main. unfold bind at 1.
  destruct (setup_state (resolve_task E cfg) s) as (H1 & H2 & _).
  assert (H0 : held_from_checkpoint (resolve_task E cfg)
                 (snd (setup (resolve_task E cfg) s))).
  { left. rewrite H1, H2. split; reflexivity. }
  destruct (setup (resolve_task E cfg) s) as [[[] | e] s0]; simpl in *;
    [| exact H0].
  revert s0 H0 H1 H2. intros s0 H0 _ _. revert s0 H0.
  change (preserves (held_from_checkpoint (resolve_task E cfg))
            (epoch_loop (E := E) (resolve_task E cfg)
               (do_wandb_of (resolve_task E cfg)) ;;;
             finish (resolve_task E cfg) (do_wandb_of (resolve_task E cfg)))).
  apply preserves_bind; [| intros _; held].
  unfold epoch_loop. apply preserves_for_each. intros epo.
  apply epoch_preserves_held.
Qed.

(** X10. In a run that starts with no comparison in its trace, the best
    value at the end of [main], whatever its outcome, is at least 0 and at
    least every watched value a checkpoint decision compared that was a
    number.  A watched value that was NaN was compared too, and is bounded by
    nothing: [nan > max_metric] is false, so it left the best value as it
    was. *)
Theorem best_value_bounds_compared_values cfg (s : State E) :
  (forall epo v, ~ In (EvCompare epo v) (trace s)) ->
  (0 <= max_metric (snd (main cfg s)))%Q
  /\ forall epo v,
       In (EvCompare epo (Num v)) (trace (snd (main cfg s))) ->
       (v <= max_metric (snd (main cfg s)))%Q.
Proof.
  intros Hfresh. rewrite main_after_setup.
  destruct (setup_state (resolve_task E cfg) s) as (H1 & _ & H3 & _).
  destruct (setup (resolve_task E cfg) s) as [[[] | e] s0];
    cbn [fst snd] in *.
  - destruct (best_value_grows_and_bounds (resolve_task E cfg)
                (do_wandb_of (resolve_task E cfg)) s0) as [L B].
    rewrite H1 in L. split; [exact L |].
    intros epo v H. destruct (B epo v H) as [H' | H']; [| exact H'].
    rewrite H3 in H'. exfalso. exact (Hfresh _ _ H').
  - rewrite H1. split; [apply Qle_refl |].
    intros epo v H. rewrite H3 in H. exfalso. exact (Hfresh _ _ H).
Qed.

End Provenance.

(** ** Edge cases of a run *)

Section EdgeFacts.

Variable E : Env.

Lemma resolve_task_shape cfg :
  exists c w, resolve_task E cfg = set_classify_watch c w cfg.
Proof.
  unfold resolve_task.
  destruct (is_dti_dg cfg); [eexists; eexists; reflexivity |].
  destruct (existsb _ _); eexists; eexists; reflexivity.
Qed.

Lemma resolve_task_fields cfg :
  wandb_proj (resolve_task E cfg) = wandb_proj cfg
  /\ epochs (resolve_task E cfg) = epochs cfg
  /\ every_n_val (resolve_task E cfg) = every_n_val cfg.
Proof.
  destruct (resolve_task_shape cfg) as (c & w & ->). repeat split.
Qed.

Lemma do_wandb_of_None cfg : wandb_proj cfg = None -> do_wandb_of cfg = false.
Proof. unfold do_wandb_of. intros ->. reflexivity. Qed.

Lemma setup_without_project cfg (s : State E) :
  wandb_proj cfg = None ->
  setup cfg s
  = match construction E cfg with
    | Ok _ =>
        (Ok tt,
         set_logs
           ((INFO, MsgBeginTraining) :: (INFO, MsgConfig cfg) :: logs s)
           (init_vars cfg s))
    | Raise e => (Raise e, init_vars cfg s)
    end.
Proof.
  intros H. unfold setup, init_wandb. rewrite H.
  unfold bind, lift, modify. destruct (construction E cfg) as [[] | e];
    reflexivity.
Qed.

(** *** No project, no call to the sink *)

Lemma epoch_loop_keeps_wandb cfg :
  keeps (@wandb E) (epoch_loop cfg false).
Proof.
  unfold epoch_loop, epoch, validation_cadence, validation, checkpoint,
    log_artifact, contrastive_pass, contrastive_batch, supervised_pass,
    supervised_batch, get_con, get_contrastive_loss, get_loss, test,
    contrastive_step, step, set_mode, log_items, dict_lookup, wandb_log.
  simpl. repeat keeps_step.
Qed.

Lemma finish_keeps_wandb cfg : keeps (@wandb E) (finish cfg false).
Proof.
  unfold finish, terminal_test, log_artifact, test, step, set_mode, log_items,
    wandb_log.
  simpl. repeat keeps_step.
Qed.

(** X9. Without a wandb project in the configuration, a run never calls the
    sink: what wandb has received is the same after [main] as before,
    whatever the outcome. *)
Theorem no_project_no_sink_call cfg (s : State E) :
  wandb_proj cfg = None ->
  wandb (snd (main cfg s)) = wandb s.
Proof.
  intros H. rewrite main_after_setup.
  destruct (resolve_task_fields cfg) as (Hp & _ & _). rewrite H in Hp.
  rewrite (setup_without_project _ s Hp), (do_wandb_of_None _ Hp).
  destruct (construction E (resolve_task E cfg)) as [[] | e];
    [| reflexivity].
  assert (K : keeps (@wandb E)
                (epoch_loop (resolve_task E cfg) false ;;;
                 finish (resolve_task E cfg) false)).
  { apply keeps_bind; [apply epoch_loop_keeps_wandb | intros _].
    apply finish_keeps_wandb. }
  rewrite K. reflexivity.
Qed.

Lemma untraced_fields (s1 s2 : State E) :
  untraced s1 = untraced s2 ->
  model_max s1 = model_max s2 /\ fs s1 = fs s2.
Proof.
  unfold untraced. intros H. injection H. intros. split; assumption.
Qed.

(** *** The model that is returned *)

Lemma terminal_test_sets_eval_mode cfg dw (s : State E) :
  in_eval_mode (snd (terminal_test cfg dw s)).
Proof.
  unfold terminal_test. unfold bind at 1. simpl.
  match goal with |- in_eval_mode (snd (?m ?st)) =>
    assert (P : preserves in_eval_mode m); [| apply P; reflexivity]
  end.
  apply preserves_bind.
  - intros t Ht. unfold in_eval_mode in *.
    destruct (test_untraced TheModelMax (testing_generator E)
                (test_metrics cfg) (classify_flag cfg) t) as [U | U];
      apply untraced_fields in U; destruct U as (U & _); rewrite U;
      [exact Ht | reflexivity].
  - intros results t Ht. unfold in_eval_mode in *.
    match goal with |- training (model_max (snd (?m t))) = _ =>
      assert (K : keeps (@model_max E) m) by keeps_auto;
      rewrite (K t); exact Ht
    end.
Qed.

Lemma finish_returns_model_max cfg dw (s s' : State E) m :
  finish cfg dw s = (Ok m, s') -> m = model_max s' /\ training m = false.
Proof.
  intros H. unfold finish in H. bind_inv2 H. bind_inv2 H.
  injection H as <- <-. split; [reflexivity |].
  pose proof (terminal_test_sets_eval_mode cfg dw s0) as T.
  unfold try_except in H1. unfold in_eval_mode in T.
  destruct (terminal_test cfg dw s0) as [[[] | e] t]; simpl in T.
  - injection H1 as _ <-. exact T.
  - destruct (is_Exception e); [| discriminate H1].
    injection H1 as _ <-. exact T.
Qed.

(** X14. A model returned by [main] is the best model of the final state,
    and it is in eval mode: the terminal test pass put it there before
    anything in it could raise. *)
Theorem returned_model_is_in_eval_mode cfg (s : State E) m :
  fst (main cfg s) = Ok m ->
  m = model_max (snd (main cfg s)) /\ training m = false.
Proof.
  intros H. rewrite main_after_setup in *.
  destruct (setup (resolve_task E cfg) s) as [[[] | e] s0];
    [| discriminate H].
  unfold bind in *.
  destruct (epoch_loop (resolve_task E cfg)
              (do_wandb_of (resolve_task E cfg)) s0) as [[[] | e] s1];
    [| discriminate H].
  destruct (finish (resolve_task E cfg) (do_wandb_of (resolve_task E cfg)) s1)
    as [r s2] eqn:Hf.
  simpl in H. subst r. exact (finish_returns_model_max _ _ _ Hf).
Qed.

(** *** No epoch *)

Lemma terminal_test_without_epoch cfg dw (s : State E) :
  epochs cfg = 0%nat ->
  exists e s',
    terminal_test cfg dw s = (Raise e, s')
    /\ fs s' = fs s
    /\ model_max s' = mkModel (params (model_max s)) false.
Proof.
  intros H0. unfold terminal_test. unfold bind at 1. simpl.
  unfold bind at 1.
  match goal with |- context [test ?r ?g ?ms ?c ?st] =>
    assert (U : model_max (snd (test r g ms c st))
                = mkModel (params (model_max s)) false
                /\ fs (snd (test r g ms c st)) = fs s)
      by (destruct (test_untraced r g ms c st) as [U | U];
          apply untraced_fields in U; destruct U as (Um & Uf);
          rewrite Um, Uf; split; reflexivity);
    destruct (test r g ms c st) as [[results | e] s1]
  end; destruct U as (Um & Uf); cbn [snd] in Um, Uf.
  - rewrite H0. unfold bind, unbound, raise.
    eexists. exists s1. split; [reflexivity |]. split; [exact Uf | exact Um].
  - exists e, s1. split; [reflexivity |]. split; [exact Uf | exact Um].
Qed.

(** X7. With [epochs = 0], no wandb project and nothing raised by the data
    preparation and the constructors of lines 205-321, [main] trains
    nothing and writes no file, not even the final one: the terminal pass
    fails inside the [try], on the unbound [epo] at the latest.  What [main]
    returns is the initial model in eval mode; it can only raise what
    [except Exception] does not catch. *)
Theorem zero_epochs_saves_nothing cfg (s : State E) :
  epochs cfg = 0%nat ->
  wandb_proj cfg = None ->
  construction E (resolve_task E cfg) = Ok tt ->
  fs (snd (main cfg s)) = fs s
  /\ (forall m, fst (main cfg s) = Ok m ->
               m = mkModel (initial_params E) false)
  /\ (forall e, fst (main cfg s) = Raise e -> is_Exception e = false).
Proof.
  intros H0 Hp Hc.
  destruct (resolve_task_fields cfg) as (Hp' & He & _).
  rewrite Hp in Hp'. rewrite H0 in He.
  assert (Hmain : exists e s',
             fs s' = fs s
             /\ model_max s' = mkModel (initial_params E) false
             /\ main cfg s
                = if is_Exception e
                  then (Ok (model_max s'),
                        set_logs ((ERROR, MsgTestingFailed e) :: logs s') s')
                  else (Raise e, s')).
  { rewrite main_after_setup, (setup_without_project _ s Hp'), Hc.
    unfold epoch_loop. rewrite He. simpl for_each.
    unfold finish, bind, ret, logg, modify, try_except, gets. simpl.
    match goal with |- context [terminal_test ?c ?d ?st] =>
      destruct (terminal_test_without_epoch c d st He)
        as (e & s' & Heq & Hfs & Hm)
    end.
    rewrite Heq. exists e, s'. simpl in Hfs, Hm.
    split; [exact Hfs |]. split; [exact Hm |].
    destruct (is_Exception e); reflexivity. }
  destruct Hmain as (e & s' & Hfs & Hm & ->).
  destruct (is_Exception e) eqn:Hexn; simpl.
  - split; [exact Hfs |]. split.
    + intros m H. injection H as <-. exact Hm.
    + intros e0 H. discriminate H.
  - split; [exact Hfs |]. split.
    + intros m H. discriminate H.
    + intros e0 H. injection H as <-. exact Hexn.
Qed.

(** *** An empty training loader *)

(** X6. With at least one epoch, no wandb project, nothing raised by the
    data preparation and the constructors of lines 205-321, and a training
    loader that yields no batch in epoch 0, [main] raises
    [UnboundLocalError] in epoch 0: the learning-rate schedule has been
    advanced once, then the log line reads [loss], which no batch has bound.
    Nothing is validated and no file is written. *)
Theorem empty_training_loader_raises cfg (s : State E) :
  (1 <= epochs cfg)%nat ->
  wandb_proj cfg = None ->
  construction E (resolve_task E cfg) = Ok tt ->
  training_generator E 0 = [] ->
  fst (main cfg s) = Raise (PyException "UnboundLocalError")
  /\ lr_scheduler (snd (main cfg s)) = 1%nat
  /\ fs (snd (main cfg s)) = fs s
  /\ trace (snd (main cfg s)) = EvLrStep 0 :: trace s.
Proof.
  intros H1 Hp Hc Hgen. rewrite main_after_setup.
  destruct (resolve_task_fields cfg) as (Hp' & He & _).
  rewrite Hp in Hp'.
  rewrite (setup_without_project _ s Hp'), Hc, (do_wandb_of_None _ Hp').
  unfold epoch_loop. rewrite He.
  destruct (epochs cfg) as [| n]; [lia |].
  simpl seq. simpl for_each.
  unfold epoch, supervised_pass. rewrite Hgen.
  repeat split.
Qed.

(** *** A zero validation period *)

Lemma epoch_with_zero_period cfg dw epo (s : State E) :
  every_n_val cfg = 0%Z ->
  (forall u s', epoch cfg dw epo s <> (Ok u, s'))
  /\ fs (snd (epoch cfg dw epo s)) = fs s
  /\ forall e,
       In (EvValidate e) (trace (snd (epoch cfg dw epo s))) ->
       In (EvValidate e) (trace s).
Proof.
  intros Hn.
  assert (Hc : forall t : State E,
             validation_cadence cfg dw epo t
             = (Raise (PyException "ZeroDivisionError"), t)).
  { intros t. unfold validation_cadence, py_mod. rewrite Hn. reflexivity. }
  split; [| split].
  - intros u s' H. unfold epoch in H. bind_inv2 H. bind_inv2 H.
    rewrite Hc in H. discriminate H.
  - assert (K : keeps (@fs E) (epoch cfg dw epo)).
    { unfold epoch. apply keeps_bind; [keeps_auto | intros _].
      apply keeps_bind; [keeps_auto | intros _]. intros t. rewrite Hc.
      reflexivity. }
    apply K.
  - assert (Em : emits (training_event E) (epoch cfg dw epo)).
    { unfold epoch. apply emits_bind; [apply supervised_pass_emits | intros _].
      apply emits_bind; [apply contrastive_pass_emits | intros _].
      intros t. rewrite Hc. exists []. split; [reflexivity | constructor]. }
    destruct (Em s) as (tr & Htr & F). intros e H. rewrite Htr in H.
    apply in_app_or in H. destruct H as [H | H]; [| exact H].
    rewrite Forall_forall in F. destruct (F _ H).
Qed.

(** X8. With [every_n_val = 0] and at least one epoch, [main] never returns
    a model: the first epoch that completes its training passes raises
    [ZeroDivisionError] at the cadence test.  No validation pass is entered
    and no file is written. *)
Theorem zero_validation_period_never_returns cfg (s : State E) :
  every_n_val cfg = 0%Z ->
  (1 <= epochs cfg)%nat ->
  (forall m, fst (main cfg s) <> Ok m)
  /\ fs (snd (main cfg s)) = fs s
  /\ forall e,
       In (EvValidate e) (trace (snd (main cfg s))) ->
       In (EvValidate e) (trace s).
Proof.
  intros Hn H1. rewrite main_after_setup.
  destruct (resolve_task_fields cfg) as (_ & He & Hn').
  rewrite Hn in Hn'.
  destruct (setup_state (resolve_task E cfg) s) as (_ & _ & Ht & Hfs).
  destruct (setup (resolve_task E cfg) s) as [[[] | e0] s0];
    cbn [fst snd] in *.
  2: { split; [intros m H; discriminate H |].
       split; [exact Hfs | intros e H; rewrite Ht in H; exact H]. }
  unfold epoch_loop. rewrite He.
  destruct (epochs cfg) as [| n]; [lia |].
  simpl seq. simpl for_each.
  destruct (epoch_with_zero_period (resolve_task E cfg)
              (do_wandb_of (resolve_task E cfg)) 0 s0 Hn') as (Hno & Kf & Kv).
  destruct (epoch (resolve_task E cfg) (do_wandb_of (resolve_task E cfg)) 0 s0)
    as [[u | e1] s1] eqn:Hep; [exfalso; exact (Hno u s1 eq_refl) |].
  rewrite (bind_Raise_eq _ _ _ (bind_Raise_eq _ _ _ Hep)).
  cbn [fst snd] in *.
  split; [intros m H; discriminate H |].
  split; [rewrite Kf; exact Hfs |].
  intros e H. rewrite <- Ht. exact (Kv e H).
Qed.

End EdgeFacts.

(** ** Checkpoint files *)

Section PathFacts.

Lemma decode_string_of_uint (d : Decimal.uint) :
  option_map Nat.of_uint
    (NilEmpty.uint_of_string (NilZero.string_of_uint d))
  = Some (Nat.of_uint d).
Proof.
  destruct d; [reflexivity | ..];
    unfold NilZero.string_of_uint; rewrite NilEmpty.usu; reflexivity.
Qed.

(** The epoch number can be read back from its formatted form. *)
Lemma fmt02_decode (n : nat) :
  option_map Nat.of_uint (NilEmpty.uint_of_string (fmt02 n)) = Some n.
Proof.
  unfold fmt02.
  pose proof (decode_string_of_uint (Nat.to_uint n)) as D.
  rewrite DecimalNat.Unsigned.of_to in D.
  destruct (Nat.ltb _ 2); [| exact D].
  simpl String.append. simpl NilEmpty.uint_of_string.
  destruct (NilEmpty.uint_of_string (NilZero.string_of_uint (Nat.to_uint n)))
    as [d |]; [| discriminate D].
  simpl in D |- *. injection D as D. rewrite <- D. reflexivity.
Qed.

Lemma fmt02_injective (a b : nat) : fmt02 a = fmt02 b -> a = b.
Proof.
  intros H. pose proof (fmt02_decode a) as Da. rewrite H, fmt02_decode in Da.
  injection Da as Da. symmetry. exact Da.
Qed.

Lemma length_append (a b : string) :
  String.length (String.append a b) = (String.length a + String.length b)%nat.
Proof.
  induction a as [| c a IH]; simpl; [reflexivity | rewrite IH; reflexivity].
Qed.

Lemma append_cancel_r (a b t : string) :
  String.append a t = String.append b t -> a = b.
Proof.
  revert b. induction a as [| c a IH]; intros [| c' b] H; simpl in H.
  - reflexivity.
  - apply (f_equal String.length) in H. simpl in H.
    rewrite length_append in H. lia.
  - apply (f_equal String.length) in H. simpl in H.
    rewrite length_append in H. lia.
  - injection H as -> H. rewrite (IH _ H). reflexivity.
Qed.

(** X12. The checkpoints of two different epochs of a run are two different
    files: the zero-padded epoch number in the name determines the epoch. *)
Theorem distinct_epochs_distinct_checkpoints dir id (e1 e2 : nat) :
  e1 <> e2 ->
  epoch_save_path dir id e1 <> epoch_save_path dir id e2.
Proof.
  intros Hne H. apply Hne. unfold epoch_save_path in H.
  do 4 apply append_cancel_l in H.
  apply append_cancel_r in H. apply fmt02_injective. exact H.
Qed.

End PathFacts.

(** ** Command-line overrides *)

Section OverrideFacts.

Variable V : Type.

Lemma conf_get_set_same (d : list (string * V)) k v :
  conf_get (conf_set d k v) k = Some v.
Proof.
  induction d as [| [k' v'] d IH]; simpl.
  - rewrite String.eqb_refl. reflexivity.
  - destruct (String.eqb k' k) eqn:Hk; simpl.
    + rewrite String.eqb_refl. reflexivity.
    + rewrite Hk. exact IH.
Qed.

Lemma conf_get_set_other (d : list (string * V)) k k' v :
  k <> k' -> conf_get (conf_set d k v) k' = conf_get d k'.
Proof.
  intros Hne. induction d as [| [k0 v0] d IH]; simpl.
  - destruct (String.eqb_spec k k'); [contradiction | reflexivity].
  - destruct (String.eqb_spec k0 k) as [-> | Hk]; simpl.
    + destruct (String.eqb_spec k k'); [contradiction | reflexivity].
    + destruct (String.eqb k0 k'); [reflexivity | exact IH].
Qed.

Lemma conf_update_other (c ovs : list (string * V)) k :
  ~ In k (map fst ovs) -> conf_get (conf_update c ovs) k = conf_get c k.
Proof.
  unfold conf_update. revert c.
  induction ovs as [| [k0 v0] ovs IH]; intros c Hn; simpl.
  - reflexivity.
  - rewrite IH.
    + apply conf_get_set_other. intros ->. apply Hn. left. reflexivity.
    + intros H. apply Hn. right. exact H.
Qed.

Lemma conf_update_given (c ovs : list (string * V)) k v :
  NoDup (map fst ovs) -> In (k, v) ovs ->
  conf_get (conf_update c ovs) k = Some v.
Proof.
  unfold conf_update. revert c.
  induction ovs as [| [k0 v0] ovs IH]; intros c Hnd Hin; simpl.
  - destruct Hin.
  - inversion Hnd as [| x l Hx Hnd']; subst. destruct Hin as [Heq | Hin].
    + injection Heq as -> ->.
      pose proof (conf_update_other (conf_set c k v) ovs k Hx) as U.
      unfold conf_update in U. simpl in Hx. rewrite U.
      apply conf_get_set_same.
    + apply IH; assumption.
Qed.

Lemma arg_overrides_In (args : list (string * option V)) k v :
  In (k, v) (arg_overrides args) <-> In (k, Some v) args.
Proof.
  unfold arg_overrides. rewrite in_flat_map. split.
  - intros ([k0 [v0 |]] & Hin & H); simpl in H; [| destruct H].
    destruct H as [H | []]. injection H as -> ->. exact Hin.
  - intros H. exists (k, Some v). split; [exact H | left; reflexivity].
Qed.

Lemma arg_overrides_keys (args : list (string * option V)) k :
  In k (map fst (arg_overrides args)) -> In k (map fst args).
Proof.
  intros H. apply in_map_iff in H. destruct H as ([k0 v] & <- & H).
  apply arg_overrides_In in H. apply in_map_iff.
  exists (k0, Some v). split; [reflexivity | exact H].
Qed.

Lemma arg_overrides_NoDup (args : list (string * option V)) :
  NoDup (map fst args) -> NoDup (map fst (arg_overrides args)).
Proof.
  induction args as [| [k [v |]] args IH]; simpl; intros Hnd.
  - constructor.
  - inversion Hnd as [| x l Hx Hnd']; subst. constructor.
    + intros H. apply Hx. apply arg_overrides_keys. exact H.
    + apply IH. exact Hnd'.
  - inversion Hnd as [| x l Hx Hnd']; subst. apply IH. exact Hnd'.
Qed.

(** X13. In the configuration [main] works with, an option given on the
    command line has the command line's value, whatever the file says, and a
    key whose option was not given (it is [None] in [vars(args)], or is no
    option at all) has the file's value, or is absent if the file does not
    have it. *)
Theorem command_line_overrides_file (file : list (string * V))
  (args : list (string * option V)) (k : string) :
  NoDup (map fst args) ->
  (forall v, In (k, Some v) args ->
             conf_get (load_config file args) k = Some v)
  /\ ((forall v, ~ In (k, Some v) args) ->
      conf_get (load_config file args) k = conf_get file k).
Proof.
  intros Hnd. unfold load_config. split.
  - intros v Hin. apply conf_update_given.
    + apply arg_overrides_NoDup. exact Hnd.
    + apply arg_overrides_In. exact Hin.
  - intros Hno. apply conf_update_other. intros H.
    apply in_map_iff in H. destruct H as ([k0 v] & Hk & H). simpl in Hk.
    subst k0. apply arg_overrides_In in H. exact (Hno v H).
Qed.

End OverrideFacts.

(** ** Whole runs *)

Section RunFacts.

Variable E : Env.

Lemma resolve_task_more cfg :
  contrastive (resolve_task E cfg) = contrastive cfg
  /\ epochs (resolve_task E cfg) = epochs cfg
  /\ save_dir (resolve_task E cfg) = save_dir cfg
  /\ experiment_id (resolve_task E cfg) = experiment_id cfg.
Proof.
  destruct (resolve_task_shape E cfg) as (c & w & ->). repeat split.
Qed.

Lemma setup_vars cfg (s : State E) :
  con (snd (setup cfg s))
  = con (init_vars cfg s)
  /\ contrastive_loss (snd (setup cfg s)) = None
  /\ lr_scheduler (snd (setup cfg s)) = 0%nat.
Proof.
  unfold setup. unfold bind at 1. simpl.
  match goal with |- context [snd (?m ?st)] =>
    assert (K : keeps (fun s : State E =>
                         (con s, contrastive_loss s, lr_scheduler s)) m)
      by keeps_auto;
    specialize (K st); injection K as K1 K2 K3
  end.
  split; [exact K1 |]. split; [exact K2 | exact K3].
Qed.

(** *** Contrastive training disabled *)

Lemma contrastive_pass_off cfg dw epo :
  contrastive cfg = false -> contrastive_pass (E := E) cfg dw epo = ret tt.
Proof. intros H. unfold contrastive_pass. rewrite H. reflexivity. Qed.

Lemma epoch_off cfg dw epo :
  contrastive cfg = false ->
  keeps (@con E) (epoch cfg dw epo)
  /\ emits (fun ev => ~ contrastive_event E ev) (epoch cfg dw epo).
Proof.
  intros H. unfold epoch. rewrite (contrastive_pass_off _ _ _ H). split.
  - keeps_auto.
  - emits_auto; intros F; exact F.
Qed.

(** X15. With contrastive training disabled, a run, whatever its outcome,
    makes no step of the contrastive optimiser, of the margin or of the
    contrastive learning-rate schedule, and ends with no contrastive state
    constructed. *)
Theorem contrastive_off_no_contrastive_step cfg (s : State E) :
  contrastive cfg = false ->
  con (snd (main cfg s)) = None
  /\ exists tr,
       trace (snd (main cfg s)) = tr ++ trace s
       /\ Forall (fun ev => ~ contrastive_event E ev) tr.
Proof.
  intros H. destruct (resolve_task_more cfg) as (Hc & _). rewrite H in Hc.
  rewrite main_after_setup.
  destruct (setup_vars (resolve_task E cfg) s) as (Hcon & _).
  destruct (setup_state (resolve_task E cfg) s) as (_ & _ & Ht & _).
  unfold init_vars in Hcon. rewrite Hc in Hcon. simpl in Hcon.
  destruct (setup (resolve_task E cfg) s) as [[[] | e] s0];
    cbn [fst snd] in *.
  2: { split; [exact Hcon |]. exists []. split; [exact Ht | constructor]. }
  assert (K : keeps (@con E)
                (epoch_loop (resolve_task E cfg)
                   (do_wandb_of (resolve_task E cfg)) ;;;
                 finish (resolve_task E cfg)
                   (do_wandb_of (resolve_task E cfg)))).
  { apply keeps_bind; [| intros _; keeps_auto].
    unfold epoch_loop. apply keeps_for_each. intros epo.
    apply (epoch_off _ _ _ Hc). }
  assert (Em : emits (fun ev => ~ contrastive_event E ev)
                 (epoch_loop (resolve_task E cfg)
                    (do_wandb_of (resolve_task E cfg)) ;;;
                  finish (resolve_task E cfg)
                    (do_wandb_of (resolve_task E cfg)))).
  { apply emits_bind; [| intros _; emits_auto; intros F; exact F].
    unfold epoch_loop. apply emits_for_each. intros epo.
    apply (epoch_off _ _ _ Hc). }
  split; [rewrite K; exact Hcon |].
  destruct (Em s0) as (tr & Htr & F). exists tr.
  rewrite Htr, Ht. split; [reflexivity | exact F].
Qed.

(** *** The training steps of a run that returns *)

Lemma is_training_event_iff (ev : event (Params E)) :
  is_training_event E ev = true <-> training_event E ev.
Proof.
  destruct ev; simpl; split; intros H; try exact I; try discriminate H;
    try reflexivity; destruct H.
Qed.

Lemma filter_none (l : list (event (Params E))) :
  Forall (fun ev => ~ training_event E ev) l ->
  filter (@is_training_event E) l = [].
Proof.
  induction 1 as [| ev l Hev _ IH]; simpl; [reflexivity |].
  destruct (is_training_event E ev) eqn:Hb; [| exact IH].
  apply is_training_event_iff in Hb. contradiction.
Qed.

Lemma filter_every (l : list (event (Params E))) :
  Forall (training_event E) l -> filter (@is_training_event E) l = l.
Proof.
  induction 1 as [| ev l Hev _ IH]; simpl; [reflexivity |].
  apply is_training_event_iff in Hev. rewrite Hev, IH. reflexivity.
Qed.

Lemma epoch_events_training cfg epo :
  Forall (training_event E)
    (supervised_events E epo ++ contrastive_events E cfg epo).
Proof.
  apply Forall_app. split.
  - unfold supervised_events. apply Forall_app. split.
    + apply Forall_forall. intros ev Hin. apply in_map_iff in Hin.
      destruct Hin as (i & <- & _). exact I.
    + repeat constructor.
  - unfold contrastive_events. destruct (contrastive cfg); [| constructor].
    apply Forall_app. split.
    + apply Forall_forall. intros ev Hin. apply in_map_iff in Hin.
      destruct Hin as (i & <- & _). exact I.
    + repeat constructor.
Qed.

Lemma epoch_trace cfg dw epo (s s' : State E) :
  epoch cfg dw epo s = (Ok tt, s') ->
  filter (@is_training_event E) (rev (trace s'))
  = filter (@is_training_event E) (rev (trace s))
    ++ supervised_events E epo ++ contrastive_events E cfg epo
  /\ lr_scheduler s' = S (lr_scheduler s).
Proof.
  intros H. unfold epoch in H. bind_inv2 H. bind_inv2 H.
  pose proof (supervised_pass_trace cfg dw epo _ H0) as T1.
  pose proof (contrastive_pass_trace cfg dw epo _ H1) as T2.
  destruct (validation_cadence_emits cfg dw epo s1) as (t3 & T3 & F3).
  rewrite H in T3. simpl in T3. split.
  - rewrite T3, T2, T1. rewrite !rev_app_distr, !rev_involutive.
    rewrite <- !app_assoc. rewrite !filter_app.
    rewrite (filter_none (Forall_rev F3)), app_nil_r.
    rewrite <- filter_app.
    rewrite (filter_every (epoch_events_training cfg epo)). reflexivity.
  - pose proof (supervised_pass_lr_scheduler cfg dw epo _ H0) as L1.
    pose proof (contrastive_pass_keeps_lr_scheduler cfg dw epo s0) as L2.
    pose proof (validation_cadence_keeps_lr_scheduler cfg dw epo s1) as L3.
    rewrite H1 in L2. rewrite H in L3. simpl in L2, L3.
    rewrite L3, L2, L1. reflexivity.
Qed.

Lemma epochs_trace cfg dw n a (s s' : State E) :
  for_each (seq a n) (epoch cfg dw) s = (Ok tt, s') ->
  filter (@is_training_event E) (rev (trace s'))
  = filter (@is_training_event E) (rev (trace s))
    ++ flat_map
         (fun epo => supervised_events E epo ++ contrastive_events E cfg epo)
         (seq a n)
  /\ lr_scheduler s' = (n + lr_scheduler s)%nat.
Proof.
  revert a s. induction n as [| n IH]; intros a s H; simpl in H.
  - injection H as <-. simpl. rewrite app_nil_r. split; reflexivity.
  - bind_inv2 H. destruct a0.
    apply epoch_trace in H0. destruct H0 as (T1 & L1).
    apply IH in H. destruct H as (T2 & L2).
    split.
    + rewrite T2, T1. simpl. rewrite <- !app_assoc. reflexivity.
    + rewrite L2, L1. lia.
Qed.

Lemma finish_emits cfg dw :
  emits (fun ev => ~ training_event E ev) (finish (E := E) cfg dw).
Proof. emits_auto; intros F; exact F. Qed.

Lemma run_training_events_resolve_task cfg :
  run_training_events E (resolve_task E cfg) = run_training_events E cfg.
Proof.
  destruct (resolve_task_more cfg) as (Hc & He & _).
  unfold run_training_events, contrastive_events. rewrite Hc, He.
  reflexivity.
Qed.

Lemma run_training_resolve_task cfg t :
  run_training (E := E) (resolve_task E cfg) t = run_training cfg t.
Proof.
  destruct (resolve_task_shape E cfg) as (c & w & ->). reflexivity.
Qed.

Lemma setup_training_vars cfg (s : State E) :
  training_vars_of (snd (setup cfg s)) = training_vars_of (init_vars cfg s).
Proof.
  unfold setup. unfold bind at 1. simpl.
  match goal with |- training_vars_of (snd (?m ?st)) = _ =>
    assert (K : keeps (fun t : State E =>
                         (params (model t), opt t, lr_scheduler t, con t)) m)
      by keeps_auto;
    exact (K st)
  end.
Qed.

(** X16. A run that returns has made, in epoch order, exactly the training
    steps of the epochs [0 .. epochs - 1]: for each epoch one optimiser step
    per supervised batch, one step of the learning-rate schedule and, with
    contrastive training, the contrastive steps.  Setup, validation and the
    terminal test train nothing, and the schedule has been stepped [epochs]
    times.  The steps are the updates themselves: the parameters of the live
    model, the optimiser state and the contrastive objects the run ends
    with are those [run_training] computes, epoch after epoch, from the
    ones lines 288-326 assigned. *)
Theorem returning_run_trains_every_epoch cfg (s s' : State E) m :
  main cfg s = (Ok m, s') ->
  (filter (@is_training_event E) (rev (trace s'))
   = filter (@is_training_event E) (rev (trace s))
     ++ run_training_events E cfg
   /\ lr_scheduler s' = epochs cfg)
  /\ run_training cfg (training_vars_of (init_vars cfg s))
     = Ok (training_vars_of s').
Proof.
  intros H. split.
  2: { rewrite <- run_training_resolve_task.
       unfold main in H. bind_inv2 H. bind_inv2 H. destruct a, a0.
       pose proof (setup_training_vars (resolve_task E cfg) s) as Hs.
       rewrite H0 in Hs. simpl in Hs.
       assert (Hi : training_vars_of (init_vars (resolve_task E cfg) s)
                    = training_vars_of (init_vars cfg s))
         by (destruct (resolve_task_shape E cfg) as (c & w & ->);
             reflexivity).
       unfold epoch_loop in H1. apply epochs_compute_training in H1.
       assert (Kf : keeps (fun t : State E =>
                             (params (model t), opt t, lr_scheduler t,
                              con t))
                      (finish (resolve_task E cfg)
                         (do_wandb_of (resolve_task E cfg))))
         by keeps_auto.
       specialize (Kf s1). rewrite H in Kf. simpl in Kf.
       unfold run_training. rewrite <- Hi, <- Hs, H1.
       unfold training_vars_of. rewrite Kf. reflexivity. }
  rewrite <- run_training_events_resolve_task.
  unfold main in H. bind_inv2 H. bind_inv2 H. destruct a, a0.
  destruct (setup_state (resolve_task E cfg) s) as (_ & _ & Ht & _).
  destruct (setup_vars (resolve_task E cfg) s) as (_ & _ & Hl).
  rewrite H0 in Ht, Hl. simpl in Ht, Hl.
  unfold epoch_loop in H1. apply epochs_trace in H1.
  destruct H1 as (T & L).
  destruct (finish_emits (resolve_task E cfg)
              (do_wandb_of (resolve_task E cfg)) s1) as (tf & Tf & Ff).
  assert (Kf : keeps (@lr_scheduler E)
                 (finish (resolve_task E cfg)
                    (do_wandb_of (resolve_task E cfg)))) by keeps_auto.
  specialize (Kf s1). rewrite H in Tf, Kf. simpl in Tf, Kf.
  destruct (resolve_task_more cfg) as (_ & He & _).
  split.
  - rewrite Tf, rev_app_distr, filter_app.
    rewrite (filter_none (Forall_rev Ff)), app_nil_r.
    rewrite T, Ht. reflexivity.
  - rewrite Kf, L, Hl, He. lia.
Qed.

(** *** An empty contrastive loader *)

Lemma contrastive_pass_without_batch cfg dw epo (s : State E) :
  contrastive cfg = true ->
  contrastive_generator E epo = [] ->
  contrastive_loss s = None ->
  forall u s', contrastive_pass cfg dw epo s <> (Ok u, s').
Proof.
  intros Hc Hg Hl u s' H. unfold contrastive_pass in H.
  rewrite Hc, Hg in H. simpl in H.
  bind_inv2 H. bind_inv2 H. bind_inv2 H. bind_inv2 H. bind_inv2 H.
  bind_inv2 H. bind_inv2 H. bind_inv2 H. bind_inv2 H.
  kept (@contrastive_loss E) H0. kept (@contrastive_loss E) H1.
  kept (@contrastive_loss E) H2. kept (@contrastive_loss E) H3.
  kept (@contrastive_loss E) H4. kept (@contrastive_loss E) H5.
  kept (@contrastive_loss E) H6. kept (@contrastive_loss E) H7.
  unfold get_contrastive_loss, gets, bind in H8.
  simpl in H8.
  assert (Hn : contrastive_loss s7 = None) by congruence.
  rewrite Hn in H8. discriminate H8.
Qed.

Lemma epoch_without_contrastive_batch cfg dw epo (s : State E) :
  contrastive cfg = true ->
  contrastive_generator E epo = [] ->
  contrastive_loss s = None ->
  (forall u s', epoch cfg dw epo s <> (Ok u, s'))
  /\ fs (snd (epoch cfg dw epo s)) = fs s
  /\ forall e,
       In (EvValidate e) (trace (snd (epoch cfg dw epo s))) ->
       In (EvValidate e) (trace s).
Proof.
  intros Hc Hg Hl.
  assert (Heq : exists e,
             epoch cfg dw epo s
             = (Raise e,
                snd ((supervised_pass cfg dw epo ;;;
                      contrastive_pass cfg dw epo) s))).
  { unfold epoch, bind.
    destruct (supervised_pass cfg dw epo s) as [[[] | e] s1] eqn:H0.
    - kept (@contrastive_loss E) H0.
      destruct (contrastive_pass cfg dw epo s1) as [[[] | e] s2] eqn:H1.
      + exfalso.
        eapply contrastive_pass_without_batch;
          [exact Hc | exact Hg | | exact H1].
        rewrite K. exact Hl.
      + exists e. reflexivity.
    - exists e. reflexivity. }
  destruct Heq as (e & Heq). rewrite Heq. cbn [fst snd].
  assert (K : keeps (@fs E)
                (supervised_pass cfg dw epo ;;; contrastive_pass cfg dw epo))
    by (apply keeps_bind; [keeps_auto | intros _; keeps_auto]).
  assert (Em : emits (training_event E)
                 (supervised_pass cfg dw epo ;;; contrastive_pass cfg dw epo)).
  { apply emits_bind; [apply supervised_pass_emits | intros _].
    apply contrastive_pass_emits. }
  split; [intros u s' H; discriminate H |].
  split; [apply K |].
  destruct (Em s) as (tr & Htr & F). intros e' H. rewrite Htr in H.
  apply in_app_or in H. destruct H as [H | H]; [| exact H].
  rewrite Forall_forall in F. destruct (F _ H).
Qed.

(** X17. With contrastive training enabled, at least one epoch and a
    contrastive loader without batches in the first epoch, [main] never
    returns a model: the first epoch does not get past the log line that
    reads [contrastive_loss], which no batch has assigned.  No validation
    pass is entered and no file is written. *)
Theorem empty_contrastive_loader_never_returns cfg (s : State E) :
  contrastive cfg = true ->
  (1 <= epochs cfg)%nat ->
  contrastive_generator E 0 = [] ->
  (forall m, fst (main cfg s) <> Ok m)
  /\ fs (snd (main cfg s)) = fs s
  /\ forall e,
       In (EvValidate e) (trace (snd (main cfg s))) ->
       In (EvValidate e) (trace s).
Proof.
  intros Hc H1 Hg. rewrite main_after_setup.
  destruct (resolve_task_more cfg) as (Hc' & He & _). rewrite Hc in Hc'.
  destruct (setup_state (resolve_task E cfg) s) as (_ & _ & Ht & Hfs).
  destruct (setup_vars (resolve_task E cfg) s) as (_ & Hl & _).
  destruct (setup (resolve_task E cfg) s) as [[[] | e0] s0];
    cbn [fst snd] in *.
  2: { split; [intros m H; discriminate H |].
       split; [exact Hfs | intros e H; rewrite Ht in H; exact H]. }
  unfold epoch_loop. rewrite He.
  destruct (epochs cfg) as [| n]; [lia |].
  simpl seq. simpl for_each.
  destruct (@epoch_without_contrastive_batch (resolve_task E cfg)
              (do_wandb_of (resolve_task E cfg)) 0 s0 Hc' Hg Hl)
    as (Hno & Kf & Kv).
  destruct (epoch (resolve_task E cfg) (do_wandb_of (resolve_task E cfg)) 0 s0)
    as [[u | e1] s1] eqn:Hep; [exfalso; exact (Hno u s1 eq_refl) |].
  rewrite (bind_Raise_eq _ _ _ (bind_Raise_eq _ _ _ Hep)).
  cbn [fst snd] in *.
  split; [intros m H; discriminate H |].
  split; [rewrite Kf; exact Hfs |].
  intros e H. rewrite <- Ht. exact (Kv e H).
Qed.

(** *** The files a run writes *)

Lemma emits_for_each_In (A : Type) P (xs : list A) (body : A -> M E unit) :
  (forall x, In x xs -> emits P (body x)) -> emits P (for_each xs body).
Proof.
  induction xs as [| x xs IH]; intros Hb; simpl.
  - apply emits_keeps, keeps_ret.
  - apply emits_bind; [apply Hb; left; reflexivity | intros _].
    apply IH. intros y Hy. apply Hb. right. exact Hy.
Qed.

(** X18. Whatever its outcome, a run calls [torch.save] only on its own
    files: the checkpoint file of one of the epochs [0 .. epochs - 1] or the
    final file, all named after the experiment inside the save
    directory. *)
Theorem run_saves_only_its_files cfg (s : State E) :
  exists tr,
    trace (snd (main cfg s)) = tr ++ trace s
    /\ Forall (saves_run_file E cfg) tr.
Proof.
  destruct (resolve_task_more cfg) as (_ & He & Hd & Hi).
  assert (Em : emits (saves_run_file E cfg) (main (E := E) cfg)).
  { unfold main.
    apply emits_bind; [emits_auto | intros _].
    apply emits_bind.
    - unfold epoch_loop. apply emits_for_each_In. intros epo Hin.
      apply in_seq in Hin. rewrite He in Hin.
      emits_auto. rewrite Hd, Hi. left. exists epo. split; [lia | reflexivity].
    - intros _. emits_auto. rewrite Hd, Hi. right. reflexivity. }
  exact (Em s).
Qed.

End RunFacts.

(** ** Witnesses of the further facts *)

Lemma watched_metric_is_computed_witness :
  test TheModel (validation_generator Scenario.E3 0)
    (val_metrics
       (resolve_task Scenario.E3 (Toy.config "davis" 3 false 1 None)))
    true Edge.before_first_validation
  = (Ok Edge.first_results, Edge.after_first_test)
  /\ exists k v,
       watch_metric
         (resolve_task Scenario.E3 (Toy.config "davis" 3 false 1 None))
       = Some k
       /\ dict_get Edge.first_results k = Some v
       /\ dict_lookup (E := Scenario.E3)
            (annotate_val_results Scenario.E3
               (resolve_task Scenario.E3 (Toy.config "davis" 3 false 1 None))
               0 Edge.first_results)
            (watch_metric
               (resolve_task Scenario.E3
                  (Toy.config "davis" 3 false 1 None)))
          = ret v.
Proof.
  assert (H : test TheModel (validation_generator Scenario.E3 0)
                (val_metrics
                   (resolve_task Scenario.E3
                      (Toy.config "davis" 3 false 1 None)))
                true Edge.before_first_validation
              = (Ok Edge.first_results, Edge.after_first_test))
    by (vm_compute; reflexivity).
  split; [exact H |].
  exact (watched_metric_is_computed (Toy.config "davis" 3 false 1 None) 0 _ _
           _ H).
Defined.

Lemma test_returns_one_value_per_metric_witness :
  NoDup (map fst (val_metrics Scenario.cfg3))
  /\ test TheModel (validation_generator Scenario.E3 0)
       (val_metrics Scenario.cfg3) true Edge.before_first_validation
     = (Ok Edge.first_results, Edge.after_first_test)
  /\ map fst Edge.first_results = map fst (val_metrics Scenario.cfg3).
Proof.
  assert (H1 : NoDup (map fst (val_metrics Scenario.cfg3))).
  { simpl. constructor; [intros [H | []]; discriminate H |].
    constructor; [intros [] | constructor]. }
  assert (H2 : test TheModel (validation_generator Scenario.E3 0)
                 (val_metrics Scenario.cfg3) true
                 Edge.before_first_validation
               = (Ok Edge.first_results, Edge.after_first_test))
    by (vm_compute; reflexivity).
  split; [exact H1 |]. split; [exact H2 |].
  exact (test_returns_one_value_per_metric _ _ _ _ _ H1 H2).
Defined.

Lemma checkpoint_on_improvement_witness :
  watch_metric Scenario.cfg3 = Some "val/aupr"
  /\ dict_get Edge.first_results "val/aupr" = Some (Num (61 # 100))
  /\ (max_metric Edge.after_first_test < 61 # 100)%Q
  /\ model_max
       (snd (checkpoint Scenario.cfg3 false 0 Edge.first_results
               Edge.after_first_test))
     = model Edge.after_first_test
  /\ max_metric
       (snd (checkpoint Scenario.cfg3 false 0 Edge.first_results
               Edge.after_first_test))
     = (61 # 100)%Q.
Proof.
  assert (H1 : watch_metric Scenario.cfg3 = Some "val/aupr") by reflexivity.
  assert (H2 : dict_get Edge.first_results "val/aupr" = Some (Num (61 # 100)))
    by reflexivity.
  assert (H3 : (max_metric Edge.after_first_test < 61 # 100)%Q)
    by (vm_compute; reflexivity).
  split; [exact H1 |]. split; [exact H2 |]. split; [exact H3 |].
  destruct (checkpoint_on_improvement Scenario.cfg3 false 0
              Edge.first_results Edge.after_first_test H1 H2 H3)
    as (C1 & C2 & _).
  split; [exact C1 | exact C2].
Defined.

Lemma empty_training_loader_raises_witness :
  (1 <= epochs Edge.cfg_two_epochs)%nat
  /\ wandb_proj Edge.cfg_two_epochs = None
  /\ construction Edge.E_empty
       (resolve_task Edge.E_empty Edge.cfg_two_epochs) = Ok tt
  /\ training_generator Edge.E_empty 0 = []
  /\ fst (main Edge.cfg_two_epochs (Toy.start Edge.E_empty))
     = Raise (PyException "UnboundLocalError").
Proof.
  assert (H1 : (1 <= epochs Edge.cfg_two_epochs)%nat) by (simpl; lia).
  assert (H2 : wandb_proj Edge.cfg_two_epochs = None) by reflexivity.
  assert (Hc : construction Edge.E_empty
                 (resolve_task Edge.E_empty Edge.cfg_two_epochs) = Ok tt)
    by reflexivity.
  assert (H3 : training_generator Edge.E_empty 0 = []) by reflexivity.
  split; [exact H1 |]. split; [exact H2 |]. split; [exact Hc |].
  split; [exact H3 |].
  exact (proj1 (empty_training_loader_raises Edge.cfg_two_epochs
                  (Toy.start Edge.E_empty) H1 H2 Hc H3)).
Defined.

Lemma zero_epochs_saves_nothing_witness :
  epochs Edge.cfg_no_epoch = 0%nat
  /\ wandb_proj Edge.cfg_no_epoch = None
  /\ construction Scenario.E3 (resolve_task Scenario.E3 Edge.cfg_no_epoch)
     = Ok tt
  /\ fs (snd (main Edge.cfg_no_epoch (Toy.start Scenario.E3)))
     = fs (Toy.start Scenario.E3).
Proof.
  assert (H1 : epochs Edge.cfg_no_epoch = 0%nat) by reflexivity.
  assert (H2 : wandb_proj Edge.cfg_no_epoch = None) by reflexivity.
  assert (Hc : construction Scenario.E3
                 (resolve_task Scenario.E3 Edge.cfg_no_epoch) = Ok tt)
    by reflexivity.
  split; [exact H1 |]. split; [exact H2 |]. split; [exact Hc |].
  exact (proj1 (zero_epochs_saves_nothing Edge.cfg_no_epoch
                  (Toy.start Scenario.E3) H1 H2 Hc)).
Defined.

Lemma zero_validation_period_never_returns_witness :
  every_n_val Edge.cfg_zero_period = 0%Z
  /\ (1 <= epochs Edge.cfg_zero_period)%nat
  /\ forall m, fst (main Edge.cfg_zero_period (Toy.start Scenario.E3)) <> Ok m.
Proof.
  assert (H1 : every_n_val Edge.cfg_zero_period = 0%Z) by reflexivity.
  assert (H2 : (1 <= epochs Edge.cfg_zero_period)%nat) by (simpl; lia).
  split; [exact H1 |]. split; [exact H2 |].
  exact (proj1 (zero_validation_period_never_returns Edge.cfg_zero_period
                  (Toy.start Scenario.E3) H1 H2)).
Defined.

Lemma no_project_no_sink_call_witness :
  wandb_proj Edge.cfg_two_epochs = None
  /\ wandb (snd (main Edge.cfg_two_epochs (Toy.start Scenario.E3)))
     = wandb (Toy.start Scenario.E3).
Proof.
  assert (H : wandb_proj Edge.cfg_two_epochs = None) by reflexivity.
  split; [exact H |].
  exact (no_project_no_sink_call Edge.cfg_two_epochs (Toy.start Scenario.E3)
           H).
Defined.

Lemma best_value_bounds_compared_values_witness :
  (forall epo v, ~ In (EvCompare epo v) (trace (Toy.start Scenario.E_pcc)))
  /\ (0 <= max_metric
             (snd (main Scenario.cfg_pcc (Toy.start Scenario.E_pcc))))%Q.
Proof.
  assert (H : forall epo v,
             ~ In (EvCompare epo v) (trace (Toy.start Scenario.E_pcc)))
    by (intros epo v []).
  split; [exact H |].
  exact (proj1 (best_value_bounds_compared_values Scenario.cfg_pcc
                  (Toy.start Scenario.E_pcc) H)).
Defined.

Lemma distinct_epochs_distinct_checkpoints_witness :
  9%nat <> 10%nat
  /\ epoch_save_path "out" "exp" 9 <> epoch_save_path "out" "exp" 10.
Proof.
  assert (H : 9%nat <> 10%nat) by lia.
  split; [exact H |].
  exact (distinct_epochs_distinct_checkpoints "out" "exp" H).
Defined.

Lemma command_line_overrides_file_witness :
  NoDup (map fst Edge.args)
  /\ In ("task", Some "bindingdb") Edge.args
  /\ (forall v, ~ In ("epochs", Some v) Edge.args)
  /\ conf_get (load_config Edge.file Edge.args) "task" = Some "bindingdb"
  /\ conf_get (load_config Edge.file Edge.args) "epochs"
     = conf_get Edge.file "epochs".
Proof.
  assert (H1 : NoDup (map fst Edge.args)).
  { simpl. repeat (constructor; [simpl; intuition discriminate |]).
    constructor. }
  assert (H2 : In ("task", Some "bindingdb") Edge.args)
    by (simpl; tauto).
  assert (H3 : forall v, ~ In ("epochs", Some v) Edge.args)
    by (intros v H; simpl in H; intuition discriminate).
  split; [exact H1 |]. split; [exact H2 |]. split; [exact H3 |].
  split.
  - exact (proj1 (command_line_overrides_file Edge.file Edge.args "task" H1)
             _ H2).
  - exact (proj2 (command_line_overrides_file Edge.file Edge.args "epochs" H1)
             H3).
Defined.

Lemma returned_model_is_in_eval_mode_witness :
  fst (main Edge.cfg_two_epochs (Toy.start Scenario.E3))
  = Ok (mkModel (E := Scenario.E3) 2%nat false)
  /\ training (mkModel (E := Scenario.E3) 2%nat false) = false.
Proof.
  assert (H : fst (main Edge.cfg_two_epochs (Toy.start Scenario.E3))
              = Ok (mkModel (E := Scenario.E3) 2%nat false))
    by (vm_compute; reflexivity).
  split; [exact H |].
  exact (proj2 (returned_model_is_in_eval_mode Edge.cfg_two_epochs
                  (Toy.start Scenario.E3) H)).
Defined.

Lemma contrastive_off_no_contrastive_step_witness :
  contrastive Edge.cfg_two_epochs = false
  /\ con (snd (main Edge.cfg_two_epochs (Toy.start Scenario.E3))) = None.
Proof.
  assert (H : contrastive Edge.cfg_two_epochs = false) by reflexivity.
  split; [exact H |].
  exact (proj1 (contrastive_off_no_contrastive_step Edge.cfg_two_epochs
                  (Toy.start Scenario.E3) H)).
Defined.

Lemma returning_run_trains_every_epoch_witness :
  main Edge.cfg_two_epochs (Toy.start Scenario.E3)
  = (Ok (mkModel (E := Scenario.E3) 2%nat false), Edge.after_two_epochs)
  /\ (filter (@is_training_event Scenario.E3)
        (rev (trace Edge.after_two_epochs))
      = filter (@is_training_event Scenario.E3)
          (rev (trace (Toy.start Scenario.E3)))
        ++ run_training_events Scenario.E3 Edge.cfg_two_epochs
      /\ lr_scheduler Edge.after_two_epochs = epochs Edge.cfg_two_epochs)
  /\ run_training Edge.cfg_two_epochs
       (training_vars_of
          (init_vars Edge.cfg_two_epochs (Toy.start Scenario.E3)))
     = Ok (training_vars_of Edge.after_two_epochs).
Proof.
  assert (H : main Edge.cfg_two_epochs (Toy.start Scenario.E3)
              = (Ok (mkModel (E := Scenario.E3) 2%nat false),
                 Edge.after_two_epochs))
    by (vm_compute; reflexivity).
  split; [exact H |].
  exact (returning_run_trains_every_epoch Edge.cfg_two_epochs _ H).
Defined.

Lemma empty_contrastive_loader_never_returns_witness :
  contrastive Edge.cfg_contrastive = true
  /\ (1 <= epochs Edge.cfg_contrastive)%nat
  /\ contrastive_generator Edge.E_no_triplets 0 = []
  /\ forall m,
       fst (main Edge.cfg_contrastive (Toy.start Edge.E_no_triplets))
       <> Ok m.
Proof.
  assert (H1 : contrastive Edge.cfg_contrastive = true) by reflexivity.
  assert (H2 : (1 <= epochs Edge.cfg_contrastive)%nat) by (simpl; lia).
  assert (H3 : contrastive_generator Edge.E_no_triplets 0 = [])
    by reflexivity.
  split; [exact H1 |]. split; [exact H2 |]. split; [exact H3 |].
  exact (proj1 (empty_contrastive_loader_never_returns Edge.cfg_contrastive
                  (Toy.start Edge.E_no_triplets) H1 H2 H3)).
Defined.

(** ** What validation and the terminal test evaluate *)

Section PassFacts.

Variable E : Env.

Lemma In_dict_set_other (d : dict) k v k' v' :
  In (k, v) d -> k <> k' -> In (k, v) (dict_set d k' v').
Proof.
  intros Hin Hne. induction d as [| [k0 v0] d IH]; simpl in *; [tauto |].
  destruct (String.eqb_spec k0 k') as [-> | Hk].
  - destruct Hin as [H | H]; [| right; exact H].
    injection H as -> _. contradiction.
  - destruct Hin as [H | H]; [left; exact H | right; exact (IH H)].
Qed.

Lemma log_items_logs (d : dict) :
  forall s : State E,
    fst (log_items d s) = Ok tt
    /\ (forall x, In x (logs s) -> In x (logs (snd (log_items d s))))
    /\ (forall k v,
          In (k, v) d -> String.prefix "_" k = false ->
          In (INFO, MsgKeyValue k v) (logs (snd (log_items d s))))
    /\ train_view (snd (log_items d s)) = train_view s.
Proof.
  unfold log_items.
  induction d as [| [k0 v0] d IH]; intros s; simpl.
  - repeat split; tauto.
  - unfold bind. destruct (String.prefix "_" k0) eqn:Hp; simpl.
    + destruct (IH s) as (I1 & I2 & I3 & I4).
      split; [exact I1 |]. split; [exact I2 |]. split; [| exact I4].
      intros k v [H | H] Hk; [| exact (I3 k v H Hk)].
      injection H as <- <-. rewrite Hp in Hk. discriminate Hk.
    + destruct (IH (set_logs ((INFO, MsgKeyValue k0 v0) :: logs s) s))
        as (I1 & I2 & I3 & I4).
      split; [exact I1 |]. split; [| split; [| exact I4]].
      * intros x Hx. apply I2. right. exact Hx.
      * intros k v [H | H] Hk; [| exact (I3 k v H Hk)].
        injection H as <- <-. apply I2. left. reflexivity.
Qed.

Lemma test_metrics_NoDup cfg : NoDup (map fst (test_metrics cfg)).
Proof.
  unfold test_metrics. destruct (is_dti_dg cfg); simpl;
    (constructor;
     [ simpl; intros [E1 | []]; discriminate E1
     | constructor; [intros [] | constructor] ]).
Qed.

(** A checkpoint decision that returns has compared the watched value and
    holds the greater of the two as best value; it assigns nothing to the
    live model. *)
Lemma checkpoint_Ok cfg dw epo val_results (s s' : State E) :
  checkpoint cfg dw epo val_results s = (Ok tt, s') ->
  exists k v,
    watch_metric cfg = Some k
    /\ dict_get val_results k = Some v
    /\ In (EvCompare epo v) (trace s')
    /\ max_metric s' = best_after v (max_metric s)
    /\ model s' = model s.
Proof.
  intros H. unfold checkpoint in H.
  bind_inv2 H. unfold dict_lookup in H0.
  destruct (watch_metric cfg) as [k |]; [| discriminate H0].
  destruct (dict_get val_results k) as [v |] eqn:Hv; [| discriminate H0].
  injection H0 as <- <-.
  bind_inv2 H. injection H0 as _ <-.
  bind_inv2 H. apply gets_Ok in H0. destruct H0 as [-> ->]. simpl in H.
  exists k, v. split; [reflexivity |]. split; [exact Hv |].
  clear Hv. destruct v as [q |]; simpl.
  - destruct (Qgtb q (max_metric s)) eqn:Hg.
    + bind_inv2 H. injection H0 as _ <-.
      bind_inv2 H. apply gets_Ok in H0. destruct H0 as [-> ->].
      bind_inv2 H. injection H0 as _ <-.
      bind_inv2 H. injection H0 as _ <-.
      match type of H with ?m ?st = _ =>
        assert (K : keeps (fun t : State E => (max_metric t, model t)) m)
          by (unfold log_artifact; repeat keeps_step);
        assert (Em : emits (fun _ => True) m)
          by (unfold log_artifact; repeat emits_step);
        specialize (K st); destruct (Em st) as (tr & Htr & _)
      end.
      rewrite H in K, Htr. simpl in K, Htr. injection K as K1 K2.
      rewrite Htr, K1, K2. split; [| split; reflexivity].
      apply in_or_app. right. left. reflexivity.
    + injection H as <-. simpl. split; [left; reflexivity |].
      split; reflexivity.
  - injection H as <-. simpl. split; [left; reflexivity |].
    split; reflexivity.
Qed.

(** C6. In an epoch that runs to its end, the validation pass runs exactly
    when the epoch index is a multiple of [every_n_val] (so in epoch 0).
    When it runs, it is the full pass on the model the training passes
    left: the validation metrics are those [test] computes from its
    parameters on the validation loader, the watched one is compared with
    the best value, which becomes the greater of the two, the model is left
    in eval mode and the pass is logged.  In any other epoch nothing happens
    after the training passes: the state the epoch leaves is the state they
    left, so no metric is computed and no checkpoint considered. *)
Theorem validation_runs_on_cadence cfg dw epo (s s' : State E) :
  epoch cfg dw epo s = (Ok tt, s') ->
  (exists tr,
      trace s' = tr ++ trace s
      /\ (In (EvValidate epo) tr
          <-> (Z.of_nat epo mod every_n_val cfg = 0)%Z)
      /\ ((Z.of_nat epo mod every_n_val cfg <> 0)%Z ->
          Forall (training_event E) tr)
      /\ (epo = 0%nat -> In (EvValidate epo) tr))
  /\ exists s1,
       (supervised_pass cfg dw epo ;;; contrastive_pass cfg dw epo) s
       = (Ok tt, s1)
       /\ if Z.eqb (Z.of_nat epo mod every_n_val cfg) 0
          then exists results k v,
                 evaluation (params (model s1)) (validation_generator E epo)
                   (val_metrics cfg) (classify_flag cfg)
                 = Ok results
                 /\ watch_metric cfg = Some k
                 /\ dict_get (annotate_val_results E cfg epo results) k
                    = Some v
                 /\ In (EvCompare epo v) (trace s')
                 /\ max_metric s' = best_after v (max_metric s1)
                 /\ training (model s') = false
                 /\ In (INFO, MsgValidationAt (epo + 1)) (logs s')
          else s' = s1.
Proof.
  intros H. split.
  - unfold epoch in H. bind_inv2 H. bind_inv2 H.
    destruct (supervised_pass_emits cfg dw epo s) as (t1 & T1 & F1).
    rewrite H0 in T1. simpl in T1.
    destruct (contrastive_pass_emits cfg dw epo s0) as (t2 & T2 & F2).
    rewrite H1 in T2. simpl in T2.
    assert (Hno : forall t,
               Forall (training_event E) t -> ~ In (EvValidate epo) t).
    { intros t F Hin. rewrite Forall_forall in F. apply (F _ Hin). }
    unfold validation_cadence in H. bind_inv2 H.
    unfold lift in H2. injection H2 as Hr <-.
    apply py_mod_Ok in Hr. destruct Hr as [Hn ->].
    destruct (Z.eqb_spec (Z.of_nat epo mod every_n_val cfg) 0) as [Hz | Hz].
    + destruct (validation_trace cfg dw epo s1) as (t3 & T3).
      rewrite H in T3. simpl in T3.
      exists ((t3 ++ [EvValidate epo]) ++ t2 ++ t1).
      assert (Hin : In (EvValidate epo)
                      ((t3 ++ [EvValidate epo]) ++ t2 ++ t1)).
      { apply in_or_app. left. apply in_or_app. right. left. reflexivity. }
      split; [| split; [| split]].
      * rewrite T3, T2, T1. rewrite <- !app_assoc. reflexivity.
      * split; intros _; assumption.
      * intros Hne. contradiction.
      * intros _. exact Hin.
    + injection H as <-. exists (t2 ++ t1).
      assert (F : Forall (training_event E) (t2 ++ t1))
        by (apply Forall_app; split; assumption).
      split; [| split; [| split]].
      * rewrite T2, T1. apply app_assoc.
      * split; intros Hin; [exfalso; exact (Hno _ F Hin) | contradiction].
      * intros _. exact F.
      * intros ->. exfalso. apply Hz. apply Z.mod_0_l. exact Hn.
  - unfold epoch in H. bind_inv2 H. bind_inv2 H. destruct a, a0.
    exists s1. split.
    { unfold bind. rewrite H0. exact H1. }
    unfold validation_cadence in H. bind_inv2 H.
    unfold lift in H2. injection H2 as Hr <-.
    apply py_mod_Ok in Hr. destruct Hr as [Hn ->].
    destruct (Z.eqb (Z.of_nat epo mod every_n_val cfg) 0).
    2: { injection H as <-. reflexivity. }
    unfold validation in H.
    apply bind_Ok_inv in H. destruct H as (u1 & t1 & V1 & H).
    injection V1 as _ <-.
    apply bind_Ok_inv in H. destruct H as (results & t2 & V2 & H).
    assert (Kt : max_metric t2 = max_metric s1).
    { pose proof (test_keeps_max_metric TheModel (validation_generator E epo)
                    (val_metrics cfg) (classify_flag cfg)
                    (set_trace (EvValidate epo :: trace s1) s1)) as K.
      rewrite V2 in K. exact K. }
    apply test_evaluation in V2. destruct V2 as (Hev & Hmode & _).
    simpl in Hev, Hmode.
    apply bind_Ok_inv in H. destruct H as (u3 & t3 & V3 & H).
    kept (fun t : State E => (max_metric t, model t)) V3.
    injection K as K1 K2.
    apply bind_Ok_inv in H. destruct H as (u4 & t4 & V4 & H). destruct u4.
    apply checkpoint_Ok in V4.
    destruct V4 as (k & v & Hk & Hv & Hc & Hm & Hmo).
    apply bind_Ok_inv in H. destruct H as (u5 & t5 & V5 & H).
    injection V5 as _ <-.
    destruct (log_items_logs (annotate_val_results E cfg epo results)
                (set_logs ((INFO, MsgValidationAt (epo + 1)) :: logs t4) t4))
      as (_ & L2 & _ & L4).
    rewrite H in L2, L4. simpl in L2, L4.
    unfold train_view in L4. injection L4.
    intros T' _ _ _ _ M' _ _ _ Mo'.
    exists results, k, v. split; [exact Hev |]. split; [exact Hk |].
    split; [exact Hv |]. split; [rewrite T'; exact Hc |].
    split; [rewrite M', Hm, K1, Kt; reflexivity |].
    split; [rewrite Mo', Hmo, K2; exact Hmode |].
    apply L2. left. reflexivity.
Qed.

Lemma test_metrics_keys cfg k :
  In k (map fst (test_metrics cfg)) ->
  String.prefix "_" k = false
  /\ k <> "epoch" /\ k <> "test/eval_time" /\ k <> "Charts/wall_clock_time".
Proof.
  unfold test_metrics. destruct (is_dti_dg cfg); simpl;
    intros [<- | [<- | []]]; repeat split; discriminate.
Qed.

(** C5. The terminal test pass evaluates [model_max] and leaves the live
    model alone: whatever its outcome, it enters [test] on the parameters of
    [model_max], after that can only save, and assigns nothing to [model].
    When it runs to its end, the test metrics it has logged are those
    [test] computes from the parameters of [model_max] on the test loader,
    one per entry of the table, and it has saved these parameters once
    more, under [{save_dir}/{experiment_id}_best_model.pt], a path that no
    per-epoch checkpoint has. *)
Theorem terminal_test_uses_best_model cfg dw (s : State E) :
  (exists tr,
      trace (snd (terminal_test cfg dw s))
      = tr ++ EvEvaluate (params (model_max s)) :: trace s
      /\ Forall (fun ev => exists path p, ev = EvSave path p) tr)
  /\ (forall s',
        terminal_test cfg dw s = (Ok tt, s') ->
        rev (trace s')
        = rev (trace s)
          ++ [EvEvaluate (params (model_max s));
              EvSave (final_save_path (save_dir cfg) (experiment_id cfg))
                (params (model_max s))]
        /\ fs s'
           = (final_save_path (save_dir cfg) (experiment_id cfg),
              params (model_max s)) :: fs s)
  /\ (forall epo,
        final_save_path (save_dir cfg) (experiment_id cfg)
        <> epoch_save_path (save_dir cfg) (experiment_id cfg) epo)
  /\ model (snd (terminal_test cfg dw s)) = model s
  /\ (forall s',
        terminal_test cfg dw s = (Ok tt, s') ->
        exists results,
          evaluation (params (model_max s)) (testing_generator E)
            (test_metrics cfg) (classify_flag cfg)
          = Ok results
          /\ map fst results = map fst (test_metrics cfg)
          /\ forall k v,
               In (k, v) results ->
               In (INFO, MsgKeyValue k v) (logs s')).
Proof.
  split; [apply terminal_test_trace |].
  split.
  { intros s' H. apply terminal_test_Ok in H. destruct H as [T F].
    split; [| exact F].
    rewrite T. rewrite rev_app_distr. reflexivity. }
  split; [intros epo; apply final_path_not_epoch_path |].
  split.
  { assert (K : keeps (@model E) (terminal_test cfg dw)) by keeps_auto.
    apply K. }
  intros s' H. unfold terminal_test in H.
  apply bind_Ok_inv in H. destruct H as (u1 & t1 & V1 & H).
  injection V1 as _ <-.
  apply bind_Ok_inv in H. destruct H as (results & t2 & V2 & H).
  pose proof (test_keys _ _ _ _ _ (test_metrics_NoDup cfg) V2) as Hkeys.
  apply test_evaluation in V2. destruct V2 as (Hev & _). simpl in Hev.
  exists results. split; [exact Hev |]. split; [exact Hkeys |].
  intros k v Hin.
  assert (Hk : In k (map fst (test_metrics cfg))).
  { rewrite <- Hkeys. apply in_map_iff. exists (k, v). split;
      [reflexivity | exact Hin]. }
  apply test_metrics_keys in Hk. destruct Hk as (Hp & N1 & N2 & N3).
  apply bind_Ok_inv in H. destruct H as (epo1 & t3 & V3 & H).
  apply bind_Ok_inv in H. destruct H as (u4 & t4 & V4 & H).
  apply bind_Ok_inv in H. destruct H as (u5 & t5 & V5 & H).
  apply bind_Ok_inv in H. destruct H as (u6 & t6 & V6 & H).
  match type of V6 with log_items ?d ?st = _ =>
    destruct (log_items_logs d st) as (_ & _ & L3 & _);
    specialize (L3 k v)
  end.
  rewrite V6 in L3. simpl in L3.
  assert (Hl : In (INFO, MsgKeyValue k v) (logs t6)).
  { apply L3; [| exact Hp].
    apply In_dict_set_other; [| exact N3].
    apply In_dict_set_other; [| exact N2].
    apply In_dict_set_other; [exact Hin | exact N1]. }
  apply bind_Ok_inv in H. destruct H as (best & t7 & V7 & H).
  apply gets_Ok in V7. destruct V7 as [-> ->].
  apply bind_Ok_inv in H. destruct H as (u8 & t8 & V8 & H).
  kept (@logs E) V8.
  apply bind_Ok_inv in H. destruct H as (u9 & t9 & V9 & H).
  injection V9 as _ <-.
  kept (@logs E) H. rewrite K0. simpl. right. rewrite K. exact Hl.
Qed.

(** X19. A watched value that is NaN never checkpoints: the comparison of
    line 488 is false, so the decision returns normally and assigns nothing,
    whatever the best value is; no file, no upload, no log line.  Only the
    ghost trace records that the comparison was made. *)
Theorem nan_never_checkpoints cfg dw epo val_results (s : State E) k :
  watch_metric cfg = Some k ->
  dict_get val_results k = Some NaN ->
  checkpoint cfg dw epo val_results s
  = (Ok tt, set_trace (EvCompare epo NaN :: trace s) s).
Proof.
  intros Hk Hv. unfold checkpoint, dict_lookup. rewrite Hk, Hv.
  reflexivity.
Qed.

End PassFacts.

Lemma terminal_test_uses_best_model_witness :
  terminal_test Scenario.cfg3 false Scenario.after_loop
  = (Ok tt, Scenario.after_terminal_test)
  /\ params (model Scenario.after_loop) = 3%nat
  /\ params (model_max Scenario.after_loop) = 2%nat
  /\ evaluation (E := Scenario.E3) 2%nat (testing_generator Scenario.E3)
       (test_metrics Scenario.cfg3) (classify_flag Scenario.cfg3)
     = Ok [("test/aupr", Num (74 # 100)); ("test/auroc", Num (74 # 100))]
  /\ evaluation (E := Scenario.E3) 3%nat (testing_generator Scenario.E3)
       (test_metrics Scenario.cfg3) (classify_flag Scenario.cfg3)
     = Ok [("test/aupr", Num (68 # 100)); ("test/auroc", Num (68 # 100))]
  /\ In (INFO, MsgKeyValue "test/aupr" (Num (74 # 100)))
       (logs Scenario.after_terminal_test)
  /\ fs Scenario.after_terminal_test
     = ("out/exp_best_model.pt", 2%nat) :: fs Scenario.after_loop.
Proof.
  assert (H : terminal_test Scenario.cfg3 false Scenario.after_loop
              = (Ok tt, Scenario.after_terminal_test))
    by (vm_compute; reflexivity).
  assert (H2 : params (model_max Scenario.after_loop) = 2%nat)
    by (vm_compute; reflexivity).
  assert (Hc : evaluation (E := Scenario.E3) 2%nat
                 (testing_generator Scenario.E3)
                 (test_metrics Scenario.cfg3) (classify_flag Scenario.cfg3)
               = Ok [("test/aupr", Num (74 # 100));
                     ("test/auroc", Num (74 # 100))])
    by (vm_compute; reflexivity).
  split; [exact H |].
  split; [vm_compute; reflexivity |].
  split; [exact H2 |].
  split; [exact Hc |].
  split; [vm_compute; reflexivity |].
  destruct (terminal_test_uses_best_model Scenario.cfg3 false
              Scenario.after_loop) as (_ & Hsave & _ & _ & Hres).
  destruct (Hres _ H) as (results & Hev & _ & Hlog).
  destruct (Hsave _ H) as (_ & Hfs).
  rewrite H2 in Hev, Hfs. rewrite Hc in Hev. injection Hev as <-.
  split; [apply Hlog; left; reflexivity | exact Hfs].
Defined.

Lemma validation_runs_on_cadence_witness :
  epoch Scenario.cfg3c false 0 Scenario.after_setup_c
  = (Ok tt, Scenario.after_epoch0_c)
  /\ epoch Scenario.cfg3c false 1 Scenario.after_epoch0_c
     = (Ok tt, Scenario.after_epoch1_c)
  /\ every_n_val Scenario.cfg3c = 2%Z
  /\ (exists v, In (EvCompare 0 v) (trace Scenario.after_epoch0_c))
  /\ training (model Scenario.after_epoch0_c) = false
  /\ In (INFO, MsgValidationAt 1) (logs Scenario.after_epoch0_c)
  /\ (supervised_pass Scenario.cfg3c false 1 ;;;
      contrastive_pass Scenario.cfg3c false 1) Scenario.after_epoch0_c
     = (Ok tt, Scenario.after_epoch1_c).
Proof.
  assert (H0 : epoch Scenario.cfg3c false 0 Scenario.after_setup_c
               = (Ok tt, Scenario.after_epoch0_c))
    by (vm_compute; reflexivity).
  assert (H1 : epoch Scenario.cfg3c false 1 Scenario.after_epoch0_c
               = (Ok tt, Scenario.after_epoch1_c))
    by (vm_compute; reflexivity).
  assert (Hn : every_n_val Scenario.cfg3c = 2%Z) by reflexivity.
  split; [exact H0 |]. split; [exact H1 |]. split; [exact Hn |].
  destruct (validation_runs_on_cadence Scenario.cfg3c false 0 _ H0)
    as (_ & s0 & _ & V0).
  destruct (validation_runs_on_cadence Scenario.cfg3c false 1 _ H1)
    as (_ & s1 & P1 & V1).
  rewrite Hn in V0, V1. simpl in V0, V1.
  destruct V0 as (results & k & v & _ & _ & _ & Hc & _ & Hm & Hl).
  split; [exists v; exact Hc |]. split; [exact Hm |]. split; [exact Hl |].
  rewrite V1. exact P1.
Defined.

(** C9, as stated, at a run the code can make: a sink whose [wandb.log]
    raises.  With the project configured the first batch of the first epoch
    raises and the run ends there, with no update and no file; without it
    the same configuration trains, checkpoints and returns a model. *)
Lemma sink_failure_changes_the_run :
  fst (main (with_sink "dti" Edge.cfg_two_epochs)
         (Toy.start Edge.E_sink_down))
  = Raise (PyException "CommError")
  /\ fst (main (without_sink Edge.cfg_two_epochs)
            (Toy.start Edge.E_sink_down))
     = Ok (mkModel (E := Edge.E_sink_down) 2%nat false)
  /\ train_view (snd (main (with_sink "dti" Edge.cfg_two_epochs)
                        (Toy.start Edge.E_sink_down)))
     <> train_view (snd (main (without_sink Edge.cfg_two_epochs)
                           (Toy.start Edge.E_sink_down)))
  /\ fs (snd (main (with_sink "dti" Edge.cfg_two_epochs)
                (Toy.start Edge.E_sink_down)))
     = []
  /\ map fst
       (fs (snd (main (without_sink Edge.cfg_two_epochs)
                   (Toy.start Edge.E_sink_down))))
     = ["out/exp_best_model.pt"; "out/exp_best_model_epoch01.pt";
        "out/exp_best_model_epoch00.pt"].
Proof.
  split; [vm_compute; reflexivity |].
  split; [vm_compute; reflexivity |].
  split; [vm_compute; intros H; discriminate H |].
  split; vm_compute; reflexivity.
Qed.

Lemma nan_never_checkpoints_witness :
  watch_metric (resolve_task Scenario.E_pcc Scenario.cfg_pcc)
  = Some "val/pcc"
  /\ dict_get [("val/mse", Num (1 # 4)); ("val/pcc", NaN)] "val/pcc"
     = Some NaN
  /\ max_metric
       (snd (checkpoint (resolve_task Scenario.E_pcc Scenario.cfg_pcc) false
               0 [("val/mse", Num (1 # 4)); ("val/pcc", NaN)]
               Scenario.before_first_validation))
     = max_metric Scenario.before_first_validation.
Proof.
  assert (H1 : watch_metric (resolve_task Scenario.E_pcc Scenario.cfg_pcc)
               = Some "val/pcc") by reflexivity.
  assert (H2 : dict_get [("val/mse", Num (1 # 4)); ("val/pcc", NaN)]
                 "val/pcc"
               = Some NaN) by reflexivity.
  split; [exact H1 |]. split; [exact H2 |].
  rewrite (nan_never_checkpoints
             (resolve_task Scenario.E_pcc Scenario.cfg_pcc) false 0
             [("val/mse", Num (1 # 4)); ("val/pcc", NaN)]
             Scenario.before_first_validation H1 H2).
  reflexivity.
Defined.
